(** * EXIF privacy cleaner: a shallow embedding of [exif-cleaner.js]

    The repository ships two variants of the same browser-side routine:
    the debug-logging variant with the four-tier serialization fallback, and
    the plain single-pass variant under [scripts/exif-cleaner.js].  Both are
    embedded below, over a shared model of JavaScript values and of the
    external [piexifjs] codec, which is an interface here (a record of
    functions that may throw).

    Conventions.
    - A JS object used as a tag directory is a [gmap N JsValue]; reading an
      absent key yields [VUndefined], as in JS.  [piexif.load] always
      returns the five groups, so a decoded document is a record of five
      directories and the [|| {}] fallbacks of the source never fire.
    - A thrown exception is the left injection of a sum; [try]/[catch] is a
      [match] on it.
    - The mutable [result] object is threaded explicitly; what was pushed
      onto its lists before a [throw] is still there in the [catch].
    - A Blob is identified with the data URL of its bytes.  Console
      logging, [lastModified] stamps and the caching of the dynamic imports
      have no counterpart here. *)

From Stdlib Require Import Ascii String QArith.
From stdpp Require Import base option list gmap strings pretty.

Set Warnings "-register-all".

Local Open Scope string_scope.
Local Open Scope N_scope.

(** ** JavaScript values *)

(** Numbers as piexifjs decodes them (integers), plus the three non-finite
    values the cleaner tests for. *)
Inductive JsNum :=
  | Fin (z : Z)
  | NaN
  | PosInfinity
  | NegInfinity.

Inductive JsValue :=
  | VUndefined
  | VNull
  | VNum (n : JsNum)
  | VStr (s : string)
  | VArr (l : list JsValue).

(** A thrown value: an [Error] object (only [.message] is ever read) or a
    bare string, which piexifjs also throws. *)
Inductive Exn :=
  | JsError (msg : string)
  | JsThrown (s : string).

Definition numToString (n : JsNum) : string :=
  match n with
  | Fin z => pretty z
  | NaN => "NaN"
  | PosInfinity => "Infinity"
  | NegInfinity => "-Infinity"
  end.

(** [String(v)], as template literals apply it. *)
Fixpoint toStr (v : JsValue) : string :=
  match v with
  | VUndefined => "undefined"
  | VNull => "null"
  | VNum n => numToString n
  | VStr s => s
  | VArr l =>
      (fix join (l : list JsValue) : string :=
         match l with
         | [] => ""
         | x :: r =>
             let sx := match x with
                       | VUndefined | VNull => ""
                       | _ => toStr x
                       end in
             match r with
             | [] => sx
             | _ :: _ => sx +:+ "," +:+ join r
             end
         end) l
  end.

(** JS truthiness ([if (v)]). *)
Definition truthy (v : JsValue) : bool :=
  match v with
  | VUndefined | VNull => false
  | VNum (Fin z) => negb (Z.eqb z 0)
  | VNum NaN => false
  | VNum _ => true
  | VStr s => negb (String.eqb s "")
  | VArr _ => true
  end.

(** [v !== undefined] *)
Definition isDefined (v : JsValue) : bool :=
  match v with VUndefined => false | _ => true end.

(** [v !== undefined && v !== null] *)
Definition notNullish (v : JsValue) : bool :=
  match v with VUndefined | VNull => false | _ => true end.

(** [error.message], which is [undefined] on a thrown string. *)
Definition message (e : Exn) : JsValue :=
  match e with
  | JsError m => VStr m
  | JsThrown _ => VUndefined
  end.

(** [String(error)] *)
Definition exnToString (e : Exn) : string :=
  match e with
  | JsError m => if String.eqb m "" then "Error" else "Error: " +:+ m
  | JsThrown s => s
  end.

(** [error.message || String(error)] *)
Definition errorText (e : Exn) : string :=
  if truthy (message e) then toStr (message e) else exnToString e.

(** ** Strings *)

Definition isDigit (c : ascii) : bool :=
  let n := N_of_ascii c in (48 <=? n) && (n <=? 57).

Definition lowerChar (c : ascii) : ascii :=
  let n := N_of_ascii c in
  if (65 <=? n) && (n <=? 90) then ascii_of_N (n + 32) else c.

(** [s.toLowerCase()] on the ASCII range. *)
Fixpoint toLowerCase (s : string) : string :=
  match s with
  | EmptyString => EmptyString
  | String c r => String (lowerChar c) (toLowerCase r)
  end.

(** [s.endsWith(suffix)] *)
Definition endsWith (s suffix : string) : bool :=
  let n := String.length s in
  let k := String.length suffix in
  (k <=? n)%nat && String.eqb (substring (n - k) k s) suffix.

(** [String(n).padStart(2, '0')] *)
Definition pad2 (n : N) : string :=
  let s := pretty n in
  if (String.length s <? 2)%nat then "0" +:+ s else s.

(** The regular expression [/^(\d{4}):(\d{2}):(\d{2})/]: when the string
    starts with four digits, a colon, two digits, a colon and two digits,
    the three captured groups. *)
Definition matchDatePrefix (s : string) : option (string * string * string) :=
  match s with
  | String y1 (String y2 (String y3 (String y4 (String c1
      (String m1 (String m2 (String c2 (String d1 (String d2 _))))))))) =>
      if isDigit y1 && isDigit y2 && isDigit y3 && isDigit y4
         && Ascii.eqb c1 ":" && isDigit m1 && isDigit m2
         && Ascii.eqb c2 ":" && isDigit d1 && isDigit d2
      then Some (String y1 (String y2 (String y3 (String y4 EmptyString))),
                 String m1 (String m2 EmptyString),
                 String d1 (String d2 EmptyString))
      else None
  | _ => None
  end.

(** [formatExifDate]: [null] is [None]; calling [.match] on a truthy value
    that is not a string throws a [TypeError]. *)
Definition formatExifDate (dateStr : JsValue) : Exn + option string :=
  if negb (truthy dateStr) then inr None
  else match dateStr with
       | VStr s =>
           match matchDatePrefix s with
           | Some (y, m, d) => inr (Some (y +:+ ":" +:+ m +:+ ":" +:+ d +:+ " 00:00:00"))
           | None => inr None
           end
       | _ => inl (JsError "dateStr.match is not a function")
       end.

(** [file.name.replace(/\.(heic|heif)$/i, '.jpg')] *)
Definition replaceHeicSuffix (name : string) : string :=
  let low := toLowerCase name in
  if endsWith low ".heic" || endsWith low ".heif"
  then substring 0 (String.length name - 5) name +:+ ".jpg"
  else name.

(** ** Tag directories *)

(** One IFD: a JS object keyed by tag id. *)
Abbreviation Ifd := (gmap N JsValue).

(** [ifd[k]] *)
Definition get (ifd : Ifd) (k : N) : JsValue := default VUndefined (ifd !! k).

(** [Object.keys(ifd).length > 0] *)
Definition nonEmpty (ifd : Ifd) : bool := (0 <? size ifd)%nat.

(** The object [piexif.load] returns: five tag groups (['0th'], ['Exif'],
    ['GPS'], ['1st'], ['Interop']) and the [thumbnail] property. *)
Record ExifObj := {
  zeroth : Ifd;
  Exif : Ifd;
  GPS : Ifd;
  first : Ifd;
  Interop : Ifd;
  thumbnail : JsValue
}.

(** The literal [{ '0th': {}, 'Exif': {}, 'GPS': {}, '1st': {}, 'Interop': {} }]. *)
Definition emptyExif : ExifObj :=
  {| zeroth := ∅; Exif := ∅; GPS := ∅; first := ∅; Interop := ∅;
     thumbnail := VUndefined |}.

(** Modelled from the spec: the constant tables [piexif.ImageIFD] and
    [piexif.ExifIFD] belong to piexifjs, which is not among the sources.
    The values are the EXIF tag numbers those names denote; the source's own
    [PRIVACY_TAGS] and [USEFUL_TAGS] tables and its comments
    ([piexif.ImageIFD.Orientation = 274 (0x0112)]) repeat most of them. *)
Module ImageIFD.
Definition Make : N := 271.
Definition Model : N := 272.
Definition Orientation : N := 274.
Definition XResolution : N := 282.
Definition YResolution : N := 283.
Definition ResolutionUnit : N := 296.
Definition Software : N := 305.
Definition DateTime : N := 306.
Definition Artist : N := 315.
Definition YCbCrPositioning : N := 531.
Definition Copyright : N := 33432.
End ImageIFD.

Module ExifIFD.
Definition DateTimeOriginal : N := 36867.
Definition MakerNote : N := 37500.
Definition UserComment : N := 37510.
Definition ColorSpace : N := 40961.
Definition PixelXDimension : N := 40962.
Definition PixelYDimension : N := 40963.
Definition ImageUniqueID : N := 42016.
Definition CameraOwnerName : N := 42032.
Definition BodySerialNumber : N := 42033.
Definition LensMake : N := 42035.
Definition LensModel : N := 42036.
Definition LensSerialNumber : N := 42037.
End ExifIFD.

(** [PRIVACY_TAGS], documented in the source as the privacy-related tags
    that need to be deleted. *)
Definition PRIVACY_TAGS : list (string * N) :=
  [ ("Make", 0x010F); ("Model", 0x0110); ("Software", 0x0131);
    ("HostComputer", 0x013C);
    ("MakerNote", 0x927C); ("UserComment", 0x9286);
    ("ImageUniqueID", 0xA420); ("CameraOwnerName", 0xA430);
    ("BodySerialNumber", 0xA431); ("LensSerialNumber", 0xA435);
    ("LensMake", 0xA433); ("LensModel", 0xA434);
    ("XPAuthor", 0x9C9D); ("XPComment", 0x9C9C) ].

Definition privacyTag (name : string) : N :=
  default 0 (snd <$> List.find (fun e => String.eqb (fst e) name) PRIVACY_TAGS).

(** ** Defaults *)

Definition DEFAULT_COPYRIGHT_INFO_copyright : string :=
  "Copyright (c) jixiaoyong. All Rights Reserved. jixiaoyong.github.io".
Definition DEFAULT_COPYRIGHT_INFO_artist : string :=
  "jixiaoyong (jixiaoyong.github.io)".
Definition DEFAULT_OFFSET_TIME : string := "+00:00".

(** [options]: an unset property is [None]. *)
Record Options := {
  copyright : option string;
  artist : option string;
  offsetTime : option string;
  jpegQuality : option Q
}.

Definition noOptions : Options :=
  {| copyright := None; artist := None; offsetTime := None; jpegQuality := None |}.

(** [new Date()]: full year, zero-based month, day of the month. *)
Record Date := { getFullYear : N; getMonth : N; getDate : N }.

(** ** Files, results and the environment *)

Section Model.
Context {DataURL ExifBytes : Type}.

(** A [File]: its name, declared MIME type and contents.  A Blob is
    identified with the data URL of its bytes, so [blobToDataURL] and
    [dataURLToBlob] are the identity on [f_data]. *)
Record File := { f_name : string; f_type : string; f_data : DataURL }.

(** The [result] object of [cleanupExifFromFile]. *)
Record Result := {
  success : bool;
  file : option File;
  blob : option DataURL;
  originalSize : N;
  cleanedSize : N;
  error : option string;
  removedFields : list string;
  addedFields : list string;
  convertedFrom : option string
}.

(** The piexifjs module: each entry point may throw. *)
Record Piexif := {
  load : DataURL -> Exn + ExifObj;
  dump : ExifObj -> Exn + ExifBytes;
  insert : ExifBytes -> DataURL -> Exn + DataURL;
  remove : DataURL -> Exn + DataURL
}.

(** What the routine reaches outside itself: the dynamic import of
    piexifjs, the HEIC decoder, the clock, and the byte length of a blob. *)
Record Env := {
  loadPiexif : Exn + Piexif;
  convertHeicToJpeg : File -> Q -> Exn + DataURL;
  now : Date;
  byteLength : DataURL -> N
}.

Definition size_of (env : Env) (f : File) : N := byteLength env (f_data f).

(** [isJpegFormat] *)
Definition isJpegFormat (f : File) : bool :=
  String.eqb (f_type f) "image/jpeg" || String.eqb (f_type f) "image/jpg".

(** [isHeicFormat] *)
Definition isHeicFormat (f : File) : bool :=
  let type := toLowerCase (f_type f) in
  let name := toLowerCase (f_name f) in
  String.eqb type "image/heic" || String.eqb type "image/heif"
  || endsWith name ".heic" || endsWith name ".heif".

(** [result.removedFields.push(s)] and [result.addedFields.push(s)] *)
Definition pushRemoved (s : string) (r : Result) : Result :=
  {| success := success r; file := file r; blob := blob r;
     originalSize := originalSize r; cleanedSize := cleanedSize r;
     error := error r; removedFields := removedFields r ++ [s];
     addedFields := addedFields r; convertedFrom := convertedFrom r |}.

Definition pushAdded (s : string) (r : Result) : Result :=
  {| success := success r; file := file r; blob := blob r;
     originalSize := originalSize r; cleanedSize := cleanedSize r;
     error := error r; removedFields := removedFields r;
     addedFields := addedFields r ++ [s]; convertedFrom := convertedFrom r |}.

(** The four assignments every return of the original file makes:
    [result.file = file; result.blob = file; result.cleanedSize = file.size;
    result.error = note], with [result.success] set as given. *)
Definition withOriginal (env : Env) (f : File) (ok : bool) (note : string)
    (r : Result) : Result :=
  {| success := ok; file := Some f; blob := Some (f_data f);
     originalSize := originalSize r; cleanedSize := size_of env f;
     error := Some note; removedFields := removedFields r;
     addedFields := addedFields r; convertedFrom := convertedFrom r |}.

(** [result.success = true; result.file = cleanedFile; result.blob =
    cleanedBlob; result.cleanedSize = cleanedBlob.size], and
    [convertedFrom] on the HEIC path. *)
Definition withCleaned (env : Env) (name type : string) (u : DataURL)
    (from : option string) (r : Result) : Result :=
  {| success := true;
     file := Some {| f_name := name; f_type := type; f_data := u |};
     blob := Some u;
     originalSize := originalSize r; cleanedSize := byteLength env u;
     error := error r; removedFields := removedFields r;
     addedFields := addedFields r;
     convertedFrom := match from with Some c => Some c | None => convertedFrom r end |}.

(** [piexif.insert(piexif.dump(doc), dataURL)] *)
Definition encode (px : Piexif) (doc : ExifObj) (u : DataURL) : Exn + DataURL :=
  match dump px doc with
  | inl e => inl e
  | inr bytes => insert px bytes u
  end.

End Model.

Arguments File : clear implicits.
Arguments Result : clear implicits.
Arguments Piexif : clear implicits.
Arguments Env : clear implicits.

(** ** Steps shared by the two variants *)

(** [cleanExifIfd]'s tests on one value. *)
Definition isBadNumber (v : JsValue) : bool :=
  match v with
  | VNum (Fin _) => false
  | VNum _ => true
  | _ => false
  end.

Definition isNullish (v : JsValue) : bool := negb (notNullish v).

(** The value is skipped: [undefined]/[null], a NaN or infinite number, an
    empty array, or an array with such an element. *)
Definition skipValue (v : JsValue) : bool :=
  isNullish v || isBadNumber v ||
  match v with
  | VArr [] => true
  | VArr l => existsb (fun x => isNullish x || isBadNumber x) l
  | _ => false
  end.

Definition keepEntry (preserveKeys : list N) (kv : N * JsValue) : bool :=
  if bool_decide (kv.1 ∈ preserveKeys) then notNullish kv.2
  else negb (skipValue kv.2).

(** [cleanExifIfd(ifd, preserveKeys)]: the entries of [ifd] copied into a
    fresh object, the skipped ones left out. *)
Definition cleanExifIfd (ifd : Ifd) (preserveKeys : list N) : Ifd :=
  filter (fun kv => keepEntry preserveKeys kv) ifd.

Definition ifd0PreserveKeys : list N :=
  [ ImageIFD.Orientation; ImageIFD.XResolution; ImageIFD.YResolution;
    ImageIFD.ResolutionUnit; ImageIFD.YCbCrPositioning ].

Definition exifPreserveKeys : list N :=
  [ ExifIFD.ColorSpace; ExifIFD.PixelXDimension; ExifIFD.PixelYDimension ].

(** [if (v !== undefined) doc[k] = v] *)
Definition setIfDefined (k : N) (v : JsValue) (ifd : Ifd) : Ifd :=
  if isDefined v then <[k := v]> ifd else ifd.

(** [if (v) doc[k] = v] *)
Definition setIfTruthy (k : N) (v : JsValue) (ifd : Ifd) : Ifd :=
  if truthy v then <[k := v]> ifd else ifd.

(** [if (v !== undefined && v !== null) doc[k] = v] *)
Definition setIfNotNullish (k : N) (v : JsValue) (ifd : Ifd) : Ifd :=
  if notNullish v then <[k := v]> ifd else ifd.

Section Redaction.
Context {DataURL : Type}.
Implicit Types (result : Result DataURL) (ifd : Ifd).

(** [if (ifd[k] !== undefined) { result.removedFields.push(note); delete ifd[k]; }] *)
Definition removeTag (k : N) (note : JsValue -> string)
    (st : Ifd * Result DataURL) : Ifd * Result DataURL :=
  let '(ifd, result) := st in
  if isDefined (get ifd k)
  then (delete k ifd, pushRemoved (note (get ifd k)) result)
  else (ifd, result).

(** [if (group && Object.keys(group).length > 0) { push(note); group = {}; }] *)
Definition wipeGroup (note : string) (st : Ifd * Result DataURL)
    : Ifd * Result DataURL :=
  let '(ifd, result) := st in
  if nonEmpty ifd then (∅, pushRemoved note result) else (ifd, result).

(** Section 2 of the routine: device information in IFD0. *)
Definition stripIfd0 (st : Ifd * Result DataURL) : Ifd * Result DataURL :=
  let st := removeTag ImageIFD.Make (fun v => "Make: " +:+ toStr v) st in
  let st := removeTag ImageIFD.Model (fun v => "Model: " +:+ toStr v) st in
  let st := removeTag ImageIFD.Software (fun v => "Software: " +:+ toStr v) st in
  removeTag 316 (fun v => "HostComputer: " +:+ toStr v) st.

(** Section 3 of the routine: private tags in the Exif IFD. *)
Definition stripExifIfd (st : Ifd * Result DataURL) : Ifd * Result DataURL :=
  let st := removeTag ExifIFD.MakerNote (fun _ => "MakerNote (Apple privacy data)") st in
  let st := removeTag ExifIFD.UserComment (fun _ => "UserComment") st in
  let st := removeTag ExifIFD.ImageUniqueID (fun v => "ImageUniqueID: " +:+ toStr v) st in
  let st := removeTag ExifIFD.CameraOwnerName (fun v => "CameraOwnerName: " +:+ toStr v) st in
  let st := removeTag ExifIFD.BodySerialNumber (fun _ => "BodySerialNumber") st in
  let st := removeTag ExifIFD.LensMake (fun v => "LensMake: " +:+ toStr v) st in
  let st := removeTag ExifIFD.LensModel (fun v => "LensModel: " +:+ toStr v) st in
  removeTag ExifIFD.LensSerialNumber (fun _ => "LensSerialNumber") st.

(** [if (value) { const cleanedDate = formatExifDate(value); ... }]: the
    cleaned date when there is one. *)
Definition cleanedDateOf (value : JsValue) : Exn + option string :=
  if truthy value then formatExifDate value else inr None.

(** The local variables alive after section 7's two assignments:
    [exifObj] (with ['0th'] and ['Exif'] written back), [ifd0], [exifIfd]
    and the orientation saved up front. *)
Record Redacted := {
  exifObj : ExifObj;
  ifd0 : Ifd;
  exifIfd : Ifd;
  originalOrientation : JsValue
}.

(** Sections 1 to 7 of the debug-logging variant, up to the write-back of
    ['0th'] and ['Exif'].  The result object comes back in both cases:
    with the exception [formatExifDate] threw, or with the locals. *)
Definition redact (copyright artist offsetTime : string) (decoded : ExifObj)
    (result : Result DataURL) : Result DataURL * (Exn + Redacted) :=
  (* 1. GPS *)
  let '(gps, result) := wipeGroup "GPS (entire block)" (GPS decoded, result) in
  (* 2. IFD0, the orientation saved first *)
  let ifd0 := zeroth decoded in
  let originalOrientation := get ifd0 ImageIFD.Orientation in
  let originalOrientation :=
    if isDefined originalOrientation then originalOrientation else get ifd0 274 in
  let originalOrientation :=
    if isDefined originalOrientation then originalOrientation else get ifd0 274 in
  let '(ifd0, result) := stripIfd0 (ifd0, result) in
  (* 3. Exif IFD *)
  let '(exifIfd, result) := stripExifIfd (Exif decoded, result) in
  (* 4. thumbnail *)
  let '(first', result) := wipeGroup "Thumbnail" (first decoded, result) in
  let thumbnail' :=
    if truthy (thumbnail decoded) then VUndefined else thumbnail decoded in
  (* 5. copyright *)
  let ifd0 := <[ImageIFD.Copyright := VStr copyright]> ifd0 in
  let result := pushAdded ("Copyright: " +:+ copyright) result in
  let ifd0 := <[ImageIFD.Artist := VStr artist]> ifd0 in
  let result := pushAdded ("Artist: " +:+ artist) result in
  (* 6. time *)
  match cleanedDateOf (get exifIfd ExifIFD.DateTimeOriginal) with
  | inl e => (result, inl e)
  | inr cleanedDate =>
      let '(exifIfd, result) :=
        match cleanedDate with
        | Some c => (<[ExifIFD.DateTimeOriginal := VStr c]> exifIfd,
                     pushAdded ("DateTimeOriginal: " +:+ c) result)
        | None => (exifIfd, result)
        end in
      let exifIfd := <[36881 := VStr offsetTime]> exifIfd in
      let result := pushAdded ("OffsetTimeOriginal: " +:+ offsetTime) result in
      let exifIfd := <[36882 := VStr offsetTime]> exifIfd in
      let exifIfd := <[36880 := VStr offsetTime]> exifIfd in
      match cleanedDateOf (get ifd0 ImageIFD.DateTime) with
      | inl e => (result, inl e)
      | inr cleanedDate =>
          let ifd0 :=
            match cleanedDate with
            | Some c => <[ImageIFD.DateTime := VStr c]> ifd0
            | None => ifd0
            end in
          (* 7. write back *)
          (result,
           inr {| exifObj := {| zeroth := ifd0; Exif := exifIfd; GPS := gps;
                                first := first'; Interop := Interop decoded;
                                thumbnail := thumbnail' |};
                  ifd0 := ifd0; exifIfd := exifIfd;
                  originalOrientation := originalOrientation |})
      end
  end.

(** The document of tier 1: every group through [cleanExifIfd], then the
    saved orientation written back when there is one. *)
Definition tier1Exif (st : Redacted) : ExifObj :=
  let o := exifObj st in
  {| zeroth := setIfNotNullish ImageIFD.Orientation (originalOrientation st)
                 (cleanExifIfd (zeroth o) ifd0PreserveKeys);
     Exif := cleanExifIfd (Exif o) exifPreserveKeys;
     GPS := cleanExifIfd (GPS o) [];
     first := cleanExifIfd (first o) [];
     Interop := cleanExifIfd (Interop o) [];
     thumbnail := thumbnail o |}.

(** The document of tier 2, built from [ifd0] and [exifIfd] as the
    redaction left them (before [cleanExifIfd]). *)
Definition minimalExif (copyright artist offsetTime : string) (st : Redacted)
    : ExifObj :=
  let i0 := ifd0 st in
  let ie := exifIfd st in
  let m0 : Ifd := ∅ in
  let m0 := setIfDefined ImageIFD.Orientation (get i0 ImageIFD.Orientation) m0 in
  let m0 := setIfDefined ImageIFD.XResolution (get i0 ImageIFD.XResolution) m0 in
  let m0 := setIfDefined ImageIFD.YResolution (get i0 ImageIFD.YResolution) m0 in
  let m0 := setIfDefined ImageIFD.ResolutionUnit (get i0 ImageIFD.ResolutionUnit) m0 in
  let m0 := setIfDefined ImageIFD.YCbCrPositioning (get i0 ImageIFD.YCbCrPositioning) m0 in
  let m0 := <[ImageIFD.Copyright := VStr copyright]> m0 in
  let m0 := <[ImageIFD.Artist := VStr artist]> m0 in
  let m0 := setIfTruthy ImageIFD.DateTime (get i0 ImageIFD.DateTime) m0 in
  let me : Ifd := ∅ in
  let me := setIfDefined ExifIFD.ColorSpace (get ie ExifIFD.ColorSpace) me in
  let me := setIfDefined ExifIFD.PixelXDimension (get ie ExifIFD.PixelXDimension) me in
  let me := setIfDefined ExifIFD.PixelYDimension (get ie ExifIFD.PixelYDimension) me in
  let me := setIfTruthy ExifIFD.DateTimeOriginal (get ie ExifIFD.DateTimeOriginal) me in
  let me := <[36881 := VStr offsetTime]> me in
  let me := <[36882 := VStr offsetTime]> me in
  let me := <[36880 := VStr offsetTime]> me in
  {| zeroth := m0; Exif := me; GPS := ∅; first := ∅; Interop := ∅;
     thumbnail := VUndefined |}.

(** The document of tier 3. *)
Definition safeExif (copyright artist : string) (st : Redacted) : ExifObj :=
  let s0 : Ifd := ∅ in
  let s0 := <[ImageIFD.Copyright := VStr copyright]> s0 in
  let s0 := <[ImageIFD.Artist := VStr artist]> s0 in
  let s0 := setIfNotNullish ImageIFD.Orientation (originalOrientation st) s0 in
  {| zeroth := s0; Exif := ∅; GPS := ∅; first := ∅; Interop := ∅;
     thumbnail := VUndefined |}.

End Redaction.

(** ** The debug-logging variant: serialization fallback and orchestration *)

Inductive Tier := Tier1 | Tier2 | Tier3 | Tier4.

(** How the nested [try]/[catch] cascade ends: some tier assigned
    [newDataURL], or the bare strip threw as well and the first error
    ([dumpError]) is what is left. *)
Inductive Outcome (DataURL : Type) :=
  | Encoded (t : Tier) (newDataURL : DataURL)
  | Exhausted (dumpError : Exn).
Arguments Encoded {DataURL} t newDataURL.
Arguments Exhausted {DataURL} dumpError.

(** The entry each fallback tier pushes onto [removedFields] once its
    encode has succeeded. *)
Definition tierNote (t : Tier) : list string :=
  match t with
  | Tier1 => []
  | Tier2 => ["Some EXIF tags could not be preserved (display-related tags kept)"]
  | Tier3 => ["All EXIF stripped and rebuilt with minimal safe values (Orientation preserved)"]
  | Tier4 => ["All EXIF completely stripped (no new EXIF added)"]
  end.

Section Pipeline.
Context {DataURL ExifBytes : Type}.
Implicit Types (env : Env DataURL ExifBytes) (px : Piexif DataURL ExifBytes)
  (f : File DataURL).

(** Tier 3's [try] block: [piexif.remove], then dump and insert of the
    safe document into the stripped image. *)
Definition stripAndRebuild px (safe : ExifObj) (dataURL : DataURL)
    : Exn + DataURL :=
  match remove px dataURL with
  | inl e => inl e
  | inr strippedDataURL => encode px safe strippedDataURL
  end.

(** The cascade of the four tiers. *)
Definition fallbackChain px (copyright artist offsetTime : string)
    (st : Redacted) (dataURL : DataURL) : Outcome DataURL :=
  match encode px (tier1Exif st) dataURL with
  | inr newDataURL => Encoded Tier1 newDataURL
  | inl dumpErr =>
      match encode px (minimalExif copyright artist offsetTime st) dataURL with
      | inr newDataURL => Encoded Tier2 newDataURL
      | inl minimalErr =>
          match stripAndRebuild px (safeExif copyright artist st) dataURL with
          | inr newDataURL => Encoded Tier3 newDataURL
          | inl stripErr =>
              match remove px dataURL with
              | inr newDataURL => Encoded Tier4 newDataURL
              | inl bareStripErr => Exhausted dumpErr
              end
          end
      end
  end.

(** The fresh document of the HEIC path. *)
Definition heicExif (copyright artist offsetTime dateStr : string) : ExifObj :=
  {| zeroth := <[ImageIFD.DateTime := VStr dateStr]>
                 (<[ImageIFD.Artist := VStr artist]>
                    (<[ImageIFD.Copyright := VStr copyright]> ∅));
     Exif := <[36880 := VStr offsetTime]>
               (<[36882 := VStr offsetTime]>
                  (<[36881 := VStr offsetTime]>
                     (<[ExifIFD.DateTimeOriginal := VStr dateStr]> ∅)));
     GPS := ∅; first := ∅; Interop := ∅; thumbnail := VUndefined |}.

Definition todayString (d : Date) : string :=
  pretty (getFullYear d) +:+ ":" +:+ pad2 (getMonth d + 1) +:+ ":"
    +:+ pad2 (getDate d) +:+ " 00:00:00".

(** [options.jpegQuality || 0.92] *)
Definition heicQuality (options : Options) : Q :=
  match jpegQuality options with
  | Some q => if Qeq_bool q 0 then 92 # 100 else q
  | None => 92 # 100
  end.

Definition initialResult env f : Result DataURL :=
  {| success := false; file := None; blob := None;
     originalSize := size_of env f; cleanedSize := 0; error := None;
     removedFields := []; addedFields := []; convertedFrom := None |}.

(** The body of the outer [try]: the result object as the body left it,
    and the exception when one escaped the body. *)
Definition tryBody env f (options : Options) (copyright artist offsetTime : string)
    (result : Result DataURL) : Result DataURL * option Exn :=
  if isHeicFormat f then
    let result :=
      pushRemoved "HEIC/HEIF converted to JPEG (all original metadata removed)" result in
    match convertHeicToJpeg env f (heicQuality options) with
    | inl e => (result, Some e)
    | inr dataURL =>
        match loadPiexif env with
        | inl e => (result, Some e)
        | inr piexif =>
            let result := pushAdded ("Copyright: " +:+ copyright) result in
            let result := pushAdded ("Artist: " +:+ artist) result in
            let dateStr := todayString (now env) in
            let result := pushAdded ("DateTimeOriginal: " +:+ dateStr) result in
            let result := pushAdded ("OffsetTimeOriginal: " +:+ offsetTime) result in
            match encode piexif (heicExif copyright artist offsetTime dateStr) dataURL with
            | inl e => (result, Some e)
            | inr newDataURL =>
                (withCleaned env (replaceHeicSuffix (f_name f)) "image/jpeg"
                   newDataURL (Some "HEIC/HEIF") result, None)
            end
        end
    end
  else if negb (isJpegFormat f) then
    (withOriginal env f true "不支持的格式，跳过 EXIF 处理" result, None)
  else
    match loadPiexif env with
    | inl e => (result, Some e)
    | inr piexif =>
        let dataURL := f_data f in
        match load piexif dataURL with
        | inl e =>
            (withOriginal env f true "无法解析 EXIF 数据，返回原文件" result, None)
        | inr decoded =>
            match redact copyright artist offsetTime decoded result with
            | (result, inl e) => (result, Some e)
            | (result, inr st) =>
                match fallbackChain piexif copyright artist offsetTime st dataURL with
                | Encoded t newDataURL =>
                    let result := fold_left (fun r s => pushRemoved s r) (tierNote t) result in
                    (withCleaned env (f_name f) (f_type f) newDataURL None result, None)
                | Exhausted dumpError =>
                    (withOriginal env f true
                       ("EXIF 处理异常，返回原文件: " +:+ toStr (message dumpError))
                       result, None)
                end
            end
        end
    end.

(** [cleanupExifFromFile] *)
Definition cleanupExifFromFile env f (options : Options) : Result DataURL :=
  let copyright := default DEFAULT_COPYRIGHT_INFO_copyright (copyright options) in
  let artist := default DEFAULT_COPYRIGHT_INFO_artist (artist options) in
  let offsetTime := default DEFAULT_OFFSET_TIME (offsetTime options) in
  match tryBody env f options copyright artist offsetTime (initialResult env f) with
  | (result, None) => result
  | (result, Some error) =>
      withOriginal env f (success result) (errorText error) result
  end.

(** What [cleanupExifBatch] makes observable to its caller besides the
    return value: each call of [onProgress] with its three arguments,
    and each file's processing. *)
Inductive Event :=
  | Progress (current total : nat) (f : File DataURL)
  | Processed (f : File DataURL).

Record BatchResult := {
  results : list (Result DataURL);
  batch_success : N;
  batch_failed : N;
  totalOriginalSize : N;
  totalCleanedSize : N
}.

(** The [for] loop of [cleanupExifBatch] from index [i] on, over the files
    not yet visited. *)
Fixpoint batchLoop env (options : Options) (onProgress : bool) (total i : nat)
    (files : list (File DataURL)) (acc : BatchResult) (log : list Event)
    : BatchResult * list Event :=
  match files with
  | [] => (acc, log)
  | f :: rest =>
      let log := if onProgress then (log ++ [Progress (i + 1)%nat total f])%list else log in
      let result := cleanupExifFromFile env f options in
      let log := (log ++ [Processed f])%list in
      let acc :=
        {| results := results acc ++ [result];
           batch_success := if success result then batch_success acc + 1
                            else batch_success acc;
           batch_failed := if success result then batch_failed acc
                           else batch_failed acc + 1;
           totalOriginalSize := totalOriginalSize acc + originalSize result;
           totalCleanedSize := totalCleanedSize acc + cleanedSize result |} in
      batchLoop env options onProgress total (S i) rest acc log
  end.

(** [cleanupExifBatch(files, options, onProgress)]; [onProgress] tells
    whether the caller passed a callback. *)
Definition cleanupExifBatch env (files : list (File DataURL)) (options : Options)
    (onProgress : bool) : BatchResult * list Event :=
  batchLoop env options onProgress (length files) 0 files
    {| results := []; batch_success := 0; batch_failed := 0;
       totalOriginalSize := 0; totalCleanedSize := 0 |} [].

End Pipeline.

Arguments Event : clear implicits.
Arguments BatchResult : clear implicits.

(** ** The plain single-pass variant ([scripts/exif-cleaner.js]) *)

Module Plain.

Definition DEFAULT_COPYRIGHT_INFO_copyright : string :=
  "© jixiaoyong. All Rights Reserved. jixiaoyong.github.io / 版权所有 jixiaoyong，保留所有权利。".

Section Variant.
Context {DataURL ExifBytes : Type}.
Implicit Types (env : Env DataURL ExifBytes) (f : File DataURL).

(** Sections 1 to 7 up to the write-back; the locals that matter after
    it are [exifObj] alone. *)
Definition redact (copyright artist offsetTime : string) (decoded : ExifObj)
    (result : Result DataURL) : Result DataURL * (Exn + ExifObj) :=
  let '(gps, result) := wipeGroup "GPS (entire block)" (GPS decoded, result) in
  let ifd0 := zeroth decoded in
  let '(ifd0, result) := stripIfd0 (ifd0, result) in
  let '(exifIfd, result) := stripExifIfd (Exif decoded, result) in
  let '(first', result) := wipeGroup "Thumbnail" (first decoded, result) in
  let thumbnail' :=
    if truthy (thumbnail decoded) then VUndefined else thumbnail decoded in
  let ifd0 := <[ImageIFD.Copyright := VStr copyright]> ifd0 in
  let result := pushAdded ("Copyright: " +:+ copyright) result in
  let ifd0 := <[ImageIFD.Artist := VStr artist]> ifd0 in
  let result := pushAdded ("Artist: " +:+ artist) result in
  match cleanedDateOf (get exifIfd ExifIFD.DateTimeOriginal) with
  | inl e => (result, inl e)
  | inr cleanedDate =>
      let '(exifIfd, result) :=
        match cleanedDate with
        | Some c => (<[ExifIFD.DateTimeOriginal := VStr c]> exifIfd,
                     pushAdded ("DateTimeOriginal: " +:+ c) result)
        | None => (exifIfd, result)
        end in
      let exifIfd := <[36881 := VStr offsetTime]> exifIfd in
      let result := pushAdded ("OffsetTimeOriginal: " +:+ offsetTime) result in
      let exifIfd := <[36882 := VStr offsetTime]> exifIfd in
      let exifIfd := <[36880 := VStr offsetTime]> exifIfd in
      match cleanedDateOf (get ifd0 ImageIFD.DateTime) with
      | inl e => (result, inl e)
      | inr cleanedDate =>
          let ifd0 :=
            match cleanedDate with
            | Some c => <[ImageIFD.DateTime := VStr c]> ifd0
            | None => ifd0
            end in
          (result,
           inr {| zeroth := ifd0; Exif := exifIfd; GPS := gps;
                  first := first'; Interop := Interop decoded;
                  thumbnail := thumbnail' |})
      end
  end.

Definition tryBody env f (options : Options) (copyright artist offsetTime : string)
    (result : Result DataURL) : Result DataURL * option Exn :=
  if isHeicFormat f then
    let result :=
      pushRemoved "HEIC/HEIF converted to JPEG (all original metadata removed)" result in
    match convertHeicToJpeg env f (heicQuality options) with
    | inl e => (result, Some e)
    | inr dataURL =>
        match loadPiexif env with
        | inl e => (result, Some e)
        | inr piexif =>
            let result := pushAdded ("Copyright: " +:+ copyright) result in
            let result := pushAdded ("Artist: " +:+ artist) result in
            let dateStr := todayString (now env) in
            let result := pushAdded ("DateTimeOriginal: " +:+ dateStr) result in
            let result := pushAdded ("OffsetTimeOriginal: " +:+ offsetTime) result in
            match encode piexif (heicExif copyright artist offsetTime dateStr) dataURL with
            | inl e => (result, Some e)
            | inr newDataURL =>
                (withCleaned env (replaceHeicSuffix (f_name f)) "image/jpeg"
                   newDataURL (Some "HEIC/HEIF") result, None)
            end
        end
    end
  else if negb (isJpegFormat f) then
    (withOriginal env f true "不支持的格式，跳过 EXIF 处理" result, None)
  else
    match loadPiexif env with
    | inl e => (result, Some e)
    | inr piexif =>
        let dataURL := f_data f in
        match load piexif dataURL with
        | inl e =>
            (withOriginal env f true "无法解析 EXIF 数据，返回原文件" result, None)
        | inr decoded =>
            match redact copyright artist offsetTime decoded result with
            | (result, inl e) => (result, Some e)
            | (result, inr exifObj) =>
                match encode piexif exifObj dataURL with
                | inl e => (result, Some e)
                | inr newDataURL =>
                    (withCleaned env (f_name f) (f_type f) newDataURL None result, None)
                end
            end
        end
    end.

Definition cleanupExifFromFile env f (options : Options) : Result DataURL :=
  let copyright := default DEFAULT_COPYRIGHT_INFO_copyright (copyright options) in
  let artist := default DEFAULT_COPYRIGHT_INFO_artist (artist options) in
  let offsetTime := default DEFAULT_OFFSET_TIME (offsetTime options) in
  match tryBody env f options copyright artist offsetTime (initialResult env f) with
  | (result, None) => result
  | (result, Some error) =>
      withOriginal env f (success result) (errorText error) result
  end.

End Variant.
End Plain.

(** ** A loop-back codec for running the routine on concrete inputs

    Its data URLs are a pixel payload with an optional EXIF segment, its
    EXIF bytes are the document itself; which documents the encoder accepts
    and whether the strip works are switches. *)

Module Loopback.

Inductive Segment :=
  | NoExif
  | Garbled
  | Tags (d : ExifObj).

Record Jpeg := { segment : Segment; pixels : N }.

Definition piexif (accepts : ExifObj -> bool) (strippable : bool)
    : Piexif Jpeg ExifObj :=
  {| load := fun u =>
       match segment u with
       | NoExif => inr {| zeroth := ∅; Exif := ∅; GPS := ∅; first := ∅;
                          Interop := ∅; thumbnail := VNull |}
       | Garbled => inl (JsError "'load' gots invalid file data.")
       | Tags d => inr d
       end;
     dump := fun d =>
       if accepts d then inr d else inl (JsError "'pack' error. Got invalid type argument.");
     insert := fun d u => inr {| segment := Tags d; pixels := pixels u |};
     remove := fun u =>
       if strippable then inr {| segment := NoExif; pixels := pixels u |}
       else inl (JsError "Given data is not jpeg.") |}.

Definition env (accepts : ExifObj -> bool) (strippable heicDecodes : bool)
    : Env Jpeg ExifObj :=
  {| loadPiexif := inr (piexif accepts strippable);
     convertHeicToJpeg := fun f _ =>
       if heicDecodes then inr {| segment := NoExif; pixels := pixels (f_data f) |}
       else inl (JsError "无法解码 HEIC/HEIF 文件");
     now := {| getFullYear := 2024; getMonth := 0; getDate := 9 |};
     byteLength := fun u =>
       match segment u with NoExif => pixels u | _ => pixels u + 64 end |}.

(** An encoder that knows no tag beyond Exif 2.2: it rejects a document
    that carries one of the offset-time tags. *)
Definition knowsNoOffsetTime (d : ExifObj) : bool :=
  negb (isDefined (get (Exif d) 36880) || isDefined (get (Exif d) 36881)
        || isDefined (get (Exif d) 36882)).

Definition photo (d : ExifObj) : File Jpeg :=
  {| f_name := "IMG_0001.jpg"; f_type := "image/jpeg";
     f_data := {| segment := Tags d; pixels := 1000 |} |}.

(** A decoded directory with an orientation, device tags, the Windows
    author and comment fields, a capture time and one GPS tag. *)
Definition sample : ExifObj :=
  {| zeroth := <[ImageIFD.Make := VStr "Apple"]>
                 (<[ImageIFD.Orientation := VNum (Fin 6)]>
                    (<[privacyTag "XPAuthor" := VArr [VNum (Fin 74); VNum (Fin 0)]]>
                       (<[privacyTag "XPComment" := VArr [VNum (Fin 104); VNum (Fin 0)]]>
                          (<[ImageIFD.DateTime := VStr "2023:05:14 13:45:22"]> ∅))));
     Exif := <[ExifIFD.DateTimeOriginal := VStr "2023:05:14 13:45:22"]>
               (<[ExifIFD.MakerNote := VStr "private"]>
                  (<[36881 := VStr "+08:00"]> ∅));
     GPS := <[2 := VArr [VArr [VNum (Fin 39); VNum (Fin 1)]]]> ∅;
     first := ∅; Interop := ∅; thumbnail := VNull |}.

(** A directory whose capture time is not a date. *)
Definition undated : ExifObj :=
  {| zeroth := <[ImageIFD.Orientation := VNum (Fin 1)]> ∅;
     Exif := <[ExifIFD.DateTimeOriginal := VStr "not-a-date"]> ∅;
     GPS := ∅; first := ∅; Interop := ∅; thumbnail := VNull |}.

(** An encoder that rejects the author field of the sample: tier 1
    fails on it, tier 2 does not carry it. *)
Definition knowsNoXPAuthor (d : ExifObj) : bool :=
  negb (isDefined (get (zeroth d) 40093)).

(** The scenarios the pipeline is run in. *)
Definition accepting : Env Jpeg ExifObj := env (fun _ => true) true true.
Definition picky : Env Jpeg ExifObj := env knowsNoXPAuthor true true.
Definition legacy : Env Jpeg ExifObj := env knowsNoOffsetTime true true.
Definition rejecting : Env Jpeg ExifObj := env (fun _ => false) true true.
Definition broken : Env Jpeg ExifObj := env (fun _ => false) false true.
Definition heicless : Env Jpeg ExifObj := env (fun _ => true) true false.

(** Options that name the copyright holder. *)
Definition signed : Options :=
  {| copyright := Some "(c) 2024 A. Photographer"; artist := None;
     offsetTime := None; jpegQuality := None |}.

Definition garbledPhoto : File Jpeg :=
  {| f_name := "scan.jpg"; f_type := "image/jpeg";
     f_data := {| segment := Garbled; pixels := 500 |} |}.

Definition heicPhoto : File Jpeg :=
  {| f_name := "IMG_0002.HEIC"; f_type := "image/heic";
     f_data := {| segment := NoExif; pixels := 2000 |} |}.

End Loopback.

(** ** Vocabulary of the statements *)

(** The options after the defaults of the destructuring assignment. *)
Definition copyrightOf (options : Options) : string :=
  default DEFAULT_COPYRIGHT_INFO_copyright (copyright options).
Definition artistOf (options : Options) : string :=
  default DEFAULT_COPYRIGHT_INFO_artist (artist options).
Definition offsetTimeOf (options : Options) : string :=
  default DEFAULT_OFFSET_TIME (offsetTime options).

(** Two documents carry the same tags in each of the five groups. *)
Definition sameTags (d d' : ExifObj) : Prop :=
  zeroth d = zeroth d' /\ Exif d = Exif d' /\ GPS d = GPS d' /\
  first d = first d' /\ Interop d = Interop d'.

(** Every value of the directory passes the tests of [cleanExifIfd]. *)
Definition validIfd (ifd : Ifd) : Prop :=
  map_Forall (fun _ v => skipValue v = false) ifd.

Definition validExif (d : ExifObj) : Prop :=
  validIfd (zeroth d) /\ validIfd (Exif d) /\ validIfd (GPS d) /\
  validIfd (first d) /\ validIfd (Interop d).

(** The document each tier hands to the encoder; tier 4 inserts none. *)
Definition tierExif (copyright artist offsetTime : string) (st : Redacted)
    (t : Tier) : ExifObj :=
  match t with
  | Tier1 => tier1Exif st
  | Tier2 => minimalExif copyright artist offsetTime st
  | Tier3 => safeExif copyright artist st
  | Tier4 => emptyExif
  end.

Section Observations.
Context {DataURL ExifBytes : Type}.
Implicit Types (env : Env DataURL ExifBytes) (px : Piexif DataURL ExifBytes)
  (f : File DataURL).

(** The codec reads back what it wrote: an inserted document decodes to
    the same tags, a stripped image decodes to empty groups. *)
Definition Faithful px : Prop :=
  (forall d bytes u u', dump px d = inr bytes -> insert px bytes u = inr u' ->
     exists d', load px u' = inr d' /\ sameTags d' d) /\
  (forall u u', remove px u = inr u' ->
     exists d', load px u' = inr d' /\ sameTags d' emptyExif).

(** The tag directory of the returned file, decoded again. *)
Definition outputExif px (r : Result DataURL) : option ExifObj :=
  match file r with
  | Some out =>
      match load px (f_data out) with
      | inr d => Some d
      | inl _ => None
      end
  | None => None
  end.

(** The file takes the JPEG path and its directory decodes. *)
Definition decodes env f px (decoded : ExifObj) : Prop :=
  isHeicFormat f = false /\ isJpegFormat f = true /\
  loadPiexif env = inr px /\ load px (f_data f) = inr decoded.

(** The redaction of the decoded directory runs through (no exception)
    and leaves the locals [st]. *)
Definition redacts env f (options : Options) (decoded : ExifObj)
    (st : Redacted) : Prop :=
  exists result,
    redact (copyrightOf options) (artistOf options) (offsetTimeOf options)
      decoded (initialResult env f) = (result, inr st).

(** The locals the redaction leaves when it completes (an empty
    placeholder when it throws). *)
Definition redactedBy env f (options : Options) (decoded : ExifObj) : Redacted :=
  match (redact (copyrightOf options) (artistOf options) (offsetTimeOf options)
           decoded (initialResult env f)).2 with
  | inr st => st
  | inl _ => {| exifObj := emptyExif; ifd0 := ∅; exifIfd := ∅;
                originalOrientation := VUndefined |}
  end.

(** Tier [t] is the first whose encode succeeds, with output [u]. *)
Definition servedBy px (options : Options) (st : Redacted) (u0 u : DataURL)
    (t : Tier) : Prop :=
  fallbackChain px (copyrightOf options) (artistOf options)
    (offsetTimeOf options) st u0 = Encoded t u.

(** Every tier throws. *)
Definition allTiersFail px (options : Options) (st : Redacted) (u0 : DataURL)
    (dumpError : Exn) : Prop :=
  encode px (tier1Exif st) u0 = inl dumpError /\
  (exists e, encode px (minimalExif (copyrightOf options) (artistOf options)
                          (offsetTimeOf options) st) u0 = inl e) /\
  (exists e, stripAndRebuild px (safeExif (copyrightOf options) (artistOf options) st)
               u0 = inl e) /\
  (exists e, remove px u0 = inl e).

End Observations.


(** The directory parts of the redaction steps, apart from the report. *)
Definition dropTag (k : N) (ifd : Ifd) : Ifd :=
  if isDefined (get ifd k) then delete k ifd else ifd.

Definition strippedIfd0 (ifd : Ifd) : Ifd :=
  dropTag 316 (dropTag ImageIFD.Software (dropTag ImageIFD.Model
    (dropTag ImageIFD.Make ifd))).

Definition strippedExifIfd (ifd : Ifd) : Ifd :=
  dropTag ExifIFD.LensSerialNumber (dropTag ExifIFD.LensModel
    (dropTag ExifIFD.LensMake (dropTag ExifIFD.BodySerialNumber
      (dropTag ExifIFD.CameraOwnerName (dropTag ExifIFD.ImageUniqueID
        (dropTag ExifIFD.UserComment (dropTag ExifIFD.MakerNote ifd))))))).

Definition setDate (k : N) (cleanedDate : option string) (ifd : Ifd) : Ifd :=
  match cleanedDate with
  | Some c => <[k := VStr c]> ifd
  | None => ifd
  end.

(** [r'] is [r] with entries appended to [removedFields], each satisfying
    [P], and possibly entries appended to [addedFields]; nothing else
    differs. *)
Definition reportGrows {DataURL : Type} (P : string -> Prop)
    (r r' : Result DataURL) : Prop :=
  success r' = success r /\ file r' = file r /\ blob r' = blob r /\
  originalSize r' = originalSize r /\ cleanedSize r' = cleanedSize r /\
  error r' = error r /\ convertedFrom r' = convertedFrom r /\
  (exists l, removedFields r' = (removedFields r ++ l)%list /\ Forall P l) /\
  (exists l, addedFields r' = (addedFields r ++ l)%list).

(** What the redaction leaves in IFD0 and in the Exif IFD, given the two
    cleaned dates. *)
Definition redactedIfd0 (copyright artist : string) (cleanedDate : option string)
    (ifd : Ifd) : Ifd :=
  setDate ImageIFD.DateTime cleanedDate
    (<[ImageIFD.Artist := VStr artist]>
       (<[ImageIFD.Copyright := VStr copyright]> (strippedIfd0 ifd))).

Definition redactedExifIfd (offsetTime : string) (cleanedDate : option string)
    (ifd : Ifd) : Ifd :=
  <[36880 := VStr offsetTime]>
    (<[36882 := VStr offsetTime]>
       (<[36881 := VStr offsetTime]>
          (setDate ExifIFD.DateTimeOriginal cleanedDate (strippedExifIfd ifd)))).

(** The three groups of a matched date, as [formatExifDate] prints them. *)
Definition midnight (groups : string * string * string) : string :=
  let '(y, m, d) := groups in
  y +:+ ":" +:+ m +:+ ":" +:+ d +:+ " 00:00:00".

Definition gpsNote : string := "GPS (entire block)".

(** An entry other than the GPS entry. *)
Definition notGpsNote (s : string) : Prop := s <> gpsNote.

Definition sumN (l : list N) : N := foldr N.add 0 l.

(** ** Further vocabulary *)

Section Formats.
Context {DataURL : Type}.

(** [isSupportedFormat] *)
Definition isSupportedFormat (f : File DataURL) : bool :=
  isJpegFormat f || isHeicFormat f.

End Formats.

Section BlobEntry.
Context {DataURL ExifBytes : Type}.

(** A [Blob]: its declared type and contents. *)
Record Blob := { b_type : string; b_data : DataURL }.

(** [cleanupExifFromBlob]: the blob wrapped in a file named ['image.jpg']
    of type [blob.type || 'image/jpeg']. *)
Definition cleanupExifFromBlob (env : Env DataURL ExifBytes) (blob : Blob)
    (options : Options) : Result DataURL :=
  let file :=
    {| f_name := "image.jpg";
       f_type := if String.eqb (b_type blob) "" then "image/jpeg" else b_type blob;
       f_data := b_data blob |} in
  cleanupExifFromFile env file options.

End BlobEntry.

Arguments Blob : clear implicits.

(** [typeof v === 'string'] *)
Definition isString (v : JsValue) : bool :=
  match v with VStr _ => true | _ => false end.

(** A truthy value that is not a string: what makes [formatExifDate]
    throw. *)
Definition badDate (v : JsValue) : bool := truthy v && negb (isString v).

Definition allDigits (s : string) : bool :=
  forallb isDigit (list_ascii_of_string s).

(** Exactly four, exactly two decimal digits. *)
Definition is4digits (s : string) : bool :=
  match s with
  | String a (String b (String c (String d EmptyString))) =>
      isDigit a && isDigit b && isDigit c && isDigit d
  | _ => false
  end.

Definition is2digits (s : string) : bool :=
  match s with
  | String a (String b EmptyString) => isDigit a && isDigit b
  | _ => false
  end.

(** The Exif group of the document holds one of the offset-time tags
    (0x9010, 0x9011, 0x9012), which came with Exif 2.31. *)
Definition carriesOffsetTime (d : ExifObj) : bool :=
  isDefined (get (Exif d) 36880) || isDefined (get (Exif d) 36881)
  || isDefined (get (Exif d) 36882).

Section Codecs.
Context {DataURL ExifBytes : Type}.

(** A codec whose tag table has no entry for the offset-time tags:
    [piexif.dump] throws on every document that carries one.  Both files
    import piexifjs 1.0.6, whose table stops short of them. *)
Definition RejectsOffsetTime (px : Piexif DataURL ExifBytes) : Prop :=
  forall d, carriesOffsetTime d = true -> exists e, dump px d = inl e.

End Codecs.

(** * Properties *)

(** ** Tag directories *)

(** Two distinct tag numbers. *)
Ltac tag_ne := let E := fresh in intros E; discriminate E.

(** A tag number outside a list of tag numbers. *)
Ltac tag_notin :=
  let H := fresh in
  intros H;
  repeat (apply elem_of_cons in H; destruct H as [H|H]; [discriminate H|]);
  apply elem_of_nil in H; exact H.

Lemma get_lookup (ifd : Ifd) k v : ifd !! k = Some v -> get ifd k = v.
Proof. unfold get. by intros ->. Qed.

Lemma get_None (ifd : Ifd) k : ifd !! k = None -> get ifd k = VUndefined.
Proof. unfold get. by intros ->. Qed.

Lemma nonEmpty_false (ifd : Ifd) : nonEmpty ifd = false <-> ifd = ∅.
Proof.
  unfold nonEmpty. rewrite Nat.ltb_ge, <- map_size_empty_iff. lia.
Qed.

Lemma isDefined_false v : isDefined v = false -> v = VUndefined.
Proof. by destruct v. Qed.

Lemma skipValue_notNullish v : skipValue v = false -> notNullish v = true.
Proof. by destruct v. Qed.

Lemma skipValue_VStr s : skipValue (VStr s) = false.
Proof. reflexivity. Qed.

Lemma cleanExifIfd_lookup ifd pk k v :
  cleanExifIfd ifd pk !! k = Some v <->
  ifd !! k = Some v /\ keepEntry pk (k, v) = true.
Proof.
  unfold cleanExifIfd. rewrite map_lookup_filter_Some.
  split; intros [? H]; split; try done.
  - by apply Is_true_true.
  - by apply Is_true_true.
Qed.

Lemma cleanExifIfd_empty pk : cleanExifIfd ∅ pk = ∅.
Proof. apply map_filter_empty. Qed.

Lemma cleanExifIfd_valid ifd pk : validIfd ifd -> cleanExifIfd ifd pk = ifd.
Proof.
  intros Hv. apply map_filter_id. intros k v Hk. apply Is_true_true.
  specialize (Hv k v Hk). simpl in Hv. unfold keepEntry; simpl.
  case_bool_decide; [by apply skipValue_notNullish | by rewrite Hv].
Qed.

Lemma cleanExifIfd_keeps_string ifd pk k s :
  ifd !! k = Some (VStr s) -> cleanExifIfd ifd pk !! k = Some (VStr s).
Proof.
  intros H. apply cleanExifIfd_lookup. split; [done|].
  unfold keepEntry; simpl. by case_bool_decide.
Qed.

Lemma dropTag_lookup_ne k k' (ifd : Ifd) :
  k <> k' -> dropTag k ifd !! k' = ifd !! k'.
Proof.
  intros Hne. unfold dropTag. destruct (isDefined _); [|done].
  by apply lookup_delete_ne.
Qed.

Lemma dropTag_get_eq k (ifd : Ifd) : get (dropTag k ifd) k = VUndefined.
Proof.
  unfold dropTag. destruct (isDefined (get ifd k)) eqn:E.
  - unfold get. by rewrite lookup_delete_eq.
  - by apply isDefined_false.
Qed.

Lemma dropTag_valid k (ifd : Ifd) : validIfd ifd -> validIfd (dropTag k ifd).
Proof.
  intros Hv. unfold dropTag. destruct (isDefined _); [|done].
  by apply map_Forall_delete.
Qed.

Lemma strippedIfd0_lookup (ifd : Ifd) k :
  k ∉ [ImageIFD.Make; ImageIFD.Model; ImageIFD.Software; 316] ->
  strippedIfd0 ifd !! k = ifd !! k.
Proof.
  intros Hk. unfold strippedIfd0.
  rewrite !dropTag_lookup_ne; [done|..]; intros E; apply Hk; rewrite <- E; set_solver.
Qed.

Lemma strippedExifIfd_lookup (ifd : Ifd) k :
  k ∉ [ExifIFD.MakerNote; ExifIFD.UserComment; ExifIFD.ImageUniqueID;
       ExifIFD.CameraOwnerName; ExifIFD.BodySerialNumber; ExifIFD.LensMake;
       ExifIFD.LensModel; ExifIFD.LensSerialNumber] ->
  strippedExifIfd ifd !! k = ifd !! k.
Proof.
  intros Hk. unfold strippedExifIfd.
  rewrite !dropTag_lookup_ne; [done|..]; intros E; apply Hk; rewrite <- E; set_solver.
Qed.

Lemma strippedIfd0_valid ifd : validIfd ifd -> validIfd (strippedIfd0 ifd).
Proof. intros. unfold strippedIfd0. by repeat apply dropTag_valid. Qed.

Lemma strippedExifIfd_valid ifd : validIfd ifd -> validIfd (strippedExifIfd ifd).
Proof. intros. unfold strippedExifIfd. by repeat apply dropTag_valid. Qed.

(** ** The report *)

Section Report.
Context {DataURL : Type}.
Implicit Types (r : Result DataURL) (P : string -> Prop).

Lemma reportGrows_refl P r : reportGrows P r r.
Proof.
  repeat split; try done.
  - exists []. by rewrite app_nil_r.
  - exists []. by rewrite app_nil_r.
Qed.

Lemma reportGrows_trans P r1 r2 r3 :
  reportGrows P r1 r2 -> reportGrows P r2 r3 -> reportGrows P r1 r3.
Proof.
  intros (?&?&?&?&?&?&?&[l1 [E1 F1]]&[a1 A1]) (?&?&?&?&?&?&?&[l2 [E2 F2]]&[a2 A2]).
  repeat split; try congruence.
  - exists (l1 ++ l2)%list. split; [|by apply Forall_app].
    by rewrite E2, E1, app_assoc.
  - exists (a1 ++ a2)%list. by rewrite A2, A1, app_assoc.
Qed.

Lemma reportGrows_pushRemoved P s r : P s -> reportGrows P r (pushRemoved s r).
Proof.
  intros HP. repeat split; try done.
  - exists [s]. split; [done|]. by apply Forall_singleton.
  - exists []. simpl. by rewrite app_nil_r.
Qed.

Lemma reportGrows_pushAdded P s r : reportGrows P r (pushAdded s r).
Proof.
  repeat split; try done.
  - exists []. simpl. by rewrite app_nil_r.
  - by exists [s].
Qed.

Lemma removeTag_eq k note ifd r :
  removeTag k note (ifd, r) =
  (dropTag k ifd,
   if isDefined (get ifd k) then pushRemoved (note (get ifd k)) r else r).
Proof. unfold removeTag, dropTag. by destruct (isDefined _). Qed.

Lemma removeTag_grows P k note ifd r :
  (forall v, P (note v)) ->
  reportGrows P r (removeTag k note (ifd, r)).2.
Proof.
  intros HP. rewrite removeTag_eq. simpl. destruct (isDefined _).
  - by apply reportGrows_pushRemoved.
  - apply reportGrows_refl.
Qed.

Lemma removeTag_fst k note ifd r : (removeTag k note (ifd, r)).1 = dropTag k ifd.
Proof. by rewrite removeTag_eq. Qed.

Lemma wipeGroup_fst note ifd r : (wipeGroup note (ifd, r)).1 = ∅.
Proof.
  unfold wipeGroup. destruct (nonEmpty ifd) eqn:E; [done|].
  simpl. by apply nonEmpty_false in E.
Qed.

Lemma wipeGroup_snd note ifd r :
  (wipeGroup note (ifd, r)).2 = if nonEmpty ifd then pushRemoved note r else r.
Proof. unfold wipeGroup. by destruct (nonEmpty ifd). Qed.

Lemma stripIfd0_eq ifd r :
  exists r', stripIfd0 (ifd, r) = (strippedIfd0 ifd, r') /\
             reportGrows notGpsNote r r'.
Proof.
  unfold stripIfd0, strippedIfd0. rewrite !removeTag_eq.
  eexists; split; [reflexivity|].
  repeat match goal with
  | |- reportGrows _ _ (if ?c then _ else _) =>
      destruct c;
      [ eapply reportGrows_trans;
        [| apply reportGrows_pushRemoved; unfold notGpsNote, gpsNote; discriminate ]
      | ]
  end; apply reportGrows_refl.
Qed.

Lemma stripExifIfd_eq ifd r :
  exists r', stripExifIfd (ifd, r) = (strippedExifIfd ifd, r') /\
             reportGrows notGpsNote r r'.
Proof.
  unfold stripExifIfd, strippedExifIfd. rewrite !removeTag_eq.
  eexists; split; [reflexivity|].
  repeat match goal with
  | |- reportGrows _ _ (if ?c then _ else _) =>
      destruct c;
      [ eapply reportGrows_trans;
        [| apply reportGrows_pushRemoved; unfold notGpsNote, gpsNote; discriminate ]
      | ]
  end; apply reportGrows_refl.
Qed.

End Report.

(** ** The redaction *)

Section RedactionFacts.
Context {DataURL : Type}.
Implicit Types (r : Result DataURL).

(** The locals a completed redaction leaves, in closed form. *)
Lemma redact_inv c a o decoded r r' st :
  redact c a o decoded r = (r', inr st) ->
  exists dto dt,
    cleanedDateOf (get (strippedExifIfd (Exif decoded)) ExifIFD.DateTimeOriginal)
      = inr dto /\
    cleanedDateOf (get (strippedIfd0 (zeroth decoded)) ImageIFD.DateTime)
      = inr dt /\
    ifd0 st = redactedIfd0 c a dt (zeroth decoded) /\
    exifIfd st = redactedExifIfd o dto (Exif decoded) /\
    originalOrientation st = get (zeroth decoded) ImageIFD.Orientation /\
    zeroth (exifObj st) = ifd0 st /\
    Exif (exifObj st) = exifIfd st /\
    GPS (exifObj st) = ∅ /\
    first (exifObj st) = ∅ /\
    Interop (exifObj st) = Interop decoded /\
    thumbnail (exifObj st) =
      (if truthy (thumbnail decoded) then VUndefined else thumbnail decoded).
Proof.
  unfold redact.
  destruct (wipeGroup "GPS (entire block)" (GPS decoded, r)) as [gps r1] eqn:Eg.
  destruct (stripIfd0_eq (zeroth decoded) r1) as (r2 & -> & _).
  destruct (stripExifIfd_eq (Exif decoded) r2) as (r3 & -> & _).
  destruct (wipeGroup "Thumbnail" (first decoded, r3)) as [fst' r4] eqn:Et.
  apply (f_equal fst) in Eg, Et. rewrite wipeGroup_fst in Eg, Et. simpl in Eg, Et.
  subst gps fst'.
  destruct (cleanedDateOf (get (strippedExifIfd (Exif decoded)) _)) as [e|dto] eqn:Edto.
  { intros H. apply (f_equal snd) in H. discriminate H. }
  assert (Hdt : get (<[ImageIFD.Artist:=VStr a]>
                       (<[ImageIFD.Copyright:=VStr c]> (strippedIfd0 (zeroth decoded))))
                  ImageIFD.DateTime
                = get (strippedIfd0 (zeroth decoded)) ImageIFD.DateTime).
  { unfold get. rewrite !lookup_insert_ne; [reflexivity | tag_ne ..]. }
  rewrite Hdt.
  destruct (cleanedDateOf (get (strippedIfd0 (zeroth decoded)) _)) as [e|dt] eqn:Edt.
  { intros H. apply (f_equal snd) in H.
    destruct dto; cbn beta iota zeta delta [snd] in H; discriminate H. }
  intros H. exists dto, dt.
  apply (f_equal snd) in H.
  assert (st = {| exifObj :=
                    {| zeroth := redactedIfd0 c a dt (zeroth decoded);
                       Exif := redactedExifIfd o dto (Exif decoded);
                       GPS := ∅; first := ∅; Interop := Interop decoded;
                       thumbnail := if truthy (thumbnail decoded) then VUndefined
                                    else thumbnail decoded |};
                  ifd0 := redactedIfd0 c a dt (zeroth decoded);
                  exifIfd := redactedExifIfd o dto (Exif decoded);
                  originalOrientation := get (zeroth decoded) ImageIFD.Orientation |})
    as ->.
  { change ImageIFD.Orientation with 274 in *.
    destruct dto, dt; cbn beta iota zeta delta [snd] in H;
      apply (inj inr) in H; subst st;
      unfold redactedIfd0, redactedExifIfd, setDate;
      destruct (isDefined (get (zeroth decoded) 274)) eqn:D; rewrite ?D;
      reflexivity. }
  repeat split; reflexivity.
Qed.

(** The report after the redaction, whether it completed or threw: the
    GPS entry when the GPS group was not empty, then entries that are
    not the GPS entry; nothing else of the result object changes. *)
Lemma redact_report c a o decoded r :
  reportGrows notGpsNote
    (if nonEmpty (GPS decoded) then pushRemoved gpsNote r else r)
    (redact c a o decoded r).1.
Proof.
  unfold redact.
  destruct (wipeGroup "GPS (entire block)" (GPS decoded, r)) as [gps r1] eqn:Eg.
  apply (f_equal snd) in Eg. rewrite wipeGroup_snd in Eg. simpl in Eg.
  fold gpsNote in Eg. rewrite Eg. clear Eg.
  destruct (stripIfd0_eq (zeroth decoded) r1) as (r2 & -> & G2).
  destruct (stripExifIfd_eq (Exif decoded) r2) as (r3 & -> & G3).
  destruct (wipeGroup "Thumbnail" (first decoded, r3)) as [fst' r4] eqn:Et.
  apply (f_equal snd) in Et. rewrite wipeGroup_snd in Et. simpl in Et.
  assert (G4 : reportGrows notGpsNote r1 r4).
  { eapply reportGrows_trans; [exact G2|]. eapply reportGrows_trans; [exact G3|].
    subst r4. destruct (nonEmpty _); [|apply reportGrows_refl].
    by apply reportGrows_pushRemoved. }
  clear G2 G3 Et.
  set (r5 := pushAdded _ (pushAdded _ r4)).
  assert (G5 : reportGrows notGpsNote r1 r5).
  { eapply reportGrows_trans; [exact G4|]. subst r5.
    eapply reportGrows_trans; apply reportGrows_pushAdded. }
  clearbody r5.
  destruct (cleanedDateOf _) as [e|dto]; [exact G5|].
  set (r6 := match dto with Some c0 => _ | None => _ end).
  assert (G6 : reportGrows notGpsNote r1 (pushAdded ("OffsetTimeOriginal: " +:+ o) r6.2)).
  { eapply reportGrows_trans; [exact G5|]. subst r6.
    eapply reportGrows_trans; [|apply reportGrows_pushAdded].
    destruct dto; simpl; [apply reportGrows_pushAdded | apply reportGrows_refl]. }
  destruct r6 as [ie r6']. cbn [snd] in G6.
  destruct (cleanedDateOf _); exact G6.
Qed.

End RedactionFacts.

(** ** The fallback chain and the orchestration *)

Section PipelineFacts.
Context {DataURL ExifBytes : Type}.
Implicit Types (env : Env DataURL ExifBytes) (px : Piexif DataURL ExifBytes)
  (f : File DataURL).

(** The tier that served the output is the one whose encode returned it. *)
Lemma fallbackChain_served px c a o st u0 t u :
  fallbackChain px c a o st u0 = Encoded t u ->
  match t with
  | Tier1 => encode px (tier1Exif st) u0 = inr u
  | Tier2 => encode px (minimalExif c a o st) u0 = inr u
  | Tier3 => stripAndRebuild px (safeExif c a st) u0 = inr u
  | Tier4 => remove px u0 = inr u
  end.
Proof.
  unfold fallbackChain.
  destruct (encode px (tier1Exif st) u0) as [e1|u1] eqn:E1.
  2:{ intros [= <- <-]. reflexivity. }
  destruct (encode px (minimalExif c a o st) u0) as [e2|u2] eqn:E2.
  2:{ intros [= <- <-]. reflexivity. }
  destruct (stripAndRebuild px (safeExif c a st) u0) as [e3|u3] eqn:E3.
  2:{ intros [= <- <-]. reflexivity. }
  destruct (remove px u0) as [e4|u4] eqn:E4.
  2:{ intros [= <- <-]. reflexivity. }
  intros [=].
Qed.

Lemma fallbackChain_exhausted px c a o st u0 e1 :
  encode px (tier1Exif st) u0 = inl e1 ->
  (exists e, encode px (minimalExif c a o st) u0 = inl e) ->
  (exists e, stripAndRebuild px (safeExif c a st) u0 = inl e) ->
  (exists e, remove px u0 = inl e) ->
  fallbackChain px c a o st u0 = Exhausted e1.
Proof.
  intros H1 [e2 H2] [e3 H3] [e4 H4]. unfold fallbackChain.
  rewrite H1, H2, H3, H4. reflexivity.
Qed.

(** A faithful codec decodes the output of tier [t] to tier [t]'s
    document. *)
Lemma served_output_tags px c a o st u0 t u :
  Faithful px ->
  fallbackChain px c a o st u0 = Encoded t u ->
  exists d', load px u = inr d' /\ sameTags d' (tierExif c a o st t).
Proof.
  intros [Hins Hrem] Hs. apply fallbackChain_served in Hs.
  destruct t; simpl.
  - unfold encode in Hs. destruct (dump px _) as [|b] eqn:Ed; [discriminate Hs|].
    exact (Hins _ _ _ _ Ed Hs).
  - unfold encode in Hs. destruct (dump px _) as [|b] eqn:Ed; [discriminate Hs|].
    exact (Hins _ _ _ _ Ed Hs).
  - unfold stripAndRebuild, encode in Hs.
    destruct (remove px u0) as [|s]; [discriminate Hs|].
    destruct (dump px _) as [|b] eqn:Ed; [discriminate Hs|].
    exact (Hins _ _ _ _ Ed Hs).
  - exact (Hrem _ _ Hs).
Qed.

(** The three ways a decoded JPEG leaves the routine. *)
Lemma run_threw env f options px decoded result e :
  decodes env f px decoded ->
  redact (copyrightOf options) (artistOf options) (offsetTimeOf options)
    decoded (initialResult env f) = (result, inl e) ->
  cleanupExifFromFile env f options
  = withOriginal env f (success result) (errorText e) result.
Proof.
  intros (Hh & Hj & Hp & Hl) Hr. unfold cleanupExifFromFile, tryBody.
  rewrite Hh, Hj, Hp. cbn beta iota zeta delta [negb]. rewrite Hl.
  unfold copyrightOf, artistOf, offsetTimeOf in Hr. rewrite Hr. reflexivity.
Qed.

Lemma run_served env f options px decoded result st t u :
  decodes env f px decoded ->
  redact (copyrightOf options) (artistOf options) (offsetTimeOf options)
    decoded (initialResult env f) = (result, inr st) ->
  servedBy px options st (f_data f) u t ->
  cleanupExifFromFile env f options
  = withCleaned env (f_name f) (f_type f) u None
      (fold_left (fun r s => pushRemoved s r) (tierNote t) result).
Proof.
  intros (Hh & Hj & Hp & Hl) Hr Hs. unfold cleanupExifFromFile, tryBody.
  rewrite Hh, Hj, Hp. cbn beta iota zeta delta [negb]. rewrite Hl.
  unfold servedBy in Hs. unfold copyrightOf, artistOf, offsetTimeOf in Hr, Hs.
  rewrite Hr, Hs. reflexivity.
Qed.

Lemma run_exhausted env f options px decoded result st dumpError :
  decodes env f px decoded ->
  redact (copyrightOf options) (artistOf options) (offsetTimeOf options)
    decoded (initialResult env f) = (result, inr st) ->
  allTiersFail px options st (f_data f) dumpError ->
  cleanupExifFromFile env f options
  = withOriginal env f true
      ("EXIF 处理异常，返回原文件: " +:+ toStr (message dumpError)) result.
Proof.
  intros (Hh & Hj & Hp & Hl) Hr (H1 & H2 & H3 & H4).
  unfold cleanupExifFromFile, tryBody.
  rewrite Hh, Hj, Hp. cbn beta iota zeta delta [negb]. rewrite Hl.
  unfold copyrightOf, artistOf, offsetTimeOf in Hr, H2, H3.
  rewrite Hr, (fallbackChain_exhausted _ _ _ _ _ _ _ H1 H2 H3 H4). reflexivity.
Qed.

Lemma outputExif_withCleaned env px name type u from r d :
  load px u = inr d ->
  outputExif px (withCleaned env name type u from r) = Some d.
Proof. intros H. unfold outputExif. simpl. rewrite H. reflexivity. Qed.

End PipelineFacts.

(** The loop-back codec reads back what it wrote. *)
Lemma loopback_faithful accepts strippable :
  Faithful (Loopback.piexif accepts strippable).
Proof.
  split.
  - intros d bytes u u'. simpl. destruct (accepts d); [|discriminate].
    intros [= <-] [= <-]. simpl. exists d. repeat split.
  - intros u u'. simpl. destruct strippable; [|discriminate].
    intros [= <-]. simpl. eexists. split; [reflexivity|]. repeat split.
Qed.

(** ** Fail-safe: every tier throws *)

(** C1 (as the code has it): when the JPEG decodes, the redaction runs
    through and each of the four tiers throws, [cleanupExifFromFile]
    returns the input file itself (file, blob and size are the input's),
    flags the result [success = true], and keeps the first tier's error
    message in the [error] note. *)
Theorem C1_all_tiers_fail_original_flagged_success
    {DataURL ExifBytes : Type} (env : Env DataURL ExifBytes) f options px
    decoded st dumpError :
  decodes env f px decoded ->
  redacts env f options decoded st ->
  allTiersFail px options st (f_data f) dumpError ->
  file (cleanupExifFromFile env f options) = Some f /\
  blob (cleanupExifFromFile env f options) = Some (f_data f) /\
  cleanedSize (cleanupExifFromFile env f options) = size_of env f /\
  success (cleanupExifFromFile env f options) = true /\
  error (cleanupExifFromFile env f options)
  = Some ("EXIF 处理异常，返回原文件: " +:+ toStr (message dumpError)).
Proof.
  intros Hd [result Hr] Hf.
  rewrite (run_exhausted _ _ _ _ _ _ _ _ Hd Hr Hf). repeat split.
Qed.

Lemma C1_all_tiers_fail_original_flagged_success_witness :
  file (cleanupExifFromFile Loopback.broken (Loopback.photo Loopback.sample) noOptions)
  = Some (Loopback.photo Loopback.sample) /\
  blob (cleanupExifFromFile Loopback.broken (Loopback.photo Loopback.sample) noOptions)
  = Some (f_data (Loopback.photo Loopback.sample)) /\
  cleanedSize (cleanupExifFromFile Loopback.broken (Loopback.photo Loopback.sample) noOptions)
  = size_of Loopback.broken (Loopback.photo Loopback.sample) /\
  success (cleanupExifFromFile Loopback.broken (Loopback.photo Loopback.sample) noOptions)
  = true /\
  error (cleanupExifFromFile Loopback.broken (Loopback.photo Loopback.sample) noOptions)
  = Some "EXIF 处理异常，返回原文件: 'pack' error. Got invalid type argument.".
Proof.
  eapply (C1_all_tiers_fail_original_flagged_success Loopback.broken
            (Loopback.photo Loopback.sample) noOptions
            (Loopback.piexif (fun _ => false) false) Loopback.sample _
            (JsError "'pack' error. Got invalid type argument.")).
  - repeat split.
  - eexists. vm_compute. reflexivity.
  - repeat split; try eexists; vm_compute; reflexivity.
Defined.

(** C1, the claim as stated, fails: with a codec whose encoder rejects
    every document and whose strip throws, all four tiers fail on the
    sample photo, the input file comes back, and the success flag is
    [true], not [false]. *)
Lemma C1_counterexample :
  exists st dumpError,
    decodes Loopback.broken (Loopback.photo Loopback.sample)
      (Loopback.piexif (fun _ => false) false) Loopback.sample /\
    redacts Loopback.broken (Loopback.photo Loopback.sample) noOptions
      Loopback.sample st /\
    allTiersFail (Loopback.piexif (fun _ => false) false) noOptions st
      (f_data (Loopback.photo Loopback.sample)) dumpError /\
    file (cleanupExifFromFile Loopback.broken (Loopback.photo Loopback.sample) noOptions)
    = Some (Loopback.photo Loopback.sample) /\
    success (cleanupExifFromFile Loopback.broken (Loopback.photo Loopback.sample) noOptions)
    <> false.
Proof.
  eexists. eexists. split; [repeat split|].
  split; [eexists; vm_compute; reflexivity|].
  split; [repeat split; try eexists; vm_compute; reflexivity|].
  split; [vm_compute; reflexivity|].
  vm_compute. discriminate.
Qed.

(** ** Passthrough and failure results *)

(** C7: a JPEG whose tag directory does not decode ([piexif.load] throws)
    is returned as it is, with [success = true], empty removed-fields and
    added-fields lists, and an explanatory note. *)
Theorem C7_undecodable_jpeg_passthrough
    {DataURL ExifBytes : Type} (env : Env DataURL ExifBytes) f options px e :
  isHeicFormat f = false ->
  isJpegFormat f = true ->
  loadPiexif env = inr px ->
  load px (f_data f) = inl e ->
  success (cleanupExifFromFile env f options) = true /\
  file (cleanupExifFromFile env f options) = Some f /\
  blob (cleanupExifFromFile env f options) = Some (f_data f) /\
  cleanedSize (cleanupExifFromFile env f options) = size_of env f /\
  removedFields (cleanupExifFromFile env f options) = [] /\
  addedFields (cleanupExifFromFile env f options) = [] /\
  error (cleanupExifFromFile env f options) = Some "无法解析 EXIF 数据，返回原文件".
Proof.
  intros Hh Hj Hp Hl. unfold cleanupExifFromFile, tryBody.
  rewrite Hh, Hj, Hp. cbn beta iota zeta delta [negb]. rewrite Hl.
  repeat split.
Qed.

Lemma C7_undecodable_jpeg_passthrough_witness :
  success (cleanupExifFromFile Loopback.accepting Loopback.garbledPhoto noOptions) = true /\
  file (cleanupExifFromFile Loopback.accepting Loopback.garbledPhoto noOptions)
  = Some Loopback.garbledPhoto /\
  blob (cleanupExifFromFile Loopback.accepting Loopback.garbledPhoto noOptions)
  = Some (f_data Loopback.garbledPhoto) /\
  cleanedSize (cleanupExifFromFile Loopback.accepting Loopback.garbledPhoto noOptions)
  = size_of Loopback.accepting Loopback.garbledPhoto /\
  removedFields (cleanupExifFromFile Loopback.accepting Loopback.garbledPhoto noOptions) = [] /\
  addedFields (cleanupExifFromFile Loopback.accepting Loopback.garbledPhoto noOptions) = [] /\
  error (cleanupExifFromFile Loopback.accepting Loopback.garbledPhoto noOptions)
  = Some "无法解析 EXIF 数据，返回原文件".
Proof.
  apply (C7_undecodable_jpeg_passthrough Loopback.accepting Loopback.garbledPhoto
           noOptions (Loopback.piexif (fun _ => true) true)
           (JsError "'load' gots invalid file data."));
    reflexivity.
Defined.

(** C10: a HEIC/HEIF input whose pixel decode throws comes back as a
    failure (success flag [false], the original file returned) whose
    removed-fields list is not empty: it holds the conversion entry that
    was pushed before the conversion was attempted. *)
Theorem C10_heic_failure_reports_conversion
    {DataURL ExifBytes : Type} (env : Env DataURL ExifBytes) f options e :
  isHeicFormat f = true ->
  convertHeicToJpeg env f (heicQuality options) = inl e ->
  success (cleanupExifFromFile env f options) = false /\
  file (cleanupExifFromFile env f options) = Some f /\
  removedFields (cleanupExifFromFile env f options)
  = ["HEIC/HEIF converted to JPEG (all original metadata removed)"] /\
  removedFields (cleanupExifFromFile env f options) <> [].
Proof.
  intros Hh Hc. unfold cleanupExifFromFile, tryBody. rewrite Hh, Hc.
  repeat split. discriminate.
Qed.

Lemma C10_heic_failure_reports_conversion_witness :
  success (cleanupExifFromFile Loopback.heicless Loopback.heicPhoto noOptions) = false /\
  file (cleanupExifFromFile Loopback.heicless Loopback.heicPhoto noOptions)
  = Some Loopback.heicPhoto /\
  removedFields (cleanupExifFromFile Loopback.heicless Loopback.heicPhoto noOptions)
  = ["HEIC/HEIF converted to JPEG (all original metadata removed)"] /\
  removedFields (cleanupExifFromFile Loopback.heicless Loopback.heicPhoto noOptions) <> [].
Proof.
  apply (C10_heic_failure_reports_conversion Loopback.heicless Loopback.heicPhoto
           noOptions (JsError "无法解码 HEIC/HEIF 文件"));
    reflexivity.
Defined.

(** ** The batch *)

Section BatchFacts.
Context {DataURL ExifBytes : Type}.
Implicit Types (env : Env DataURL ExifBytes) (f : File DataURL).

Lemma redact_frame c a o decoded (r : Result DataURL) :
  success (redact c a o decoded r).1 = success r /\
  originalSize (redact c a o decoded r).1 = originalSize r.
Proof.
  destruct (redact_report c a o decoded r) as (Hs & _ & _ & Ho & _).
  rewrite Hs, Ho. destruct (nonEmpty _); split; reflexivity.
Qed.

(** The body of the outer [try] either returns with the success flag
    set, or throws with the flag still unset; it never touches
    [originalSize]. *)
Lemma tryBody_flag env f options c a o :
  originalSize (tryBody env f options c a o (initialResult env f)).1
  = size_of env f /\
  match (tryBody env f options c a o (initialResult env f)).2 with
  | None => success (tryBody env f options c a o (initialResult env f)).1 = true
  | Some _ => success (tryBody env f options c a o (initialResult env f)).1 = false
  end.
Proof.
  unfold tryBody.
  destruct (isHeicFormat f).
  { destruct (convertHeicToJpeg env f _); [split; reflexivity|].
    destruct (loadPiexif env); [split; reflexivity|].
    destruct (encode _ _ _); split; reflexivity. }
  destruct (isJpegFormat f); cbn beta iota zeta delta [negb]; [|split; reflexivity].
  destruct (loadPiexif env) as [|px]; [split; reflexivity|].
  destruct (load px (f_data f)) as [|decoded]; [split; reflexivity|].
  destruct (redact_frame c a o decoded (initialResult env f)) as [Hs Ho].
  destruct (redact c a o decoded (initialResult env f)) as [r' [e|st]];
    cbn [fst snd] in *; [split; assumption|].
  destruct (fallbackChain _ _ _ _ _ _) as [t u|e]; cbn [fst snd]; [|split; [exact Ho|reflexivity]].
  split; [|reflexivity]. cbn [withCleaned originalSize].
  destruct t; exact Ho.
Qed.

(** A result is a failure only through the outer [catch], which returns
    the input file and its size. *)
Lemma failure_returns_original env f options :
  success (cleanupExifFromFile env f options) = false ->
  file (cleanupExifFromFile env f options) = Some f /\
  cleanedSize (cleanupExifFromFile env f options) = size_of env f /\
  originalSize (cleanupExifFromFile env f options) = size_of env f.
Proof.
  unfold cleanupExifFromFile.
  destruct (tryBody_flag env f options
              (default DEFAULT_COPYRIGHT_INFO_copyright (copyright options))
              (default DEFAULT_COPYRIGHT_INFO_artist (artist options))
              (default DEFAULT_OFFSET_TIME (offsetTime options))) as [Ho Hf].
  destruct (tryBody _ _ _ _ _ _ _) as [r [e|]]; cbn [fst snd] in *.
  - intros _. repeat split. exact Ho.
  - intros H. rewrite Hf in H. discriminate H.
Qed.

(** The loop from any index and any accumulated state. *)
Lemma batchLoop_spec env options onProgress total files :
  forall i acc log,
    let run := fun f => cleanupExifFromFile env f options in
    let out := batchLoop env options onProgress total i files acc log in
    results out.1 = (results acc ++ map run files)%list /\
    batch_success out.1
    = batch_success acc + N.of_nat (length (List.filter success (map run files))) /\
    batch_failed out.1
    = batch_failed acc
      + N.of_nat (length (List.filter (fun r => negb (success r)) (map run files))) /\
    totalOriginalSize out.1
    = totalOriginalSize acc + sumN (map originalSize (map run files)) /\
    totalCleanedSize out.1
    = totalCleanedSize acc + sumN (map cleanedSize (map run files)) /\
    out.2 = (log ++ concat (imap (fun j f =>
               (if onProgress then [Progress (i + j + 1) total f] else [])
               ++ [Processed f]) files))%list.
Proof.
  induction files as [|f rest IH]; intros i acc log run out; subst run out.
  - cbn. rewrite !app_nil_r, !N.add_0_r. repeat split.
  - cbn [batchLoop].
    match goal with |- context [batchLoop _ _ _ _ _ _ ?a ?l] =>
      specialize (IH (S i) a l) end.
    cbv zeta in IH. destruct IH as (H1 & H2 & H3 & H4 & H5 & H6).
    rewrite H1, H2, H3, H4, H5, H6.
    cbn [results batch_success batch_failed totalOriginalSize totalCleanedSize
         map List.filter sumN foldr].
    set (r := cleanupExifFromFile env f options).
    set (rs := map (fun f0 => cleanupExifFromFile env f0 options) rest).
    fold (sumN (map originalSize rs)). fold (sumN (map cleanedSize rs)).
    repeat split.
    + rewrite <- app_assoc. reflexivity.
    + destruct (success r); cbn [length]; lia.
    + destruct (success r); cbn [negb length]; lia.
    + lia.
    + lia.
    + rewrite imap_cons, concat_cons. rewrite Nat.add_0_r.
      rewrite (imap_ext _ (fun j f0 =>
                 ((if onProgress then [Progress (i + S j + 1) total f0] else [])
                  ++ [Processed f0])%list) rest).
      2:{ intros j x _. simpl.
          replace (S (i + j + 1))%nat with (i + S j + 1)%nat by lia. reflexivity. }
      destruct onProgress; rewrite <- !app_assoc; reflexivity.
Qed.

End BatchFacts.

(** C8: whether or not the caller passes a progress callback, the batch
    visits the files one at a time in input order; when there is a
    callback it is called with the 1-based index and the total before each
    file is processed, and not otherwise; every file is processed whatever
    the earlier results were; [success] and [failed] count the results by
    their flag, [totalCleanedSize] is the sum of the results' [cleanedSize],
    and a failed result's [cleanedSize] is the size of its input file. *)
Theorem C8_batch_aggregation
    {DataURL ExifBytes : Type} (env : Env DataURL ExifBytes)
    (files : list (File DataURL)) options (onProgress : bool) :
  let run := fun f => cleanupExifFromFile env f options in
  let out := cleanupExifBatch env files options onProgress in
  out.2 = concat (imap (fun j f =>
                          ((if onProgress
                            then [Progress (j + 1) (length files) f] else [])
                           ++ [Processed f])%list) files) /\
  results out.1 = map run files /\
  batch_success out.1 = N.of_nat (length (List.filter success (results out.1))) /\
  batch_failed out.1
  = N.of_nat (length (List.filter (fun r => negb (success r)) (results out.1))) /\
  totalCleanedSize out.1 = sumN (map cleanedSize (results out.1)) /\
  totalOriginalSize out.1 = sumN (map originalSize (results out.1)) /\
  (forall f, In f files -> success (run f) = false ->
             cleanedSize (run f) = size_of env f /\ file (run f) = Some f).
Proof.
  intros run out. subst out. unfold cleanupExifBatch.
  destruct (batchLoop_spec env options onProgress (length files) files 0
              {| results := []; batch_success := 0; batch_failed := 0;
                 totalOriginalSize := 0; totalCleanedSize := 0 |} [])
    as (H1 & H2 & H3 & H4 & H5 & H6).
  cbn [results batch_success batch_failed totalOriginalSize totalCleanedSize] in *.
  rewrite H1, H2, H3, H4, H5, H6. cbn [app]. rewrite !N.add_0_l.
  repeat split; by apply failure_returns_original.
Qed.

(** ** Tags of the tier documents *)

Lemma setIfDefined_lookup_ne k k' v (m : Ifd) :
  k <> k' -> setIfDefined k v m !! k' = m !! k'.
Proof.
  intros. unfold setIfDefined. destruct (isDefined v); [|reflexivity].
  by apply lookup_insert_ne.
Qed.

Lemma setIfTruthy_lookup_ne k k' v (m : Ifd) :
  k <> k' -> setIfTruthy k v m !! k' = m !! k'.
Proof.
  intros. unfold setIfTruthy. destruct (truthy v); [|reflexivity].
  by apply lookup_insert_ne.
Qed.

Lemma setIfNotNullish_lookup_ne k k' v (m : Ifd) :
  k <> k' -> setIfNotNullish k v m !! k' = m !! k'.
Proof.
  intros. unfold setIfNotNullish. destruct (notNullish v); [|reflexivity].
  by apply lookup_insert_ne.
Qed.

Lemma setDate_lookup_ne k k' c (m : Ifd) :
  k <> k' -> setDate k c m !! k' = m !! k'.
Proof.
  intros. unfold setDate. destruct c; [|reflexivity]. by apply lookup_insert_ne.
Qed.

Lemma setDate_lookup_eq k c (m : Ifd) :
  setDate k c m !! k = match c with Some x => Some (VStr x) | None => m !! k end.
Proof. unfold setDate. destruct c; [|reflexivity]. apply lookup_insert_eq. Qed.

(** Rewriting lookups through the closed forms of the redaction. *)
Ltac tag_lookup :=
  repeat first
    [ rewrite lookup_insert_eq
    | rewrite lookup_insert_ne by tag_ne
    | rewrite setIfDefined_lookup_ne by tag_ne
    | rewrite setIfTruthy_lookup_ne by tag_ne
    | rewrite setIfNotNullish_lookup_ne by tag_ne
    | rewrite setDate_lookup_ne by tag_ne
    | rewrite strippedIfd0_lookup by tag_notin
    | rewrite strippedExifIfd_lookup by tag_notin ].

Lemma redactedIfd0_lookup c a dt (ifd : Ifd) k :
  k ∉ [ImageIFD.Make; ImageIFD.Model; ImageIFD.Software; 316;
       ImageIFD.Copyright; ImageIFD.Artist; ImageIFD.DateTime] ->
  redactedIfd0 c a dt ifd !! k = ifd !! k.
Proof.
  intros Hk. rewrite !not_elem_of_cons in Hk.
  destruct Hk as (?&?&?&?&?&?&?&_).
  unfold redactedIfd0.
  rewrite setDate_lookup_ne, !lookup_insert_ne, strippedIfd0_lookup;
    [reflexivity|..]; try congruence.
  rewrite !not_elem_of_cons. repeat split; try assumption. apply not_elem_of_nil.
Qed.

Lemma redactedIfd0_copyright c a dt (ifd : Ifd) :
  redactedIfd0 c a dt ifd !! ImageIFD.Copyright = Some (VStr c) /\
  redactedIfd0 c a dt ifd !! ImageIFD.Artist = Some (VStr a).
Proof. unfold redactedIfd0. split; tag_lookup; reflexivity. Qed.

Lemma redactedIfd0_dateTime c a dt (ifd : Ifd) :
  redactedIfd0 c a dt ifd !! ImageIFD.DateTime
  = match dt with Some x => Some (VStr x) | None => ifd !! ImageIFD.DateTime end.
Proof.
  unfold redactedIfd0. rewrite setDate_lookup_eq. destruct dt; [reflexivity|].
  tag_lookup. reflexivity.
Qed.

Lemma redactedExifIfd_offsets o dto (ifd : Ifd) :
  redactedExifIfd o dto ifd !! 36880 = Some (VStr o) /\
  redactedExifIfd o dto ifd !! 36881 = Some (VStr o) /\
  redactedExifIfd o dto ifd !! 36882 = Some (VStr o).
Proof. unfold redactedExifIfd. repeat split; tag_lookup; reflexivity. Qed.

Lemma redactedExifIfd_dateTimeOriginal o dto (ifd : Ifd) :
  redactedExifIfd o dto ifd !! ExifIFD.DateTimeOriginal
  = match dto with
    | Some x => Some (VStr x)
    | None => ifd !! ExifIFD.DateTimeOriginal
    end.
Proof.
  unfold redactedExifIfd. tag_lookup. rewrite setDate_lookup_eq.
  destruct dto; [reflexivity|]. tag_lookup. reflexivity.
Qed.

(** ** Dates *)

Lemma matchDatePrefix_shape s y m d :
  matchDatePrefix s = Some (y, m, d) ->
  exists rest,
    s = y +:+ ":" +:+ m +:+ ":" +:+ d +:+ rest /\
    String.length y = 4%nat /\ String.length m = 2%nat /\ String.length d = 2%nat.
Proof.
  unfold matchDatePrefix.
  do 10 (destruct s as [|? s]; [discriminate|]).
  destruct (_ && _) eqn:E; [|discriminate].
  intros [= <- <- <-]. exists s.
  repeat (apply andb_prop in E; destruct E as [E ?]).
  repeat match goal with
  | H : Ascii.eqb _ _ = true |- _ => apply Ascii.eqb_eq in H; subst
  end.
  repeat split.
Qed.

Lemma midnight_truthy s g : matchDatePrefix s = Some g -> truthy (VStr (midnight g)) = true.
Proof.
  destruct g as [[y m] d]. intros H.
  destruct (matchDatePrefix_shape _ _ _ _ H) as (_ & _ & Hy & _).
  destruct y; [discriminate Hy|]. reflexivity.
Qed.

Lemma cleanedDateOf_string s :
  cleanedDateOf (VStr s) = inr (midnight <$> matchDatePrefix s).
Proof.
  unfold cleanedDateOf, formatExifDate.
  destruct (truthy (VStr s)) eqn:E; simpl.
  - destruct (matchDatePrefix s) as [[[y m] d]|]; reflexivity.
  - destruct s; [reflexivity|discriminate E].
Qed.

Lemma setIfDefined_lookup_eq k v (m : Ifd) :
  isDefined v = true -> setIfDefined k v m !! k = Some v.
Proof. intros H. unfold setIfDefined. rewrite H. apply lookup_insert_eq. Qed.

Lemma setIfTruthy_lookup_eq k v (m : Ifd) :
  truthy v = true -> setIfTruthy k v m !! k = Some v.
Proof. intros H. unfold setIfTruthy. rewrite H. apply lookup_insert_eq. Qed.

Lemma setIfNotNullish_lookup_eq k v (m : Ifd) :
  notNullish v = true -> setIfNotNullish k v m !! k = Some v.
Proof. intros H. unfold setIfNotNullish. rewrite H. apply lookup_insert_eq. Qed.

Lemma notNullish_isDefined v : notNullish v = true -> isDefined v = true.
Proof. by destruct v. Qed.

(** Orientation: tiers 1 to 3 carry the decoded value. *)
Lemma tier_orientation c a o st t val :
  ifd0 st !! ImageIFD.Orientation = Some val ->
  originalOrientation st = val ->
  notNullish val = true ->
  t <> Tier4 ->
  zeroth (tierExif c a o st t) !! ImageIFD.Orientation = Some val.
Proof.
  intros Hi Ho Hn Ht. destruct t; cbn [tierExif]; [| | |congruence].
  - unfold tier1Exif. cbn [zeroth]. rewrite Ho.
    by apply setIfNotNullish_lookup_eq.
  - unfold minimalExif. cbn [zeroth]. tag_lookup.
    rewrite (get_lookup _ _ _ Hi). apply setIfDefined_lookup_eq.
    by apply notNullish_isDefined.
  - unfold safeExif. cbn [zeroth]. rewrite Ho.
    by apply setIfNotNullish_lookup_eq.
Qed.

(** A string-valued tag of IFD0 or of the Exif IFD, as tiers 1 and 2
    carry it. *)
Lemma tier1_string_tags st k x :
  (zeroth (exifObj st) !! k = Some (VStr x) -> k <> ImageIFD.Orientation ->
   zeroth (tier1Exif st) !! k = Some (VStr x)) /\
  (Exif (exifObj st) !! k = Some (VStr x) ->
   Exif (tier1Exif st) !! k = Some (VStr x)).
Proof.
  unfold tier1Exif. cbn [zeroth Exif]. split.
  - intros H Hk. rewrite setIfNotNullish_lookup_ne by congruence.
    by apply cleanExifIfd_keeps_string.
  - intros H. by apply cleanExifIfd_keeps_string.
Qed.

Lemma tier2_dates c a o st x :
  truthy (VStr x) = true ->
  (ifd0 st !! ImageIFD.DateTime = Some (VStr x) ->
   zeroth (minimalExif c a o st) !! ImageIFD.DateTime = Some (VStr x)) /\
  (exifIfd st !! ExifIFD.DateTimeOriginal = Some (VStr x) ->
   Exif (minimalExif c a o st) !! ExifIFD.DateTimeOriginal = Some (VStr x)).
Proof.
  intros Hx. unfold minimalExif. cbn [zeroth Exif]. split; intros H.
  - rewrite (get_lookup _ _ _ H). by apply setIfTruthy_lookup_eq.
  - tag_lookup. rewrite (get_lookup _ _ _ H). by apply setIfTruthy_lookup_eq.
Qed.

Lemma tier2_attribution c a o st :
  zeroth (minimalExif c a o st) !! ImageIFD.Copyright = Some (VStr c) /\
  zeroth (minimalExif c a o st) !! ImageIFD.Artist = Some (VStr a) /\
  Exif (minimalExif c a o st) !! 36880 = Some (VStr o) /\
  Exif (minimalExif c a o st) !! 36881 = Some (VStr o) /\
  Exif (minimalExif c a o st) !! 36882 = Some (VStr o).
Proof.
  unfold minimalExif. cbn [zeroth Exif]. repeat split; tag_lookup; reflexivity.
Qed.

Lemma tier3_attribution c a st :
  zeroth (safeExif c a st) !! ImageIFD.Copyright = Some (VStr c) /\
  zeroth (safeExif c a st) !! ImageIFD.Artist = Some (VStr a) /\
  Exif (safeExif c a st) = ∅.
Proof.
  unfold safeExif. cbn [zeroth Exif]. repeat split; tag_lookup; reflexivity.
Qed.

Section OutputFacts.
Context {DataURL ExifBytes : Type}.
Implicit Types (env : Env DataURL ExifBytes) (px : Piexif DataURL ExifBytes)
  (f : File DataURL).

(** With a faithful codec, the output served by tier [t] is a success
    and decodes to the tags of tier [t]'s document. *)
Lemma served_output env f options px decoded st u t :
  Faithful px ->
  decodes env f px decoded ->
  redacts env f options decoded st ->
  servedBy px options st (f_data f) u t ->
  success (cleanupExifFromFile env f options) = true /\
  exists d',
    outputExif px (cleanupExifFromFile env f options) = Some d' /\
    sameTags d' (tierExif (copyrightOf options) (artistOf options)
                   (offsetTimeOf options) st t).
Proof.
  intros Hf Hd [result Hr] Hs.
  rewrite (run_served _ _ _ _ _ _ _ _ _ Hd Hr Hs).
  split; [reflexivity|].
  destruct (served_output_tags _ _ _ _ _ _ _ _ Hf Hs) as (d' & Hl & Ht).
  exists d'. split; [|exact Ht]. by apply outputExif_withCleaned.
Qed.

(** What a completed redaction does to the two time stamps when they are
    strings. *)
Lemma redacted_dates c a o decoded (r r' : Result DataURL) st :
  redact c a o decoded r = (r', inr st) ->
  (forall s, Exif decoded !! ExifIFD.DateTimeOriginal = Some (VStr s) ->
     exifIfd st !! ExifIFD.DateTimeOriginal
     = Some (VStr (default s (midnight <$> matchDatePrefix s)))) /\
  (forall s, zeroth decoded !! ImageIFD.DateTime = Some (VStr s) ->
     ifd0 st !! ImageIFD.DateTime
     = Some (VStr (default s (midnight <$> matchDatePrefix s)))).
Proof.
  intros H. apply redact_inv in H.
  destruct H as (dto & dt & Hdto & Hdt & Hi & He & _).
  split; intros s Hs.
  - rewrite He, redactedExifIfd_dateTimeOriginal.
    rewrite (get_lookup _ _ (VStr s)) in Hdto by (tag_lookup; exact Hs).
    rewrite cleanedDateOf_string in Hdto. apply (inj inr) in Hdto. subst dto.
    destruct (matchDatePrefix s); [reflexivity|exact Hs].
  - rewrite Hi, redactedIfd0_dateTime.
    rewrite (get_lookup _ _ (VStr s)) in Hdt by (tag_lookup; exact Hs).
    rewrite cleanedDateOf_string in Hdt. apply (inj inr) in Hdt. subst dt.
    destruct (matchDatePrefix s); [reflexivity|exact Hs].
Qed.

End OutputFacts.

Section ReportFacts.
Context {DataURL ExifBytes : Type}.
Implicit Types (env : Env DataURL ExifBytes) (px : Piexif DataURL ExifBytes)
  (f : File DataURL).

(** The removed-fields list of any run that decoded the JPEG: the GPS
    entry exactly when the GPS group was not empty, then entries that
    are not the GPS entry. *)
Lemma removedFields_shape env f options px decoded :
  decodes env f px decoded ->
  exists l,
    removedFields (cleanupExifFromFile env f options)
    = ((if nonEmpty (GPS decoded) then [gpsNote] else []) ++ l)%list /\
    Forall notGpsNote l.
Proof.
  intros (Hh & Hj & Hp & Hl). unfold cleanupExifFromFile, tryBody.
  rewrite Hh, Hj, Hp. cbn beta iota zeta delta [negb]. rewrite Hl.
  set (c := default _ (copyright options)).
  set (a := default _ (artist options)).
  set (o := default _ (offsetTime options)).
  destruct (redact_report c a o decoded (initialResult env f))
    as (_ & _ & _ & _ & _ & _ & _ & (l & El & Fl) & _).
  assert (E0 : removedFields
                 (if nonEmpty (GPS decoded)
                  then pushRemoved gpsNote (initialResult env f)
                  else initialResult env f)
               = if nonEmpty (GPS decoded) then [gpsNote] else []).
  { destruct (nonEmpty _); reflexivity. }
  rewrite E0 in El. clear E0.
  destruct (redact c a o decoded (initialResult env f)) as [r' [e|st]];
    cbn [fst] in El.
  { exists l. split; [exact El|exact Fl]. }
  destruct (fallbackChain _ _ _ _ _ _) as [t u|e].
  2:{ exists l. split; [exact El|exact Fl]. }
  exists (l ++ tierNote t)%list. split.
  - rewrite app_assoc, <- El. destruct t; cbn; rewrite ?app_nil_r; reflexivity.
  - apply Forall_app. split; [exact Fl|].
    destruct t; cbn; repeat constructor; unfold notGpsNote, gpsNote; discriminate.
Qed.

End ReportFacts.

(** ** Codecs without the offset-time tags, and the exhausted chain *)

Section CodecFacts.
Context {DataURL ExifBytes : Type}.
Implicit Types (env : Env DataURL ExifBytes) (px : Piexif DataURL ExifBytes)
  (f : File DataURL).

(** The documents of tiers 1 and 2 always carry the offset-time tags. *)
Lemma offset_time_in_tiers_1_2 c a o decoded (r r' : Result DataURL) st :
  redact c a o decoded r = (r', inr st) ->
  carriesOffsetTime (tier1Exif st) = true /\
  carriesOffsetTime (minimalExif c a o st) = true.
Proof.
  intros Hr. apply redact_inv in Hr.
  destruct Hr as (dto & dt & _ & _ & _ & Hx & _ & _ & He & _).
  destruct (redactedExifIfd_offsets o dto (Exif decoded)) as (H0 & _ & _).
  rewrite <- Hx, <- He in H0.
  destruct (tier2_attribution c a o st) as (_ & _ & H2 & _).
  unfold carriesOffsetTime. split.
  - rewrite (get_lookup _ _ (VStr o)); [reflexivity|].
    apply tier1_string_tags. exact H0.
  - rewrite (get_lookup _ _ (VStr o)); [reflexivity|exact H2].
Qed.

(** On a codec without the offset-time tags the encodes of tiers 1 and 2
    throw, so an output comes from tier 3 or tier 4. *)
Lemma served_by_tier_3_or_4 px c a o decoded (r r' : Result DataURL) st u0 t u :
  RejectsOffsetTime px ->
  redact c a o decoded r = (r', inr st) ->
  fallbackChain px c a o st u0 = Encoded t u ->
  t = Tier3 \/ t = Tier4.
Proof.
  intros Hrej Hr Hs. apply fallbackChain_served in Hs.
  destruct (offset_time_in_tiers_1_2 _ _ _ _ _ _ _ Hr) as [H1 H2].
  destruct t; [| |by left|by right]; exfalso; unfold encode in Hs.
  - destruct (Hrej _ H1) as [e He]. rewrite He in Hs. discriminate Hs.
  - destruct (Hrej _ H2) as [e He]. rewrite He in Hs. discriminate Hs.
Qed.

(** Tiers 3 and 4 carry neither time stamp, nor any tag of the Exif
    group. *)
Lemma no_dates_in_tiers_3_4 c a o st t :
  t = Tier3 \/ t = Tier4 ->
  Exif (tierExif c a o st t) = ∅ /\
  zeroth (tierExif c a o st t) !! ImageIFD.DateTime = None.
Proof.
  intros [-> | ->]; cbn [tierExif]; (split; [reflexivity|]).
  - unfold safeExif. cbn [zeroth]. tag_lookup. apply lookup_empty.
  - apply lookup_empty.
Qed.

(** Tiers 2, 3 and 4 do not carry the Windows fields XPAuthor (0x9C9D)
    and XPComment (0x9C9C). *)
Lemma no_xp_fields_after_tier_1 c a o st t :
  t <> Tier1 ->
  zeroth (tierExif c a o st t) !! 0x9C9D = None /\
  zeroth (tierExif c a o st t) !! 0x9C9C = None.
Proof.
  intros Ht. destruct t; [congruence|..]; cbn [tierExif].
  - unfold minimalExif. cbn [zeroth]. split; tag_lookup; apply lookup_empty.
  - unfold safeExif. cbn [zeroth]. split; tag_lookup; apply lookup_empty.
  - split; apply lookup_empty.
Qed.

(** When every tier throws, the result is flagged a success and its file
    is the input, whose directory decodes as before. *)
Lemma exhausted_output env f options px decoded st dumpError :
  decodes env f px decoded ->
  redacts env f options decoded st ->
  allTiersFail px options st (f_data f) dumpError ->
  success (cleanupExifFromFile env f options) = true /\
  file (cleanupExifFromFile env f options) = Some f /\
  outputExif px (cleanupExifFromFile env f options) = Some decoded.
Proof.
  intros Hd [result Hr] Hf.
  rewrite (run_exhausted _ _ _ _ _ _ _ _ Hd Hr Hf).
  destruct Hd as (_ & _ & _ & Hl).
  unfold outputExif. cbn [withOriginal file success]. rewrite Hl. repeat split.
Qed.

End CodecFacts.

(** The loop-back encoder that knows no tag beyond Exif 2.2 is such a
    codec. *)
Lemma legacy_rejects_offset_time strippable :
  RejectsOffsetTime (Loopback.piexif Loopback.knowsNoOffsetTime strippable).
Proof.
  intros d Hd. cbn [dump Loopback.piexif]. unfold Loopback.knowsNoOffsetTime.
  unfold carriesOffsetTime in Hd. rewrite Hd. cbn [negb]. eexists. reflexivity.
Qed.

(** ** Orientation *)

(** C2 (as the code has it): for a JPEG whose decoded Primary group holds
    Orientation [v] in 1..8, the output served by tier 1, 2 or 3 decodes to
    a Primary group whose Orientation is [v]; the output served by tier 4
    has had its EXIF stripped and nothing inserted, so its Primary group is
    empty and carries no Orientation. *)
Theorem C2_orientation_kept_by_tiers_1_to_3
    {DataURL ExifBytes : Type} (env : Env DataURL ExifBytes) f options px
    decoded st u t v :
  Faithful px ->
  decodes env f px decoded ->
  redacts env f options decoded st ->
  servedBy px options st (f_data f) u t ->
  zeroth decoded !! ImageIFD.Orientation = Some (VNum (Fin v)) ->
  (1 <= v <= 8)%Z ->
  exists d',
    outputExif px (cleanupExifFromFile env f options) = Some d' /\
    match t with
    | Tier4 => zeroth d' = ∅
    | _ => zeroth d' !! ImageIFD.Orientation = Some (VNum (Fin v))
    end.
Proof.
  intros Hf Hd Hr Hs Hv _.
  destruct (served_output _ _ _ _ _ _ _ _ Hf Hd Hr Hs) as (_ & d' & Ho & Hz & _).
  exists d'. split; [exact Ho|]. rewrite Hz.
  destruct Hr as [result Hr]. apply redact_inv in Hr.
  destruct Hr as (dto & dt & _ & _ & Hi & _ & Hoo & _).
  assert (Hi' : ifd0 st !! ImageIFD.Orientation = Some (VNum (Fin v))).
  { rewrite Hi, redactedIfd0_lookup by tag_notin. exact Hv. }
  rewrite (get_lookup _ _ _ Hv) in Hoo.
  destruct t; try (apply tier_orientation; [exact Hi'|exact Hoo|reflexivity|discriminate]).
  reflexivity.
Qed.

Lemma C2_orientation_kept_by_tiers_1_to_3_witness :
  exists d',
    outputExif (Loopback.piexif Loopback.knowsNoOffsetTime true)
      (cleanupExifFromFile Loopback.legacy (Loopback.photo Loopback.sample) noOptions)
    = Some d' /\
    zeroth d' !! ImageIFD.Orientation = Some (VNum (Fin 6)).
Proof.
  eapply (C2_orientation_kept_by_tiers_1_to_3 Loopback.legacy
            (Loopback.photo Loopback.sample) noOptions
            (Loopback.piexif Loopback.knowsNoOffsetTime true)
            Loopback.sample _ _ Tier3 6).
  - apply loopback_faithful.
  - repeat split.
  - eexists. vm_compute. reflexivity.
  - vm_compute. reflexivity.
  - reflexivity.
  - lia.
Defined.

(** C2, the claim as stated, fails at tier 4: with an encoder that rejects
    every document and a strip that works, the sample photo (Orientation 6)
    is served by tier 4 and its output has no Orientation tag. *)
Lemma C2_counterexample :
  exists st u d',
    Faithful (Loopback.piexif (fun _ => false) true) /\
    decodes Loopback.rejecting (Loopback.photo Loopback.sample)
      (Loopback.piexif (fun _ => false) true) Loopback.sample /\
    redacts Loopback.rejecting (Loopback.photo Loopback.sample) noOptions
      Loopback.sample st /\
    servedBy (Loopback.piexif (fun _ => false) true) noOptions st
      (f_data (Loopback.photo Loopback.sample)) u Tier4 /\
    zeroth Loopback.sample !! ImageIFD.Orientation = Some (VNum (Fin 6)) /\
    outputExif (Loopback.piexif (fun _ => false) true)
      (cleanupExifFromFile Loopback.rejecting (Loopback.photo Loopback.sample) noOptions)
    = Some d' /\
    zeroth d' !! ImageIFD.Orientation <> Some (VNum (Fin 6)).
Proof.
  eexists. eexists. eexists.
  split; [apply loopback_faithful|].
  split; [repeat split|].
  split; [eexists; vm_compute; reflexivity|].
  split; [vm_compute; reflexivity|].
  split; [reflexivity|].
  split; [vm_compute; reflexivity|].
  vm_compute. discriminate.
Qed.

(** ** Time stamps *)

(** C3 (as the code has it): a DateTimeOriginal (Exif group) or DateTime
    (Primary group) that is a string starting with a well-formed
    [YYYY:MM:DD] prefix comes out as that date followed by [" 00:00:00"]
    when tier 1 or tier 2 serves the output; an output served by tier 3 or
    tier 4 carries neither tag, whatever the value was, and these are the
    only tiers that serve on a codec without the offset-time tags, so
    there a value that does not match the prefix is absent from the cleaned
    output; when every tier throws the original file comes back, flagged a
    success, with its directory as it was. *)
Theorem C3_time_of_day_cleared_or_tag_absent
    {DataURL ExifBytes : Type} (env : Env DataURL ExifBytes) f options px
    decoded st :
  Faithful px ->
  decodes env f px decoded ->
  redacts env f options decoded st ->
  (forall u t, servedBy px options st (f_data f) u t ->
     exists d',
       outputExif px (cleanupExifFromFile env f options) = Some d' /\
       match t with
       | Tier1 | Tier2 =>
           (forall s g, Exif decoded !! ExifIFD.DateTimeOriginal = Some (VStr s) ->
              matchDatePrefix s = Some g ->
              Exif d' !! ExifIFD.DateTimeOriginal = Some (VStr (midnight g))) /\
           (forall s g, zeroth decoded !! ImageIFD.DateTime = Some (VStr s) ->
              matchDatePrefix s = Some g ->
              zeroth d' !! ImageIFD.DateTime = Some (VStr (midnight g)))
       | Tier3 | Tier4 =>
           Exif d' !! ExifIFD.DateTimeOriginal = None /\
           zeroth d' !! ImageIFD.DateTime = None
       end /\
       (RejectsOffsetTime px ->
          Exif d' !! ExifIFD.DateTimeOriginal = None /\
          zeroth d' !! ImageIFD.DateTime = None)) /\
  (forall dumpError, allTiersFail px options st (f_data f) dumpError ->
     success (cleanupExifFromFile env f options) = true /\
     file (cleanupExifFromFile env f options) = Some f /\
     outputExif px (cleanupExifFromFile env f options) = Some decoded).
Proof.
  intros Hf Hd Hr. split.
  2:{ intros e He. exact (exhausted_output _ _ _ _ _ _ _ Hd Hr He). }
  intros u t Hs.
  destruct (served_output _ _ _ _ _ _ _ _ Hf Hd Hr Hs) as (_ & d' & Ho & Hz & He & _).
  exists d'. split; [exact Ho|]. rewrite Hz, He. clear Hz He Ho.
  destruct Hr as [result Hr].
  assert (Habs : t = Tier3 \/ t = Tier4 ->
                 Exif (tierExif (copyrightOf options) (artistOf options)
                         (offsetTimeOf options) st t) !! ExifIFD.DateTimeOriginal = None /\
                 zeroth (tierExif (copyrightOf options) (artistOf options)
                           (offsetTimeOf options) st t) !! ImageIFD.DateTime = None).
  { intros Ht. destruct (no_dates_in_tiers_3_4 (copyrightOf options)
                           (artistOf options) (offsetTimeOf options) st t Ht) as [HE HZ].
    rewrite HE. split; [apply lookup_empty|exact HZ]. }
  split.
  2:{ intros Hrej. apply Habs.
      exact (served_by_tier_3_or_4 _ _ _ _ _ _ _ _ _ _ _ Hrej Hr Hs). }
  destruct (redacted_dates _ _ _ _ _ _ _ Hr) as [HE HZ].
  apply redact_inv in Hr. destruct Hr as (_ & _ & _ & _ & _ & _ & _ & Hz0 & He0 & _).
  assert (Hx : forall s g, matchDatePrefix s = Some g ->
                 truthy (VStr (default s (midnight <$> matchDatePrefix s))) = true).
  { intros s g Hg. rewrite Hg. cbn. exact (midnight_truthy _ _ Hg). }
  destruct t; [| |apply Habs; by left|apply Habs; by right]; cbn [tierExif];
    (split; intros s g Hlook Hg; specialize (Hx s g Hg)).
  - specialize (HE s Hlook). rewrite Hg in HE, Hx. cbn in HE, Hx.
    apply tier1_string_tags. by rewrite He0.
  - specialize (HZ s Hlook). rewrite Hg in HZ, Hx. cbn in HZ, Hx.
    apply tier1_string_tags; [by rewrite Hz0 | tag_ne].
  - specialize (HE s Hlook). rewrite Hg in HE, Hx. cbn in HE, Hx.
    by apply tier2_dates.
  - specialize (HZ s Hlook). rewrite Hg in HZ, Hx. cbn in HZ, Hx.
    by apply tier2_dates.
Qed.

Lemma C3_time_of_day_cleared_or_tag_absent_witness :
  (exists d',
     outputExif (Loopback.piexif Loopback.knowsNoXPAuthor true)
       (cleanupExifFromFile Loopback.picky (Loopback.photo Loopback.sample) noOptions)
     = Some d' /\
     Exif d' !! ExifIFD.DateTimeOriginal = Some (VStr "2023:05:14 00:00:00") /\
     zeroth d' !! ImageIFD.DateTime = Some (VStr "2023:05:14 00:00:00")) /\
  (exists d',
     outputExif (Loopback.piexif Loopback.knowsNoOffsetTime true)
       (cleanupExifFromFile Loopback.legacy (Loopback.photo Loopback.undated) noOptions)
     = Some d' /\
     Exif d' !! ExifIFD.DateTimeOriginal = None /\
     zeroth d' !! ImageIFD.DateTime = None).
Proof.
  split.
  - destruct (C3_time_of_day_cleared_or_tag_absent Loopback.picky
                (Loopback.photo Loopback.sample) noOptions
                (Loopback.piexif Loopback.knowsNoXPAuthor true)
                Loopback.sample
                (redactedBy Loopback.picky (Loopback.photo Loopback.sample) noOptions
                   Loopback.sample))
      as [Hserved _].
    + apply loopback_faithful.
    + repeat split.
    + eexists. vm_compute. reflexivity.
    + destruct (Hserved
                  {| Loopback.segment :=
                       Loopback.Tags
                         (minimalExif (copyrightOf noOptions) (artistOf noOptions)
                            (offsetTimeOf noOptions)
                            (redactedBy Loopback.picky (Loopback.photo Loopback.sample)
                               noOptions Loopback.sample));
                     Loopback.pixels := 1000 |}
                  Tier2)
        as (d' & Ho & [HE HZ] & _).
      { vm_compute. reflexivity. }
      exists d'. split; [exact Ho|]. split.
      * exact (HE "2023:05:14 13:45:22" ("2023", "05", "14") eq_refl eq_refl).
      * exact (HZ "2023:05:14 13:45:22" ("2023", "05", "14") eq_refl eq_refl).
  - destruct (C3_time_of_day_cleared_or_tag_absent Loopback.legacy
                (Loopback.photo Loopback.undated) noOptions
                (Loopback.piexif Loopback.knowsNoOffsetTime true)
                Loopback.undated
                (redactedBy Loopback.legacy (Loopback.photo Loopback.undated) noOptions
                   Loopback.undated))
      as [Hserved _].
    + apply loopback_faithful.
    + repeat split.
    + eexists. vm_compute. reflexivity.
    + destruct (Hserved
                  {| Loopback.segment :=
                       Loopback.Tags
                         (safeExif (copyrightOf noOptions) (artistOf noOptions)
                            (redactedBy Loopback.legacy (Loopback.photo Loopback.undated)
                               noOptions Loopback.undated));
                     Loopback.pixels := 1000 |}
                  Tier3)
        as (d' & Ho & _ & Habsent).
      { vm_compute. reflexivity. }
      exists d'. split; [exact Ho|].
      exact (Habsent (legacy_rejects_offset_time true)).
Defined.

(** C3, the claim as stated, fails on both halves.  With an encoder that
    has no offset-time tags, tiers 1 and 2 throw and tier 3 serves the
    sample photo as a success: its capture time ["2023:05:14 13:45:22"]
    starts with a well-formed date, and the output has no DateTimeOriginal
    at all instead of ["2023:05:14 00:00:00"].  With a codec on which every
    tier throws, the photo whose capture time is ["not-a-date"] comes back
    as a success with that string still in place. *)
Lemma C3_counterexample :
  (exists st u d',
     Faithful (Loopback.piexif Loopback.knowsNoOffsetTime true) /\
     decodes Loopback.legacy (Loopback.photo Loopback.sample)
       (Loopback.piexif Loopback.knowsNoOffsetTime true) Loopback.sample /\
     redacts Loopback.legacy (Loopback.photo Loopback.sample) noOptions
       Loopback.sample st /\
     servedBy (Loopback.piexif Loopback.knowsNoOffsetTime true) noOptions st
       (f_data (Loopback.photo Loopback.sample)) u Tier3 /\
     Exif Loopback.sample !! ExifIFD.DateTimeOriginal
     = Some (VStr "2023:05:14 13:45:22") /\
     formatExifDate (VStr "2023:05:14 13:45:22") = inr (Some "2023:05:14 00:00:00") /\
     success (cleanupExifFromFile Loopback.legacy (Loopback.photo Loopback.sample)
                noOptions) = true /\
     outputExif (Loopback.piexif Loopback.knowsNoOffsetTime true)
       (cleanupExifFromFile Loopback.legacy (Loopback.photo Loopback.sample) noOptions)
     = Some d' /\
     Exif d' !! ExifIFD.DateTimeOriginal <> Some (VStr "2023:05:14 00:00:00")) /\
  (exists st dumpError d',
     decodes Loopback.broken (Loopback.photo Loopback.undated)
       (Loopback.piexif (fun _ => false) false) Loopback.undated /\
     redacts Loopback.broken (Loopback.photo Loopback.undated) noOptions
       Loopback.undated st /\
     allTiersFail (Loopback.piexif (fun _ => false) false) noOptions st
       (f_data (Loopback.photo Loopback.undated)) dumpError /\
     Exif Loopback.undated !! ExifIFD.DateTimeOriginal = Some (VStr "not-a-date") /\
     matchDatePrefix "not-a-date" = None /\
     success (cleanupExifFromFile Loopback.broken (Loopback.photo Loopback.undated)
                noOptions) = true /\
     outputExif (Loopback.piexif (fun _ => false) false)
       (cleanupExifFromFile Loopback.broken (Loopback.photo Loopback.undated) noOptions)
     = Some d' /\
     Exif d' !! ExifIFD.DateTimeOriginal = Some (VStr "not-a-date") /\
     Exif d' !! ExifIFD.DateTimeOriginal <> None).
Proof.
  split.
  - eexists. eexists. eexists.
    split; [apply loopback_faithful|].
    split; [repeat split|].
    split; [eexists; vm_compute; reflexivity|].
    split; [vm_compute; reflexivity|].
    split; [reflexivity|].
    split; [reflexivity|].
    split; [vm_compute; reflexivity|].
    split; [vm_compute; reflexivity|].
    vm_compute. discriminate.
  - eexists. eexists. eexists.
    split; [repeat split|].
    split; [eexists; vm_compute; reflexivity|].
    split; [repeat split; try eexists; vm_compute; reflexivity|].
    split; [reflexivity|].
    split; [reflexivity|].
    split; [vm_compute; reflexivity|].
    split; [vm_compute; reflexivity|].
    split; [vm_compute; reflexivity|].
    vm_compute. discriminate.
Qed.

(** ** GPS *)

(** C5 (as the code has it): for a JPEG that decodes, the removed-fields
    list of the result holds the GPS entry when the decoded GPS group has at
    least one tag and does not hold it when the group is empty; the output
    that one of the four tiers serves decodes to an empty GPS group; when
    every tier throws the original file comes back, flagged a success, with
    its GPS group as it was, although the removal is reported. *)
Theorem C5_gps_reported_and_emptied_by_every_tier
    {DataURL ExifBytes : Type} (env : Env DataURL ExifBytes) f options px decoded :
  decodes env f px decoded ->
  (GPS decoded <> ∅ ->
   In "GPS (entire block)" (removedFields (cleanupExifFromFile env f options))) /\
  (GPS decoded = ∅ ->
   ~ In "GPS (entire block)" (removedFields (cleanupExifFromFile env f options))) /\
  (forall st u t,
     Faithful px ->
     redacts env f options decoded st ->
     servedBy px options st (f_data f) u t ->
     exists d',
       outputExif px (cleanupExifFromFile env f options) = Some d' /\ GPS d' = ∅) /\
  (forall st dumpError,
     redacts env f options decoded st ->
     allTiersFail px options st (f_data f) dumpError ->
     success (cleanupExifFromFile env f options) = true /\
     file (cleanupExifFromFile env f options) = Some f /\
     exists d',
       outputExif px (cleanupExifFromFile env f options) = Some d' /\
       GPS d' = GPS decoded).
Proof.
  intros Hd. destruct (removedFields_shape env f options px decoded Hd) as (l & El & Fl).
  split; [|split; [|split]].
  - intros Hne. rewrite El.
    destruct (nonEmpty (GPS decoded)) eqn:E.
    + left. reflexivity.
    + apply nonEmpty_false in E. contradiction.
  - intros He. rewrite El.
    assert (E : nonEmpty (GPS decoded) = false) by (by apply nonEmpty_false).
    rewrite E. cbn [app]. intros Hin.
    rewrite Forall_forall in Fl. apply list_elem_of_In in Hin.
    exact (Fl _ Hin eq_refl).
  - intros st u t Hf Hr Hs.
    destruct (served_output _ _ _ _ _ _ _ _ Hf Hd Hr Hs)
      as (_ & d' & Ho & _ & _ & Hg & _).
    exists d'. split; [exact Ho|]. rewrite Hg.
    destruct Hr as [result Hr]. apply redact_inv in Hr.
    destruct Hr as (_ & _ & _ & _ & _ & _ & _ & _ & _ & Hgps & _).
    destruct t; cbn [tierExif]; try reflexivity.
    unfold tier1Exif. cbn [GPS]. rewrite Hgps. apply cleanExifIfd_empty.
  - intros st e Hr He.
    destruct (exhausted_output _ _ _ _ _ _ _ Hd Hr He) as (Hok & Hfile & Hout).
    split; [exact Hok|]. split; [exact Hfile|].
    exists decoded. split; [exact Hout|reflexivity].
Qed.

Lemma C5_gps_reported_and_emptied_by_every_tier_witness :
  In "GPS (entire block)"
    (removedFields (cleanupExifFromFile Loopback.legacy
                      (Loopback.photo Loopback.sample) noOptions)) /\
  exists d',
    outputExif (Loopback.piexif Loopback.knowsNoOffsetTime true)
      (cleanupExifFromFile Loopback.legacy (Loopback.photo Loopback.sample) noOptions)
    = Some d' /\ GPS d' = ∅.
Proof.
  destruct (C5_gps_reported_and_emptied_by_every_tier Loopback.legacy
              (Loopback.photo Loopback.sample) noOptions
              (Loopback.piexif Loopback.knowsNoOffsetTime true) Loopback.sample)
    as (Hin & _ & Hout & _).
  - repeat split.
  - split.
    + apply Hin. intros E. apply (f_equal (fun m : Ifd => m !! 2)) in E.
      vm_compute in E. discriminate E.
    + apply (Hout (redactedBy Loopback.legacy (Loopback.photo Loopback.sample)
                     noOptions Loopback.sample)
                  {| Loopback.segment :=
                       Loopback.Tags
                         (safeExif (copyrightOf noOptions) (artistOf noOptions)
                            (redactedBy Loopback.legacy
                               (Loopback.photo Loopback.sample) noOptions
                               Loopback.sample));
                     Loopback.pixels := 1000 |}
                  Tier3).
      * apply loopback_faithful.
      * eexists. vm_compute. reflexivity.
      * vm_compute. reflexivity.
Defined.

(** C5, the claim as stated, fails when every tier throws: the sample
    photo carries one GPS tag; with a codec whose encoder rejects every
    document and whose strip throws, the result is flagged a success and
    lists the GPS removal, but the file returned is the input and its GPS
    group still holds the tag. *)
Lemma C5_counterexample :
  exists st dumpError d',
    decodes Loopback.broken (Loopback.photo Loopback.sample)
      (Loopback.piexif (fun _ => false) false) Loopback.sample /\
    redacts Loopback.broken (Loopback.photo Loopback.sample) noOptions
      Loopback.sample st /\
    allTiersFail (Loopback.piexif (fun _ => false) false) noOptions st
      (f_data (Loopback.photo Loopback.sample)) dumpError /\
    GPS Loopback.sample !! 2 = Some (VArr [VArr [VNum (Fin 39); VNum (Fin 1)]]) /\
    success (cleanupExifFromFile Loopback.broken (Loopback.photo Loopback.sample)
               noOptions) = true /\
    In "GPS (entire block)"
      (removedFields (cleanupExifFromFile Loopback.broken
                        (Loopback.photo Loopback.sample) noOptions)) /\
    outputExif (Loopback.piexif (fun _ => false) false)
      (cleanupExifFromFile Loopback.broken (Loopback.photo Loopback.sample) noOptions)
    = Some d' /\
    GPS d' !! 2 = Some (VArr [VArr [VNum (Fin 39); VNum (Fin 1)]]) /\
    GPS d' <> ∅.
Proof.
  eexists. eexists. eexists.
  split; [repeat split|].
  split; [eexists; vm_compute; reflexivity|].
  split; [repeat split; try eexists; vm_compute; reflexivity|].
  split; [reflexivity|].
  split; [vm_compute; reflexivity|].
  split; [vm_compute; left; reflexivity|].
  split; [vm_compute; reflexivity|].
  split; [vm_compute; reflexivity|].
  intros E. apply (f_equal (fun m : Ifd => m !! 2)) in E.
  vm_compute in E. discriminate E.
Qed.

(** ** Attribution and offset times *)

(** C6 (as the code has it): with the output served by tier 1 or tier 2,
    the Primary group's Copyright and Artist are the configured (or
    default) strings and the three offset-time tags of the Exif group
    (0x9010, 0x9011, 0x9012) are the configured [offsetTime] (default
    ["+00:00"]), whatever the input held; served by tier 3, Copyright and
    Artist are set and the Exif group is empty; served by tier 4, both
    groups are empty. *)
Theorem C6_attribution_and_offsets_by_tier
    {DataURL ExifBytes : Type} (env : Env DataURL ExifBytes) f options px
    decoded st u t :
  Faithful px ->
  decodes env f px decoded ->
  redacts env f options decoded st ->
  servedBy px options st (f_data f) u t ->
  success (cleanupExifFromFile env f options) = true /\
  exists d',
    outputExif px (cleanupExifFromFile env f options) = Some d' /\
    match t with
    | Tier1 | Tier2 =>
        zeroth d' !! ImageIFD.Copyright = Some (VStr (copyrightOf options)) /\
        zeroth d' !! ImageIFD.Artist = Some (VStr (artistOf options)) /\
        Exif d' !! 0x9010 = Some (VStr (offsetTimeOf options)) /\
        Exif d' !! 0x9011 = Some (VStr (offsetTimeOf options)) /\
        Exif d' !! 0x9012 = Some (VStr (offsetTimeOf options))
    | Tier3 =>
        zeroth d' !! ImageIFD.Copyright = Some (VStr (copyrightOf options)) /\
        zeroth d' !! ImageIFD.Artist = Some (VStr (artistOf options)) /\
        Exif d' = ∅
    | Tier4 => zeroth d' = ∅ /\ Exif d' = ∅
    end.
Proof.
  intros Hf Hd Hr Hs.
  destruct (served_output _ _ _ _ _ _ _ _ Hf Hd Hr Hs) as (Hok & d' & Ho & Hz & He & _).
  split; [exact Hok|]. exists d'. split; [exact Ho|]. rewrite Hz, He.
  destruct Hr as [result Hr]. apply redact_inv in Hr.
  destruct Hr as (dto & dt & _ & _ & Hi & Hx & _ & Hz0 & He0 & _).
  destruct t; cbn [tierExif].
  - destruct (redactedIfd0_copyright (copyrightOf options) (artistOf options) dt
                (zeroth decoded)) as [Hc Ha].
    destruct (redactedExifIfd_offsets (offsetTimeOf options) dto (Exif decoded))
      as (H0 & H1 & H2).
    rewrite <- Hi, <- Hz0 in Hc, Ha. rewrite <- Hx, <- He0 in H0, H1, H2.
    repeat split.
    + apply tier1_string_tags; [exact Hc | tag_ne].
    + apply tier1_string_tags; [exact Ha | tag_ne].
    + apply tier1_string_tags. exact H0.
    + apply tier1_string_tags. exact H1.
    + apply tier1_string_tags. exact H2.
  - apply tier2_attribution.
  - apply tier3_attribution.
  - split; reflexivity.
Qed.

Lemma C6_attribution_and_offsets_by_tier_witness :
  success (cleanupExifFromFile Loopback.accepting (Loopback.photo Loopback.sample) noOptions)
  = true /\
  exists d',
    outputExif (Loopback.piexif (fun _ => true) true)
      (cleanupExifFromFile Loopback.accepting (Loopback.photo Loopback.sample) noOptions)
    = Some d' /\
    zeroth d' !! ImageIFD.Copyright
    = Some (VStr "Copyright (c) jixiaoyong. All Rights Reserved. jixiaoyong.github.io") /\
    zeroth d' !! ImageIFD.Artist = Some (VStr "jixiaoyong (jixiaoyong.github.io)") /\
    Exif d' !! 0x9010 = Some (VStr "+00:00") /\
    Exif d' !! 0x9011 = Some (VStr "+00:00") /\
    Exif d' !! 0x9012 = Some (VStr "+00:00").
Proof.
  apply (C6_attribution_and_offsets_by_tier Loopback.accepting
           (Loopback.photo Loopback.sample) noOptions
           (Loopback.piexif (fun _ => true) true) Loopback.sample
           (redactedBy Loopback.accepting (Loopback.photo Loopback.sample)
              noOptions Loopback.sample)
           {| Loopback.segment :=
                Loopback.Tags
                  (tier1Exif
                     (redactedBy Loopback.accepting (Loopback.photo Loopback.sample)
                        noOptions Loopback.sample));
              Loopback.pixels := 1000 |}
           Tier1).
  - apply loopback_faithful.
  - repeat split.
  - eexists. vm_compute. reflexivity.
  - vm_compute. reflexivity.
Defined.

(** C6, the claim as stated, fails at tier 3: with an encoder that rejects
    the offset-time tags, tiers 1 and 2 fail, tier 3 serves the output, the
    result is a success, and the output has no OffsetTime tag. *)
Lemma C6_counterexample :
  exists st u d',
    Faithful (Loopback.piexif Loopback.knowsNoOffsetTime true) /\
    decodes Loopback.legacy (Loopback.photo Loopback.sample)
      (Loopback.piexif Loopback.knowsNoOffsetTime true) Loopback.sample /\
    redacts Loopback.legacy (Loopback.photo Loopback.sample) noOptions
      Loopback.sample st /\
    servedBy (Loopback.piexif Loopback.knowsNoOffsetTime true) noOptions st
      (f_data (Loopback.photo Loopback.sample)) u Tier3 /\
    success (cleanupExifFromFile Loopback.legacy (Loopback.photo Loopback.sample) noOptions)
    = true /\
    outputExif (Loopback.piexif Loopback.knowsNoOffsetTime true)
      (cleanupExifFromFile Loopback.legacy (Loopback.photo Loopback.sample) noOptions)
    = Some d' /\
    Exif d' !! 0x9010 <> Some (VStr (offsetTimeOf noOptions)).
Proof.
  eexists. eexists. eexists.
  split; [apply loopback_faithful|].
  split; [repeat split|].
  split; [eexists; vm_compute; reflexivity|].
  split; [vm_compute; reflexivity|].
  split; [vm_compute; reflexivity|].
  split; [vm_compute; reflexivity|].
  vm_compute. discriminate.
Qed.

(** ** The device and identity tags *)

Lemma dropTag_get_ne k k' (ifd : Ifd) : k <> k' -> get (dropTag k ifd) k' = get ifd k'.
Proof. intros H. unfold get. by rewrite dropTag_lookup_ne. Qed.

Lemma strippedIfd0_get (ifd : Ifd) k :
  k ∈ [ImageIFD.Make; ImageIFD.Model; ImageIFD.Software; 316] ->
  get (strippedIfd0 ifd) k = VUndefined.
Proof.
  intros H. unfold strippedIfd0.
  repeat (apply elem_of_cons in H; destruct H as [->|H]);
    [..|by apply elem_of_nil in H];
    rewrite ?dropTag_get_ne by tag_ne; apply dropTag_get_eq.
Qed.

Lemma strippedExifIfd_get (ifd : Ifd) k :
  k ∈ [ExifIFD.MakerNote; ExifIFD.UserComment; ExifIFD.ImageUniqueID;
       ExifIFD.CameraOwnerName; ExifIFD.BodySerialNumber; ExifIFD.LensMake;
       ExifIFD.LensModel; ExifIFD.LensSerialNumber] ->
  get (strippedExifIfd ifd) k = VUndefined.
Proof.
  intros H. unfold strippedExifIfd.
  repeat (apply elem_of_cons in H; destruct H as [->|H]);
    [..|by apply elem_of_nil in H];
    rewrite ?dropTag_get_ne by tag_ne; apply dropTag_get_eq.
Qed.

Lemma cleanExifIfd_undefined (ifd : Ifd) pk k :
  get ifd k = VUndefined -> cleanExifIfd ifd pk !! k = None.
Proof.
  intros Hg. destruct (cleanExifIfd ifd pk !! k) as [v|] eqn:E; [|reflexivity].
  apply cleanExifIfd_lookup in E. destruct E as [Hl Hk].
  rewrite (get_lookup _ _ _ Hl) in Hg. subst v.
  unfold keepEntry in Hk. cbn in Hk. by case_bool_decide.
Qed.

(** The twelve tags the routine does handle are absent from the Primary
    and Exif groups of every tier's document. *)
Lemma handled_tags_absent c a o decoded {DataURL : Type} (r r' : Result DataURL) st t :
  redact c a o decoded r = (r', inr st) ->
  (forall k, k ∈ [ImageIFD.Make; ImageIFD.Model; ImageIFD.Software; 316] ->
     zeroth (tierExif c a o st t) !! k = None) /\
  (forall k, k ∈ [ExifIFD.MakerNote; ExifIFD.UserComment; ExifIFD.ImageUniqueID;
                  ExifIFD.CameraOwnerName; ExifIFD.BodySerialNumber; ExifIFD.LensMake;
                  ExifIFD.LensModel; ExifIFD.LensSerialNumber] ->
     Exif (tierExif c a o st t) !! k = None).
Proof.
  intros Hr. apply redact_inv in Hr.
  destruct Hr as (dto & dt & _ & _ & Hi & Hx & _ & Hz & He & _).
  split; intros k Hk.
  - pose proof (strippedIfd0_get (zeroth decoded) k Hk) as Hg.
    repeat (apply elem_of_cons in Hk; destruct Hk as [->|Hk]);
      [..|by apply elem_of_nil in Hk];
      (destruct t; cbn [tierExif];
       [ unfold tier1Exif; cbn [zeroth];
         rewrite setIfNotNullish_lookup_ne by tag_ne;
         apply cleanExifIfd_undefined; rewrite Hz, Hi;
         unfold redactedIfd0, get; tag_lookup; exact Hg
       | unfold minimalExif; cbn [zeroth]; tag_lookup; apply lookup_empty
       | unfold safeExif; cbn [zeroth]; tag_lookup; apply lookup_empty
       | apply lookup_empty ]).
  - pose proof (strippedExifIfd_get (Exif decoded) k Hk) as Hg.
    repeat (apply elem_of_cons in Hk; destruct Hk as [->|Hk]);
      [..|by apply elem_of_nil in Hk];
      (destruct t; cbn [tierExif];
       [ unfold tier1Exif; cbn [Exif];
         apply cleanExifIfd_undefined; rewrite He, Hx;
         unfold redactedExifIfd, get; tag_lookup; exact Hg
       | unfold minimalExif; cbn [Exif]; tag_lookup; apply lookup_empty
       | apply lookup_empty
       | apply lookup_empty ]).
Qed.

(** C4 (as the code has it): in the output that one of the four tiers
    serves, Make, Model, Software and HostComputer are absent from the
    Primary group, MakerNote, UserComment, ImageUniqueID, CameraOwnerName,
    BodySerialNumber, LensMake, LensModel and LensSerialNumber are absent
    from the Exif group, and the thumbnail group is empty; XPAuthor and
    XPComment are absent from an output of tier 2, 3 or 4, hence from every
    output of a codec without the offset-time tags; when every tier throws
    the original file comes back, flagged a success, with its directory as
    it was. *)
Theorem C4_remove_set_absent_from_tier_outputs
    {DataURL ExifBytes : Type} (env : Env DataURL ExifBytes) f options px
    decoded st :
  Faithful px ->
  decodes env f px decoded ->
  redacts env f options decoded st ->
  (forall u t, servedBy px options st (f_data f) u t ->
     exists d',
       outputExif px (cleanupExifFromFile env f options) = Some d' /\
       (forall k, k ∈ [ImageIFD.Make; ImageIFD.Model; ImageIFD.Software; 316] ->
          zeroth d' !! k = None) /\
       (forall k, k ∈ [ExifIFD.MakerNote; ExifIFD.UserComment; ExifIFD.ImageUniqueID;
                       ExifIFD.CameraOwnerName; ExifIFD.BodySerialNumber;
                       ExifIFD.LensMake; ExifIFD.LensModel;
                       ExifIFD.LensSerialNumber] ->
          Exif d' !! k = None) /\
       first d' = ∅ /\
       (t <> Tier1 -> zeroth d' !! 0x9C9D = None /\ zeroth d' !! 0x9C9C = None) /\
       (RejectsOffsetTime px ->
          zeroth d' !! 0x9C9D = None /\ zeroth d' !! 0x9C9C = None)) /\
  (forall dumpError, allTiersFail px options st (f_data f) dumpError ->
     success (cleanupExifFromFile env f options) = true /\
     file (cleanupExifFromFile env f options) = Some f /\
     outputExif px (cleanupExifFromFile env f options) = Some decoded).
Proof.
  intros Hf Hd Hr. split.
  2:{ intros e He. exact (exhausted_output _ _ _ _ _ _ _ Hd Hr He). }
  intros u t Hs.
  destruct (served_output _ _ _ _ _ _ _ _ Hf Hd Hr Hs)
    as (_ & d' & Ho & Hz & He & _ & H1 & _).
  exists d'. split; [exact Ho|]. rewrite Hz, He, H1. clear Hz He H1 Ho.
  destruct Hr as [result Hr].
  destruct (handled_tags_absent _ _ _ _ _ _ _ t Hr) as [HA HB].
  split; [exact HA|]. split; [exact HB|].
  split.
  { pose proof Hr as Hr'. apply redact_inv in Hr'.
    destruct Hr' as (_ & _ & _ & _ & _ & _ & _ & _ & _ & _ & Hfirst & _).
    destruct t; cbn [tierExif]; try reflexivity.
    unfold tier1Exif. cbn [first]. rewrite Hfirst. apply cleanExifIfd_empty. }
  split.
  - apply no_xp_fields_after_tier_1.
  - intros Hrej. apply no_xp_fields_after_tier_1.
    destruct (served_by_tier_3_or_4 _ _ _ _ _ _ _ _ _ _ _ Hrej Hr Hs) as [-> | ->];
      discriminate.
Qed.

Lemma C4_remove_set_absent_from_tier_outputs_witness :
  exists d',
    outputExif (Loopback.piexif Loopback.knowsNoOffsetTime true)
      (cleanupExifFromFile Loopback.legacy (Loopback.photo Loopback.sample) noOptions)
    = Some d' /\
    zeroth d' !! ImageIFD.Make = None /\
    Exif d' !! ExifIFD.MakerNote = None /\
    zeroth d' !! 0x9C9D = None /\ zeroth d' !! 0x9C9C = None.
Proof.
  destruct (C4_remove_set_absent_from_tier_outputs Loopback.legacy
              (Loopback.photo Loopback.sample) noOptions
              (Loopback.piexif Loopback.knowsNoOffsetTime true)
              Loopback.sample
              (redactedBy Loopback.legacy (Loopback.photo Loopback.sample) noOptions
                 Loopback.sample))
    as [Hserved _].
  - apply loopback_faithful.
  - repeat split.
  - eexists. vm_compute. reflexivity.
  - destruct (Hserved
                {| Loopback.segment :=
                     Loopback.Tags
                       (safeExif (copyrightOf noOptions) (artistOf noOptions)
                          (redactedBy Loopback.legacy (Loopback.photo Loopback.sample)
                             noOptions Loopback.sample));
                   Loopback.pixels := 1000 |}
                Tier3)
      as (d' & Ho & H0 & HE & _ & _ & Hxp).
    { vm_compute. reflexivity. }
    exists d'. split; [exact Ho|].
    split; [apply H0; set_solver|].
    split; [apply HE; set_solver|].
    exact (Hxp (legacy_rejects_offset_time true)).
Defined.

(** C4, the claim as stated, fails when every tier throws: the sample
    photo carries Make and MakerNote; with a codec whose encoder rejects
    every document and whose strip throws, the result is flagged a success
    and lists both removals, but the file returned is the input and both
    tags are still in it. *)
Lemma C4_counterexample :
  exists st dumpError d',
    decodes Loopback.broken (Loopback.photo Loopback.sample)
      (Loopback.piexif (fun _ => false) false) Loopback.sample /\
    redacts Loopback.broken (Loopback.photo Loopback.sample) noOptions
      Loopback.sample st /\
    allTiersFail (Loopback.piexif (fun _ => false) false) noOptions st
      (f_data (Loopback.photo Loopback.sample)) dumpError /\
    success (cleanupExifFromFile Loopback.broken (Loopback.photo Loopback.sample)
               noOptions) = true /\
    In "Make: Apple"
      (removedFields (cleanupExifFromFile Loopback.broken
                        (Loopback.photo Loopback.sample) noOptions)) /\
    outputExif (Loopback.piexif (fun _ => false) false)
      (cleanupExifFromFile Loopback.broken (Loopback.photo Loopback.sample) noOptions)
    = Some d' /\
    zeroth d' !! ImageIFD.Make = Some (VStr "Apple") /\
    Exif d' !! ExifIFD.MakerNote = Some (VStr "private") /\
    zeroth d' !! ImageIFD.Make <> None.
Proof.
  eexists. eexists. eexists.
  split; [repeat split|].
  split; [eexists; vm_compute; reflexivity|].
  split; [repeat split; try eexists; vm_compute; reflexivity|].
  split; [vm_compute; reflexivity|].
  split; [vm_compute; right; left; reflexivity|].
  split; [vm_compute; reflexivity|].
  split; [vm_compute; reflexivity|].
  split; [vm_compute; reflexivity|].
  vm_compute. discriminate.
Qed.

(** ** The two variants *)

Section Variants.
Context {DataURL ExifBytes : Type}.
Implicit Types (env : Env DataURL ExifBytes) (px : Piexif DataURL ExifBytes)
  (f : File DataURL).

(** The plain variant's redaction is the debug variant's, less the saved
    orientation: same report, same exception, same [exifObj]. *)
Lemma plain_redact_eq c a o decoded (r : Result DataURL) :
  Plain.redact c a o decoded r
  = ((redact c a o decoded r).1,
     match (redact c a o decoded r).2 with
     | inl e => inl e
     | inr st => inr (exifObj st)
     end).
Proof.
  unfold Plain.redact, redact.
  destruct (wipeGroup "GPS (entire block)" (GPS decoded, r)) as [gps r1].
  destruct (stripIfd0 (zeroth decoded, r1)) as [i0 r2].
  destruct (stripExifIfd (Exif decoded, r2)) as [ie r3].
  destruct (wipeGroup "Thumbnail" (first decoded, r3)) as [f1 r4].
  destruct (cleanedDateOf (get ie ExifIFD.DateTimeOriginal)) as [e|dto];
    [reflexivity|].
  destruct dto;
    (destruct (cleanedDateOf
                 (get (<[ImageIFD.Artist:=VStr a]> (<[ImageIFD.Copyright:=VStr c]> i0))
                    ImageIFD.DateTime)) as [e|dt]; reflexivity).
Qed.

Lemma redactedIfd0_valid c a dt ifd :
  validIfd ifd -> validIfd (redactedIfd0 c a dt ifd).
Proof.
  intros Hv. unfold redactedIfd0, setDate.
  assert (validIfd (<[ImageIFD.Artist:=VStr a]>
                      (<[ImageIFD.Copyright:=VStr c]> (strippedIfd0 ifd)))).
  { repeat (apply map_Forall_insert_2; [reflexivity|]).
    by apply strippedIfd0_valid. }
  destruct dt; [|assumption]. by apply map_Forall_insert_2.
Qed.

Lemma redactedExifIfd_valid o dto ifd :
  validIfd ifd -> validIfd (redactedExifIfd o dto ifd).
Proof.
  intros Hv. unfold redactedExifIfd, setDate.
  repeat (apply map_Forall_insert_2; [reflexivity|]).
  destruct dto; [apply map_Forall_insert_2; [reflexivity|]|];
    by apply strippedExifIfd_valid.
Qed.

(** On a directory of valid values, tier 1's cleaning and orientation
    write-back change nothing. *)
Lemma tier1Exif_valid c a o decoded (r r' : Result DataURL) st :
  validExif decoded ->
  redact c a o decoded r = (r', inr st) ->
  tier1Exif st = exifObj st.
Proof.
  intros (V0 & VE & _ & _ & VI) Hr. apply redact_inv in Hr.
  destruct Hr as (dto & dt & _ & _ & Hi & Hx & Ho & Hz & He & Hg & Hf & Hn & _).
  unfold tier1Exif.
  assert (E0 : cleanExifIfd (zeroth (exifObj st)) ifd0PreserveKeys
               = zeroth (exifObj st)).
  { apply cleanExifIfd_valid. rewrite Hz, Hi. by apply redactedIfd0_valid. }
  assert (E1 : cleanExifIfd (Exif (exifObj st)) exifPreserveKeys = Exif (exifObj st)).
  { apply cleanExifIfd_valid. rewrite He, Hx. by apply redactedExifIfd_valid. }
  assert (E2 : cleanExifIfd (Interop (exifObj st)) [] = Interop (exifObj st)).
  { apply cleanExifIfd_valid. by rewrite Hn. }
  rewrite E0, E1, E2, Hg, Hf, !cleanExifIfd_empty.
  assert (E3 : setIfNotNullish ImageIFD.Orientation (originalOrientation st)
                 (zeroth (exifObj st)) = zeroth (exifObj st)).
  { unfold setIfNotNullish. destruct (notNullish (originalOrientation st)) eqn:En;
      [|reflexivity].
    apply insert_id. rewrite Hz, Hi, redactedIfd0_lookup by tag_notin.
    rewrite Ho in En |- *. unfold get in *.
    destruct (zeroth decoded !! ImageIFD.Orientation); [reflexivity|discriminate En]. }
  rewrite E3. destruct (exifObj st); cbn in *. congruence.
Qed.

End Variants.

(** ** Worked examples *)

Example formatExifDate_sample :
  formatExifDate (VStr "2023:05:14 13:45:22") = inr (Some "2023:05:14 00:00:00").
Proof. reflexivity. Qed.

Example formatExifDate_malformed :
  formatExifDate (VStr "not-a-date") = inr None.
Proof. reflexivity. Qed.

Example formatExifDate_dashes :
  formatExifDate (VStr "2023-05-14 13:45:22") = inr None.
Proof. reflexivity. Qed.

Example formatExifDate_number_throws :
  formatExifDate (VNum (Fin 20230514))
  = inl (JsError "dateStr.match is not a function").
Proof. reflexivity. Qed.

Example isHeicFormat_by_name :
  isHeicFormat {| f_name := "IMG_7.HEIC"; f_type := ""; f_data := tt |} = true.
Proof. reflexivity. Qed.

Example replaceHeicSuffix_sample : replaceHeicSuffix "IMG_7.HEIC" = "IMG_7.jpg".
Proof. reflexivity. Qed.

Example todayString_sample :
  todayString {| getFullYear := 2024; getMonth := 0; getDate := 9 |}
  = "2024:01:09 00:00:00".
Proof. reflexivity. Qed.

(** Tier by tier on the sample photo: the entry each fallback leaves in
    the report. *)
Example sample_served_by_tier2 :
  removedFields (cleanupExifFromFile Loopback.picky (Loopback.photo Loopback.sample)
                   noOptions)
  = ["GPS (entire block)"; "Make: Apple"; "MakerNote (Apple privacy data)";
     "Some EXIF tags could not be preserved (display-related tags kept)"].
Proof. vm_compute. reflexivity. Qed.

Example sample_served_by_tier4 :
  removedFields (cleanupExifFromFile Loopback.rejecting (Loopback.photo Loopback.sample)
                   noOptions)
  = ["GPS (entire block)"; "Make: Apple"; "MakerNote (Apple privacy data)";
     "All EXIF completely stripped (no new EXIF added)"].
Proof. vm_compute. reflexivity. Qed.

(** A batch of five files of which the two HEIC files fail to decode. *)
Example batch_of_five :
  let files := [Loopback.photo Loopback.sample; Loopback.heicPhoto;
                Loopback.garbledPhoto; Loopback.photo Loopback.undated;
                Loopback.heicPhoto] in
  let out := (cleanupExifBatch Loopback.heicless files noOptions true).1 in
  batch_success out = 3 /\ batch_failed out = 2 /\
  map cleanedSize (results out) = [1064; 2000; 564; 1064; 2000] /\
  totalCleanedSize out = 6692.
Proof. vm_compute. repeat split. Qed.

(** * Further properties of the code *)

(** ** [formatExifDate] and its regular expression *)

Lemma matchDatePrefix_midnight s g :
  matchDatePrefix s = Some g -> matchDatePrefix (midnight g) = Some g.
Proof.
  unfold matchDatePrefix.
  do 10 (destruct s as [|? s]; [discriminate|]).
  destruct (_ && _) eqn:E; [|discriminate].
  intros [= <-].
  do 9 (apply andb_prop in E; destruct E as [E ?]).
  repeat match goal with
  | H : Ascii.eqb _ _ = true |- _ => apply Ascii.eqb_eq in H; subst
  end.
  cbv beta iota delta [midnight String.append].
  repeat match goal with H : isDigit _ = true |- _ => rewrite H; clear H end.
  reflexivity.
Qed.

(** X1: [formatExifDate] is idempotent: applied to a date it produced,
    it returns that date again. *)
Theorem X1_formatExifDate_idempotent s c :
  formatExifDate (VStr s) = inr (Some c) ->
  formatExifDate (VStr c) = inr (Some c).
Proof.
  unfold formatExifDate.
  destruct (negb (truthy (VStr s))); [discriminate|].
  destruct (matchDatePrefix s) as [g|] eqn:Hg; [|discriminate].
  destruct g as [[y m] d]. intros [= <-].
  change (y +:+ ":" +:+ m +:+ ":" +:+ d +:+ " 00:00:00") with (midnight (y, m, d)).
  rewrite (midnight_truthy _ _ Hg). cbn [negb].
  rewrite (matchDatePrefix_midnight _ _ Hg). reflexivity.
Qed.

Lemma X1_formatExifDate_idempotent_witness :
  formatExifDate (VStr "2023:05:14 00:00:00") = inr (Some "2023:05:14 00:00:00").
Proof.
  apply (X1_formatExifDate_idempotent "2023:05:14 13:45:22"). reflexivity.
Defined.

(** X2: a date [formatExifDate] returns is the first ten characters of
    its argument followed by [" 00:00:00"], nineteen characters in all. *)
Theorem X2_formatExifDate_keeps_the_date s c :
  formatExifDate (VStr s) = inr (Some c) ->
  c = substring 0 10 s +:+ " 00:00:00" /\ String.length c = 19%nat.
Proof.
  unfold formatExifDate.
  destruct (negb (truthy (VStr s))); [discriminate|].
  unfold matchDatePrefix.
  do 10 (destruct s as [|? s]; [discriminate|]).
  destruct (_ && _) eqn:E; [|discriminate].
  intros [= <-].
  do 9 (apply andb_prop in E; destruct E as [E ?]).
  repeat match goal with
  | H : Ascii.eqb _ _ = true |- _ => apply Ascii.eqb_eq in H; subst
  end.
  destruct s; split; reflexivity.
Qed.

Lemma X2_formatExifDate_keeps_the_date_witness :
  "2023:05:14 00:00:00" = substring 0 10 "2023:05:14 13:45:22" +:+ " 00:00:00" /\
  String.length "2023:05:14 00:00:00" = 19%nat.
Proof.
  apply (X2_formatExifDate_keeps_the_date "2023:05:14 13:45:22"). reflexivity.
Defined.

Lemma formatExifDate_inl_iff v :
  (exists e, formatExifDate v = inl e) <-> badDate v = true.
Proof.
  unfold formatExifDate, badDate. split.
  - intros [e H]. destruct v as [| |[z| | |]|s|l]; cbn in *;
      try discriminate H; try reflexivity.
    + destruct (z =? 0)%Z; cbn in *; [discriminate H|reflexivity].
    + destruct (String.eqb s ""); cbn in H; [discriminate H|].
      destruct (matchDatePrefix s) as [[[? ?] ?]|]; discriminate H.
  - intros H. destruct v as [| |[z| | |]|s|l]; cbn in *;
      try discriminate H; eauto.
    + destruct (z =? 0)%Z; cbn in *; [discriminate H|eauto].
    + rewrite andb_false_r in H. discriminate H.
Qed.

(** X3: [formatExifDate] throws exactly on truthy values that are not
    strings (a non-zero number, an infinite number, an array); on every
    falsy value and on every string it returns. *)
Theorem X3_formatExifDate_throws_iff v :
  (exists e, formatExifDate v = inl e) <-> (truthy v = true /\ isString v = false).
Proof.
  rewrite formatExifDate_inl_iff. unfold badDate.
  rewrite andb_true_iff, negb_true_iff. reflexivity.
Qed.

Lemma allDigits_string c s : allDigits (String c s) = isDigit c && allDigits s.
Proof. reflexivity. Qed.

(** X4: the date-prefix pattern matches exactly the strings that start
    with four digits, a colon, two digits, a colon and two digits, and
    captures those three digit groups. *)
Theorem X4_matchDatePrefix_iff s y m d :
  matchDatePrefix s = Some (y, m, d) <->
  String.length y = 4%nat /\ String.length m = 2%nat /\ String.length d = 2%nat /\
  allDigits y = true /\ allDigits m = true /\ allDigits d = true /\
  exists rest, s = y +:+ ":" +:+ m +:+ ":" +:+ d +:+ rest.
Proof.
  split.
  - unfold matchDatePrefix.
    do 10 (destruct s as [|? s]; [discriminate|]).
    destruct (_ && _) eqn:E; [|discriminate].
    intros [= <- <- <-].
    do 9 (apply andb_prop in E; destruct E as [E ?]).
    repeat match goal with
    | H : Ascii.eqb _ _ = true |- _ => apply Ascii.eqb_eq in H; subst
    end.
    do 3 (split; [reflexivity|]).
    rewrite !allDigits_string.
    repeat match goal with H : isDigit _ = true |- _ => rewrite H; clear H end.
    do 3 (split; [reflexivity|]).
    exists s. reflexivity.
  - intros (Hy & Hm & Hd & Dy & Dm & Dd & rest & ->).
    destruct y as [|y1 [|y2 [|y3 [|y4 [|]]]]]; try discriminate Hy.
    destruct m as [|m1 [|m2 [|]]]; try discriminate Hm.
    destruct d as [|d1 [|d2 [|]]]; try discriminate Hd.
    rewrite !allDigits_string in Dy, Dm, Dd. cbn in Dy, Dm, Dd.
    rewrite !andb_true_r in Dy, Dm, Dd.
    repeat match goal with
    | H : _ && _ = true |- _ => apply andb_prop in H; destruct H
    end.
    unfold matchDatePrefix. cbv beta iota delta [String.append].
    repeat match goal with H : isDigit _ = true |- _ => rewrite H; clear H end.
    reflexivity.
Qed.

(** ** The date the HEIC path writes *)

Lemma years_have_four_digits :
  forallb (fun n => is4digits (pretty (N.of_nat n)))
    (seq (N.to_nat 1000) (N.to_nat 9000)) = true.
Proof. vm_compute. reflexivity. Qed.

Lemma pad2_has_two_digits :
  forallb (fun n => is2digits (pad2 (N.of_nat n)))
    (seq 0 (N.to_nat 100)) = true.
Proof. vm_compute. reflexivity. Qed.

Lemma pretty_year y : 1000 <= y <= 9999 -> is4digits (pretty y) = true.
Proof.
  intros Hy. pose proof years_have_four_digits as H.
  rewrite forallb_forall in H. specialize (H (N.to_nat y)).
  rewrite N2Nat.id in H. apply H. apply in_seq. lia.
Qed.

Lemma pad2_digits n : n <= 99 -> is2digits (pad2 n) = true.
Proof.
  intros Hn. pose proof pad2_has_two_digits as H.
  rewrite forallb_forall in H. specialize (H (N.to_nat n)).
  rewrite N2Nat.id in H. apply H. apply in_seq. lia.
Qed.

Lemma matchDatePrefix_digits y m d rest :
  is4digits y = true -> is2digits m = true -> is2digits d = true ->
  matchDatePrefix (y +:+ ":" +:+ m +:+ ":" +:+ d +:+ rest) = Some (y, m, d).
Proof.
  intros Hy Hm Hd.
  destruct y as [|y1 [|y2 [|y3 [|y4 [|]]]]]; try discriminate Hy.
  destruct m as [|m1 [|m2 [|]]]; try discriminate Hm.
  destruct d as [|d1 [|d2 [|]]]; try discriminate Hd.
  cbn in Hy, Hm, Hd.
  repeat match goal with
  | H : _ && _ = true |- _ => apply andb_prop in H; destruct H
  end.
  unfold matchDatePrefix. cbv beta iota delta [String.append].
  repeat match goal with H : isDigit _ = true |- _ => rewrite H; clear H end.
  reflexivity.
Qed.

(** X5: the date string the HEIC path builds from the clock is a
    well-formed EXIF date at midnight: for a four-digit year, a month
    0..11 and a day 1..31, [formatExifDate] accepts it and returns it
    unchanged. *)
Theorem X5_heic_date_is_well_formed (d : Date) :
  1000 <= getFullYear d <= 9999 ->
  getMonth d <= 11 ->
  1 <= getDate d <= 31 ->
  formatExifDate (VStr (todayString d)) = inr (Some (todayString d)).
Proof.
  intros Hy Hm Hd.
  pose proof (pretty_year _ Hy) as H4.
  assert (H2 : is2digits (pad2 (getMonth d + 1)) = true) by (apply pad2_digits; lia).
  assert (H2' : is2digits (pad2 (getDate d)) = true) by (apply pad2_digits; lia).
  pose proof (matchDatePrefix_digits _ _ _ " 00:00:00" H4 H2 H2') as Hmatch.
  unfold formatExifDate, todayString. rewrite Hmatch.
  destruct (pretty (getFullYear d)); [discriminate H4|]. reflexivity.
Qed.

Lemma X5_heic_date_is_well_formed_witness :
  formatExifDate
    (VStr (todayString {| getFullYear := 2024; getMonth := 0; getDate := 9 |}))
  = inr (Some (todayString {| getFullYear := 2024; getMonth := 0; getDate := 9 |})).
Proof.
  apply X5_heic_date_is_well_formed; cbn; lia.
Defined.

(** ** [cleanExifIfd] *)

(** X6: [cleanExifIfd] is idempotent: cleaning a cleaned directory with
    the same preserve list changes nothing. *)
Theorem X6_cleanExifIfd_idempotent (ifd : Ifd) pk :
  cleanExifIfd (cleanExifIfd ifd pk) pk = cleanExifIfd ifd pk.
Proof.
  unfold cleanExifIfd at 1. apply map_filter_id.
  intros k v H. apply cleanExifIfd_lookup in H. apply Is_true_true. tauto.
Qed.

(** X7: every entry of a cleaned directory is an entry of the input whose
    value is neither [undefined] nor [null]; outside the preserve list its
    value also passes the validity tests (no NaN or infinite number, no
    empty array, no array with such an element), while a preserved key is
    kept whatever its non-null value is. *)
Theorem X7_cleanExifIfd_entries (ifd : Ifd) pk :
  (forall k v, cleanExifIfd ifd pk !! k = Some v ->
     ifd !! k = Some v /\ notNullish v = true /\
     (k ∈ pk \/ skipValue v = false)) /\
  (forall k v, ifd !! k = Some v -> k ∈ pk -> notNullish v = true ->
     cleanExifIfd ifd pk !! k = Some v) /\
  (forall k v, ifd !! k = Some v -> skipValue v = false ->
     cleanExifIfd ifd pk !! k = Some v).
Proof.
  split; [|split].
  - intros k v H. apply cleanExifIfd_lookup in H. destruct H as [Hl Hk].
    split; [exact Hl|]. unfold keepEntry in Hk. cbn in Hk.
    case_bool_decide.
    + split; [exact Hk|]. by left.
    + apply negb_true_iff in Hk. split; [by apply skipValue_notNullish|]. by right.
  - intros k v Hl Hk Hn. apply cleanExifIfd_lookup. split; [exact Hl|].
    unfold keepEntry. cbn. by case_bool_decide.
  - intros k v Hl Hs. apply cleanExifIfd_lookup. split; [exact Hl|].
    unfold keepEntry. cbn. case_bool_decide.
    + by apply skipValue_notNullish.
    + by rewrite Hs.
Qed.

(** ** Paths of [cleanupExifFromFile] *)

(** X8: a file that is neither JPEG nor HEIC/HEIF ([isSupportedFormat] is
    false) is passed through: the result is a success carrying the input
    file itself, empty report lists and the skip note. *)
Theorem X8_unsupported_format_passthrough
    {DataURL ExifBytes : Type} (env : Env DataURL ExifBytes) f options :
  isSupportedFormat f = false ->
  success (cleanupExifFromFile env f options) = true /\
  file (cleanupExifFromFile env f options) = Some f /\
  blob (cleanupExifFromFile env f options) = Some (f_data f) /\
  cleanedSize (cleanupExifFromFile env f options) = size_of env f /\
  removedFields (cleanupExifFromFile env f options) = [] /\
  addedFields (cleanupExifFromFile env f options) = [] /\
  convertedFrom (cleanupExifFromFile env f options) = None /\
  error (cleanupExifFromFile env f options) = Some "不支持的格式，跳过 EXIF 处理".
Proof.
  unfold isSupportedFormat. intros H. apply orb_false_elim in H.
  destruct H as [Hj Hh]. unfold cleanupExifFromFile, tryBody.
  rewrite Hh, Hj. repeat split.
Qed.

Lemma X8_unsupported_format_passthrough_witness :
  success (cleanupExifFromFile Loopback.accepting
             {| f_name := "logo.png"; f_type := "image/png";
                f_data := {| Loopback.segment := Loopback.NoExif;
                             Loopback.pixels := 10 |} |} noOptions) = true /\
  file (cleanupExifFromFile Loopback.accepting
          {| f_name := "logo.png"; f_type := "image/png";
             f_data := {| Loopback.segment := Loopback.NoExif;
                          Loopback.pixels := 10 |} |} noOptions)
  = Some {| f_name := "logo.png"; f_type := "image/png";
            f_data := {| Loopback.segment := Loopback.NoExif;
                         Loopback.pixels := 10 |} |}.
Proof.
  destruct (X8_unsupported_format_passthrough Loopback.accepting
              {| f_name := "logo.png"; f_type := "image/png";
                 f_data := {| Loopback.segment := Loopback.NoExif;
                              Loopback.pixels := 10 |} |} noOptions)
    as (H1 & H2 & _).
  - reflexivity.
  - split; [exact H1|exact H2].
Defined.

(** X9: a HEIC/HEIF file whose conversion and encode succeed comes back
    as a success marked [convertedFrom = "HEIC/HEIF"]: a file of type
    [image/jpeg] named after the input with its [.heic]/[.heif] suffix
    replaced, one removed-fields entry, four added-fields entries; and the
    output decodes to the configured Copyright and Artist, today's date
    at midnight in DateTime and DateTimeOriginal, the three offset-time
    tags, and an empty GPS group. *)
Theorem X9_heic_converted
    {DataURL ExifBytes : Type} (env : Env DataURL ExifBytes) f options px u0 u :
  Faithful px ->
  isHeicFormat f = true ->
  convertHeicToJpeg env f (heicQuality options) = inr u0 ->
  loadPiexif env = inr px ->
  encode px (heicExif (copyrightOf options) (artistOf options) (offsetTimeOf options)
               (todayString (now env))) u0 = inr u ->
  success (cleanupExifFromFile env f options) = true /\
  file (cleanupExifFromFile env f options)
  = Some {| f_name := replaceHeicSuffix (f_name f); f_type := "image/jpeg";
            f_data := u |} /\
  convertedFrom (cleanupExifFromFile env f options) = Some "HEIC/HEIF" /\
  removedFields (cleanupExifFromFile env f options)
  = ["HEIC/HEIF converted to JPEG (all original metadata removed)"] /\
  addedFields (cleanupExifFromFile env f options)
  = ["Copyright: " +:+ copyrightOf options; "Artist: " +:+ artistOf options;
     "DateTimeOriginal: " +:+ todayString (now env);
     "OffsetTimeOriginal: " +:+ offsetTimeOf options] /\
  exists d',
    outputExif px (cleanupExifFromFile env f options) = Some d' /\
    zeroth d' !! ImageIFD.Copyright = Some (VStr (copyrightOf options)) /\
    zeroth d' !! ImageIFD.Artist = Some (VStr (artistOf options)) /\
    zeroth d' !! ImageIFD.DateTime = Some (VStr (todayString (now env))) /\
    Exif d' !! ExifIFD.DateTimeOriginal = Some (VStr (todayString (now env))) /\
    Exif d' !! 0x9010 = Some (VStr (offsetTimeOf options)) /\
    Exif d' !! 0x9011 = Some (VStr (offsetTimeOf options)) /\
    Exif d' !! 0x9012 = Some (VStr (offsetTimeOf options)) /\
    GPS d' = ∅.
Proof.
  intros [Hins _] Hh Hc Hp He.
  unfold cleanupExifFromFile, tryBody. rewrite Hh, Hc, Hp.
  unfold copyrightOf, artistOf, offsetTimeOf in *. rewrite He.
  do 5 (split; [reflexivity|]).
  unfold encode in He. destruct (dump px _) as [|b] eqn:Ed; [discriminate He|].
  destruct (Hins _ _ _ _ Ed He) as (d' & Hl & Hz & Hx & Hg & _).
  exists d'. split; [by apply outputExif_withCleaned|].
  rewrite Hz, Hx, Hg. unfold heicExif. cbn [zeroth Exif GPS].
  repeat split; tag_lookup; reflexivity.
Qed.

Lemma X9_heic_converted_witness :
  success (cleanupExifFromFile Loopback.accepting Loopback.heicPhoto noOptions) = true /\
  file (cleanupExifFromFile Loopback.accepting Loopback.heicPhoto noOptions)
  = Some {| f_name := "IMG_0002.jpg"; f_type := "image/jpeg";
            f_data :=
              {| Loopback.segment :=
                   Loopback.Tags
                     (heicExif (copyrightOf noOptions) (artistOf noOptions)
                        (offsetTimeOf noOptions) "2024:01:09 00:00:00");
                 Loopback.pixels := 2000 |} |} /\
  convertedFrom (cleanupExifFromFile Loopback.accepting Loopback.heicPhoto noOptions)
  = Some "HEIC/HEIF".
Proof.
  destruct (X9_heic_converted Loopback.accepting Loopback.heicPhoto noOptions
              (Loopback.piexif (fun _ => true) true)
              {| Loopback.segment := Loopback.NoExif; Loopback.pixels := 2000 |}
              {| Loopback.segment :=
                   Loopback.Tags
                     (heicExif (copyrightOf noOptions) (artistOf noOptions)
                        (offsetTimeOf noOptions) "2024:01:09 00:00:00");
                 Loopback.pixels := 2000 |})
    as (H1 & H2 & H3 & _).
  - apply loopback_faithful.
  - reflexivity.
  - reflexivity.
  - reflexivity.
  - vm_compute. reflexivity.
  - split; [exact H1|]. split; [exact H2|exact H3].
Defined.

Section ResultFacts.
Context {DataURL ExifBytes : Type}.
Implicit Types (env : Env DataURL ExifBytes) (px : Piexif DataURL ExifBytes)
  (f : File DataURL).

(** The result object the body of the outer [try] leaves when it returns
    normally: a file is set, with its blob and size. *)
Lemma tryBody_returns env f options c a o :
  match tryBody env f options c a o (initialResult env f) with
  | (r, None) =>
      exists out, file r = Some out /\ blob r = Some (f_data out) /\
                  cleanedSize r = byteLength env (f_data out) /\
                  (isHeicFormat f = false ->
                   f_name out = f_name f /\ f_type out = f_type f)
  | (r, Some _) => True
  end.
Proof.
  unfold tryBody.
  destruct (isHeicFormat f).
  { destruct (convertHeicToJpeg env f _); [exact I|].
    destruct (loadPiexif env); [exact I|].
    destruct (encode _ _ _); [exact I|].
    eexists. do 3 (split; [reflexivity|]). intros H; discriminate H. }
  destruct (isJpegFormat f); cbn beta iota zeta delta [negb];
    [|exists f; repeat split].
  destruct (loadPiexif env) as [|px]; [exact I|].
  destruct (load px (f_data f)) as [|decoded]; [exists f; repeat split|].
  destruct (redact c a o decoded (initialResult env f)) as [r' [e|st]]; [exact I|].
  destruct (fallbackChain _ _ _ _ _ _) as [t u|e].
  - eexists. repeat split.
  - exists f. repeat split.
Qed.

End ResultFacts.

(** X10: whatever happens, [cleanupExifFromFile] returns a result with a
    file in it: [file] and [blob] are set and agree, [cleanedSize] is the
    size of that file and [originalSize] the size of the input; and a
    result that is not a success carries the input file itself and an
    error message. *)
Theorem X10_result_always_carries_a_file
    {DataURL ExifBytes : Type} (env : Env DataURL ExifBytes) f options :
  exists out,
    file (cleanupExifFromFile env f options) = Some out /\
    blob (cleanupExifFromFile env f options) = Some (f_data out) /\
    cleanedSize (cleanupExifFromFile env f options) = byteLength env (f_data out) /\
    originalSize (cleanupExifFromFile env f options) = size_of env f /\
    (success (cleanupExifFromFile env f options) = false ->
     out = f /\ error (cleanupExifFromFile env f options) <> None).
Proof.
  unfold cleanupExifFromFile.
  set (c := default _ (copyright options)).
  set (a := default _ (artist options)).
  set (o := default _ (offsetTime options)).
  pose proof (tryBody_returns env f options c a o) as Hr.
  destruct (tryBody_flag env f options c a o) as [Ho Hf].
  destruct (tryBody env f options c a o (initialResult env f)) as [r [e|]];
    cbn [fst snd] in *.
  - exists f. do 3 (split; [reflexivity|]). split; [exact Ho|].
    intros _. split; [reflexivity|]. cbn. discriminate.
  - destruct Hr as (out & H1 & H2 & H3 & _). exists out.
    do 4 (split; [assumption|]). intros H. rewrite Hf in H. discriminate H.
Qed.

(** X11: a file that is not HEIC/HEIF keeps its name and declared type in
    the result, whether it was cleaned, passed through or returned after a
    failure. *)
Theorem X11_name_and_type_kept
    {DataURL ExifBytes : Type} (env : Env DataURL ExifBytes) f options :
  isHeicFormat f = false ->
  exists out,
    file (cleanupExifFromFile env f options) = Some out /\
    f_name out = f_name f /\ f_type out = f_type f.
Proof.
  intros Hh. unfold cleanupExifFromFile.
  set (c := default _ (copyright options)).
  set (a := default _ (artist options)).
  set (o := default _ (offsetTime options)).
  pose proof (tryBody_returns env f options c a o) as Hr.
  destruct (tryBody env f options c a o (initialResult env f)) as [r [e|]].
  - exists f. repeat split.
  - destruct Hr as (out & H1 & _ & _ & H4). exists out.
    split; [exact H1|]. by apply H4.
Qed.

Lemma X11_name_and_type_kept_witness :
  exists out,
    file (cleanupExifFromFile Loopback.legacy (Loopback.photo Loopback.sample) noOptions)
    = Some out /\
    f_name out = "IMG_0001.jpg" /\ f_type out = "image/jpeg".
Proof.
  apply (X11_name_and_type_kept Loopback.legacy (Loopback.photo Loopback.sample)
           noOptions).
  reflexivity.
Defined.

(** ** The fallback chain *)

Set Warnings "-clear-no-such-hyp".

(** X12: the tiers are tried strictly in order and the first success
    wins: tier [t] serves the output exactly when every earlier tier threw
    and tier [t] returned; the chain is exhausted exactly when all four
    threw, and the error it keeps is tier 1's. *)
Theorem X12_fallback_order
    {DataURL ExifBytes : Type} (px : Piexif DataURL ExifBytes) c a o st u0 :
  (forall t u,
     fallbackChain px c a o st u0 = Encoded t u <->
     match t with
     | Tier1 => encode px (tier1Exif st) u0 = inr u
     | Tier2 =>
         (exists e, encode px (tier1Exif st) u0 = inl e) /\
         encode px (minimalExif c a o st) u0 = inr u
     | Tier3 =>
         (exists e, encode px (tier1Exif st) u0 = inl e) /\
         (exists e, encode px (minimalExif c a o st) u0 = inl e) /\
         stripAndRebuild px (safeExif c a st) u0 = inr u
     | Tier4 =>
         (exists e, encode px (tier1Exif st) u0 = inl e) /\
         (exists e, encode px (minimalExif c a o st) u0 = inl e) /\
         (exists e, stripAndRebuild px (safeExif c a st) u0 = inl e) /\
         remove px u0 = inr u
     end) /\
  (forall e1,
     fallbackChain px c a o st u0 = Exhausted e1 <->
     encode px (tier1Exif st) u0 = inl e1 /\
     (exists e, encode px (minimalExif c a o st) u0 = inl e) /\
     (exists e, stripAndRebuild px (safeExif c a st) u0 = inl e) /\
     (exists e, remove px u0 = inl e)).
Proof.
  unfold fallbackChain.
  destruct (encode px (tier1Exif st) u0) as [e1|u1].
  2:{ split; [intros [] u|intros e]; naive_solver. }
  destruct (encode px (minimalExif c a o st) u0) as [e2|u2].
  2:{ split; [intros [] u|intros e]; naive_solver. }
  destruct (stripAndRebuild px (safeExif c a st) u0) as [e3|u3].
  2:{ split; [intros [] u|intros e]; naive_solver. }
  destruct (remove px u0) as [e4|u4].
  2:{ split; [intros [] u|intros e]; naive_solver. }
  split; [intros [] u|intros e]; naive_solver.
Qed.

(** ** Failure and report of the JPEG path *)

Lemma cleanedDateOf_inl_iff v :
  (exists e, cleanedDateOf v = inl e) <-> badDate v = true.
Proof.
  unfold cleanedDateOf. destruct (truthy v) eqn:E.
  - apply formatExifDate_inl_iff.
  - unfold badDate. rewrite E. split; [intros [e H]; discriminate H|discriminate].
Qed.

Section FailureFacts.
Context {DataURL ExifBytes : Type}.
Implicit Types (env : Env DataURL ExifBytes) (px : Piexif DataURL ExifBytes)
  (f : File DataURL) (r : Result DataURL).

Lemma addedFields_pushRemoved s r : addedFields (pushRemoved s r) = addedFields r.
Proof. reflexivity. Qed.

Lemma removeTag_added k note ifd r :
  addedFields (removeTag k note (ifd, r)).2 = addedFields r.
Proof. rewrite removeTag_eq. cbn [snd]. by destruct (isDefined _). Qed.

Lemma stripIfd0_added ifd r : addedFields (stripIfd0 (ifd, r)).2 = addedFields r.
Proof.
  unfold stripIfd0. rewrite !removeTag_eq. cbn [snd].
  repeat match goal with
  | |- context [if ?c then _ else _] => destruct c
  end; reflexivity.
Qed.

Lemma stripExifIfd_added ifd r : addedFields (stripExifIfd (ifd, r)).2 = addedFields r.
Proof.
  unfold stripExifIfd. rewrite !removeTag_eq. cbn [snd].
  repeat match goal with
  | |- context [if ?c then _ else _] => destruct c
  end; reflexivity.
Qed.

Lemma wipeGroup_added note ifd r : addedFields (wipeGroup note (ifd, r)).2 = addedFields r.
Proof. rewrite wipeGroup_snd. by destruct (nonEmpty ifd). Qed.

(** The two values the redaction hands to [formatExifDate] are the
    decoded ones. *)
Lemma redact_date_values c a (decoded : ExifObj) :
  get (strippedExifIfd (Exif decoded)) ExifIFD.DateTimeOriginal
  = get (Exif decoded) ExifIFD.DateTimeOriginal /\
  get (<[ImageIFD.Artist:=VStr a]>
         (<[ImageIFD.Copyright:=VStr c]> (strippedIfd0 (zeroth decoded))))
    ImageIFD.DateTime
  = get (zeroth decoded) ImageIFD.DateTime.
Proof. unfold get. split; tag_lookup; reflexivity. Qed.

(** How the redaction ends, and what it has pushed onto [addedFields] by
    then. *)
Lemma redact_end c a o decoded r :
  match cleanedDateOf (get (Exif decoded) ExifIFD.DateTimeOriginal) with
  | inl e => (redact c a o decoded r).2 = inl e
  | inr dto =>
      match cleanedDateOf (get (zeroth decoded) ImageIFD.DateTime) with
      | inl e => (redact c a o decoded r).2 = inl e
      | inr dt =>
          (exists st, (redact c a o decoded r).2 = inr st) /\
          addedFields (redact c a o decoded r).1
          = (addedFields r
             ++ ["Copyright: " +:+ c; "Artist: " +:+ a]
             ++ match dto with
                | Some x => ["DateTimeOriginal: " +:+ x]
                | None => []
                end
             ++ ["OffsetTimeOriginal: " +:+ o])%list
      end
  end.
Proof.
  destruct (redact_date_values c a decoded) as [E1 E2].
  unfold redact.
  pose proof (wipeGroup_added "GPS (entire block)" (GPS decoded) r) as A1.
  destruct (wipeGroup "GPS (entire block)" (GPS decoded, r)) as [gps r1].
  cbn [snd] in A1.
  pose proof (stripIfd0_added (zeroth decoded) r1) as A2.
  destruct (stripIfd0_eq (zeroth decoded) r1) as (r2 & E & _).
  rewrite E in A2 |- *. clear E. cbn [snd] in A2.
  pose proof (stripExifIfd_added (Exif decoded) r2) as A3.
  destruct (stripExifIfd_eq (Exif decoded) r2) as (r3 & E & _).
  rewrite E in A3 |- *. clear E. cbn [snd] in A3.
  pose proof (wipeGroup_added "Thumbnail" (first decoded) r3) as A4.
  destruct (wipeGroup "Thumbnail" (first decoded, r3)) as [fst' r4].
  cbn [snd] in A4.
  rewrite E1, E2.
  destruct (cleanedDateOf (get (Exif decoded) ExifIFD.DateTimeOriginal)) as [e|dto];
    [reflexivity|].
  destruct (cleanedDateOf (get (zeroth decoded) ImageIFD.DateTime)) as [e|dt].
  { destruct dto; reflexivity. }
  destruct dto; cbn [fst snd]; (split; [eexists; reflexivity|]);
    cbn [pushAdded addedFields]; rewrite A4, A3, A2, A1, <- ?app_assoc; reflexivity.
Qed.

Lemma redact_throws_iff c a o decoded r :
  (exists e, (redact c a o decoded r).2 = inl e) <->
  badDate (get (Exif decoded) ExifIFD.DateTimeOriginal) = true \/
  badDate (get (zeroth decoded) ImageIFD.DateTime) = true.
Proof.
  pose proof (redact_end c a o decoded r) as H.
  rewrite <- !cleanedDateOf_inl_iff.
  destruct (cleanedDateOf (get (Exif decoded) _)) as [e1|dto].
  { split; [intros _; left; eauto|intros _; eauto]. }
  destruct (cleanedDateOf (get (zeroth decoded) _)) as [e2|dt].
  { split; [intros _; right; eauto|intros _; eauto]. }
  destruct H as [[st Hst] _]. rewrite Hst.
  split; [intros [e He]; discriminate He|].
  intros [[e He]|[e He]]; discriminate He.
Qed.

End FailureFacts.

(** X13: once the JPEG has decoded, the only thing that makes the
    debug-logging routine fail is a DateTimeOriginal or DateTime value that
    is truthy but not a string, on which [formatExifDate] throws; in every
    other case, whatever the codec does afterwards, the result is flagged
    a success. *)
Theorem X13_jpeg_fails_only_on_non_string_date
    {DataURL ExifBytes : Type} (env : Env DataURL ExifBytes) f options px decoded :
  decodes env f px decoded ->
  (success (cleanupExifFromFile env f options) = false <->
   badDate (get (Exif decoded) ExifIFD.DateTimeOriginal) = true \/
   badDate (get (zeroth decoded) ImageIFD.DateTime) = true).
Proof.
  intros Hd.
  rewrite <- (redact_throws_iff (copyrightOf options) (artistOf options)
                (offsetTimeOf options) decoded (initialResult env f)).
  destruct (redact_frame (copyrightOf options) (artistOf options)
              (offsetTimeOf options) decoded (initialResult env f)) as [Hs _].
  destruct (redact (copyrightOf options) (artistOf options) (offsetTimeOf options)
              decoded (initialResult env f)) as [r' [e|st]] eqn:Hr;
    cbn [fst snd] in *.
  - rewrite (run_threw _ _ _ _ _ _ _ Hd Hr). cbn [withOriginal success].
    rewrite Hs. split; [intros _; eauto|reflexivity].
  - assert (Hok : success (cleanupExifFromFile env f options) = true).
    { destruct Hd as (Hh & Hj & Hp & Hl). unfold cleanupExifFromFile, tryBody.
      rewrite Hh, Hj, Hp. cbn beta iota zeta delta [negb]. rewrite Hl.
      unfold copyrightOf, artistOf, offsetTimeOf in Hr. rewrite Hr.
      destruct (fallbackChain _ _ _ _ _ _); reflexivity. }
    rewrite Hok. split; [discriminate|intros [e He]; discriminate He].
Qed.

Lemma X13_jpeg_fails_only_on_non_string_date_witness :
  success (cleanupExifFromFile Loopback.broken (Loopback.photo Loopback.sample) noOptions)
  = false <->
  badDate (get (Exif Loopback.sample) ExifIFD.DateTimeOriginal) = true \/
  badDate (get (zeroth Loopback.sample) ImageIFD.DateTime) = true.
Proof.
  apply (X13_jpeg_fails_only_on_non_string_date Loopback.broken
           (Loopback.photo Loopback.sample) noOptions
           (Loopback.piexif (fun _ => false) false) Loopback.sample).
  repeat split.
Defined.

(** X14: what the routine pushes onto [addedFields] when the redaction
    of a decoded JPEG runs through: the Copyright and Artist entries, the
    DateTimeOriginal entry when that value was rewritten, and the
    OffsetTimeOriginal entry, in this order and nothing else (the rewrite of
    the Primary DateTime and the other two offset tags are not reported). *)
Theorem X14_added_fields_of_a_redaction
    {DataURL ExifBytes : Type} (env : Env DataURL ExifBytes) f options px
    decoded st :
  decodes env f px decoded ->
  redacts env f options decoded st ->
  exists dto,
    cleanedDateOf (get (Exif decoded) ExifIFD.DateTimeOriginal) = inr dto /\
    addedFields (cleanupExifFromFile env f options)
    = (["Copyright: " +:+ copyrightOf options; "Artist: " +:+ artistOf options]
       ++ match dto with
          | Some x => ["DateTimeOriginal: " +:+ x]
          | None => []
          end
       ++ ["OffsetTimeOriginal: " +:+ offsetTimeOf options])%list.
Proof.
  intros Hd [result Hr].
  pose proof (redact_end (copyrightOf options) (artistOf options)
                (offsetTimeOf options) decoded (initialResult env f)) as He.
  rewrite Hr in He. cbn [fst snd] in He.
  destruct (cleanedDateOf (get (Exif decoded) _)) as [e|dto]; [discriminate He|].
  destruct (cleanedDateOf (get (zeroth decoded) _)) as [e|dt]; [discriminate He|].
  destruct He as [_ Ha]. exists dto. split; [reflexivity|].
  etransitivity; [|exact Ha].
  destruct Hd as (Hh & Hj & Hp & Hl). unfold cleanupExifFromFile, tryBody.
  rewrite Hh, Hj, Hp. cbn beta iota zeta delta [negb]. rewrite Hl.
  unfold copyrightOf, artistOf, offsetTimeOf in Hr. rewrite Hr.
  destruct (fallbackChain _ _ _ _ _ _) as [[] u|e]; reflexivity.
Qed.

Lemma X14_added_fields_of_a_redaction_witness :
  exists dto,
    cleanedDateOf (get (Exif Loopback.sample) ExifIFD.DateTimeOriginal) = inr dto /\
    addedFields (cleanupExifFromFile Loopback.legacy (Loopback.photo Loopback.sample)
                   noOptions)
    = (["Copyright: " +:+ copyrightOf noOptions; "Artist: " +:+ artistOf noOptions]
       ++ match dto with
          | Some x => ["DateTimeOriginal: " +:+ x]
          | None => []
          end
       ++ ["OffsetTimeOriginal: " +:+ offsetTimeOf noOptions])%list.
Proof.
  apply (X14_added_fields_of_a_redaction Loopback.legacy
           (Loopback.photo Loopback.sample) noOptions
           (Loopback.piexif Loopback.knowsNoOffsetTime true) Loopback.sample
           (redactedBy Loopback.legacy (Loopback.photo Loopback.sample) noOptions
              Loopback.sample)).
  - repeat split.
  - eexists. vm_compute. reflexivity.
Defined.

(** ** Tags that pass through *)

Lemma cleanExifIfd_keeps_valid (ifd : Ifd) pk k v :
  ifd !! k = Some v -> skipValue v = false -> cleanExifIfd ifd pk !! k = Some v.
Proof.
  intros Hl Hs. apply cleanExifIfd_lookup. split; [exact Hl|].
  unfold keepEntry. cbn. case_bool_decide.
  - by apply skipValue_notNullish.
  - by rewrite Hs.
Qed.

Lemma redactedExifIfd_lookup o dto (ifd : Ifd) k :
  k ∉ [ExifIFD.MakerNote; ExifIFD.UserComment; ExifIFD.ImageUniqueID;
       ExifIFD.CameraOwnerName; ExifIFD.BodySerialNumber; ExifIFD.LensMake;
       ExifIFD.LensModel; ExifIFD.LensSerialNumber;
       ExifIFD.DateTimeOriginal; 36880; 36881; 36882] ->
  redactedExifIfd o dto ifd !! k = ifd !! k.
Proof.
  intros Hk. rewrite !not_elem_of_cons in Hk.
  destruct Hk as (?&?&?&?&?&?&?&?&?&?&?&?&_).
  unfold redactedExifIfd.
  rewrite !lookup_insert_ne, setDate_lookup_ne, strippedExifIfd_lookup;
    [reflexivity|..]; try congruence.
  rewrite !not_elem_of_cons. repeat split; try assumption. apply not_elem_of_nil.
Qed.

(** X15: in an output served by tier 1, every tag the routine does not
    handle passes through unchanged when its value is valid: any Primary
    tag other than the four device tags, Copyright, Artist and DateTime;
    any Exif tag other than the eight private tags, DateTimeOriginal and
    the three offset-time tags; and every Interop tag. *)
Theorem X15_tier1_passes_other_tags_through
    {DataURL ExifBytes : Type} (env : Env DataURL ExifBytes) f options px
    decoded st u :
  Faithful px ->
  decodes env f px decoded ->
  redacts env f options decoded st ->
  servedBy px options st (f_data f) u Tier1 ->
  exists d',
    outputExif px (cleanupExifFromFile env f options) = Some d' /\
    (forall k v,
       k ∉ [ImageIFD.Make; ImageIFD.Model; ImageIFD.Software; 316;
            ImageIFD.Copyright; ImageIFD.Artist; ImageIFD.DateTime] ->
       zeroth decoded !! k = Some v -> skipValue v = false ->
       zeroth d' !! k = Some v) /\
    (forall k v,
       k ∉ [ExifIFD.MakerNote; ExifIFD.UserComment; ExifIFD.ImageUniqueID;
            ExifIFD.CameraOwnerName; ExifIFD.BodySerialNumber; ExifIFD.LensMake;
            ExifIFD.LensModel; ExifIFD.LensSerialNumber;
            ExifIFD.DateTimeOriginal; 36880; 36881; 36882] ->
       Exif decoded !! k = Some v -> skipValue v = false ->
       Exif d' !! k = Some v) /\
    (forall k v,
       Interop decoded !! k = Some v -> skipValue v = false ->
       Interop d' !! k = Some v).
Proof.
  intros Hf Hd Hr Hs.
  destruct (served_output _ _ _ _ _ _ _ _ Hf Hd Hr Hs)
    as (_ & d' & Ho & Hz & He & _ & _ & Hi).
  exists d'. split; [exact Ho|]. rewrite Hz, He, Hi. clear Hz He Hi Ho.
  destruct Hr as [result Hr]. apply redact_inv in Hr.
  destruct Hr as (dto & dt & _ & _ & Hi0 & Hx0 & Hoo & Hz0 & He0 & _ & _ & Hn0 & _).
  cbn [tierExif]. unfold tier1Exif. cbn [zeroth Exif Interop].
  split; [|split]; intros k v Hk Hl; [intros Hv| intros Hv |].
  - destruct (decide (k = ImageIFD.Orientation)) as [->|Hne].
    + rewrite (get_lookup _ _ _ Hl) in Hoo. rewrite Hoo.
      apply setIfNotNullish_lookup_eq. by apply skipValue_notNullish.
    + rewrite setIfNotNullish_lookup_ne by congruence.
      apply cleanExifIfd_keeps_valid; [|exact Hv].
      rewrite Hz0, Hi0, redactedIfd0_lookup by exact Hk. exact Hl.
  - apply cleanExifIfd_keeps_valid; [|exact Hv].
    rewrite He0, Hx0, redactedExifIfd_lookup by exact Hk. exact Hl.
  - apply cleanExifIfd_keeps_valid; [|exact Hl]. rewrite Hn0. exact Hk.
Qed.

Lemma X15_tier1_passes_other_tags_through_witness :
  exists d',
    outputExif (Loopback.piexif (fun _ => true) true)
      (cleanupExifFromFile Loopback.accepting (Loopback.photo Loopback.sample) noOptions)
    = Some d' /\
    zeroth d' !! ImageIFD.Orientation = Some (VNum (Fin 6)).
Proof.
  destruct (X15_tier1_passes_other_tags_through Loopback.accepting
              (Loopback.photo Loopback.sample) noOptions
              (Loopback.piexif (fun _ => true) true) Loopback.sample
              (redactedBy Loopback.accepting (Loopback.photo Loopback.sample)
                 noOptions Loopback.sample)
              {| Loopback.segment :=
                   Loopback.Tags
                     (tier1Exif
                        (redactedBy Loopback.accepting (Loopback.photo Loopback.sample)
                           noOptions Loopback.sample));
                 Loopback.pixels := 1000 |})
    as (d' & Ho & H0 & _).
  - apply loopback_faithful.
  - repeat split.
  - eexists. vm_compute. reflexivity.
  - vm_compute. reflexivity.
  - exists d'. split; [exact Ho|].
    apply (H0 ImageIFD.Orientation (VNum (Fin 6))); [tag_notin|reflexivity|reflexivity].
Defined.

(** ** What the rebuilt documents can hold *)

(** A key outside the allow-list [Hn] cannot be looked up ([Hv]) in a
    directory built by conditional and unconditional assignments. *)
Ltac outside_allow_list Hv Hn :=
  rewrite elem_of_list_to_set, !not_elem_of_cons in Hn;
  repeat match type of Hn with
         | _ /\ _ => let H := fresh in destruct Hn as [H Hn]
         end;
  repeat first
    [ rewrite setIfTruthy_lookup_ne in Hv by congruence
    | rewrite setIfDefined_lookup_ne in Hv by congruence
    | rewrite setIfNotNullish_lookup_ne in Hv by congruence
    | rewrite lookup_insert_ne in Hv by congruence ];
  rewrite lookup_empty in Hv; discriminate Hv.

(** X16: the documents tiers 2 and 3 build from scratch hold tags from a
    fixed allow-list only, whatever the input carried: tier 2 the five
    display tags, Copyright, Artist and DateTime in the Primary group and
    colour space, pixel dimensions, DateTimeOriginal and the offset-time
    tags in the Exif group; tier 3 Copyright, Artist and Orientation; the
    GPS, thumbnail and Interop groups of both are empty. *)
Theorem X16_rebuilt_documents_hold_allowed_tags_only c a o (st : Redacted) :
  dom (zeroth (minimalExif c a o st))
  ⊆ list_to_set [ImageIFD.Orientation; ImageIFD.XResolution; ImageIFD.YResolution;
                 ImageIFD.ResolutionUnit; ImageIFD.YCbCrPositioning;
                 ImageIFD.Copyright; ImageIFD.Artist; ImageIFD.DateTime] /\
  dom (Exif (minimalExif c a o st))
  ⊆ list_to_set [ExifIFD.ColorSpace; ExifIFD.PixelXDimension;
                 ExifIFD.PixelYDimension; ExifIFD.DateTimeOriginal;
                 36880; 36881; 36882] /\
  GPS (minimalExif c a o st) = ∅ /\ first (minimalExif c a o st) = ∅ /\
  Interop (minimalExif c a o st) = ∅ /\
  dom (zeroth (safeExif c a st))
  ⊆ list_to_set [ImageIFD.Copyright; ImageIFD.Artist; ImageIFD.Orientation] /\
  Exif (safeExif c a st) = ∅ /\ GPS (safeExif c a st) = ∅ /\
  first (safeExif c a st) = ∅ /\ Interop (safeExif c a st) = ∅.
Proof.
  unfold minimalExif, safeExif. cbn [zeroth Exif GPS first Interop].
  repeat split; intros k Hk; apply elem_of_dom in Hk; destruct Hk as [v Hv];
    match goal with |- k ∈ ?l => destruct (decide (k ∈ l)) as [Hin|Hn] end;
    try exact Hin; exfalso; outside_allow_list Hv Hn.
Qed.

(** X17: no cleaned output carries a thumbnail: whichever tier serves it,
    the output decodes to an empty thumbnail (1st) group, and the document
    that tier encodes has no [thumbnail] data. *)
Theorem X17_no_thumbnail_in_any_output
    {DataURL ExifBytes : Type} (env : Env DataURL ExifBytes) f options px
    decoded st u t :
  Faithful px ->
  decodes env f px decoded ->
  redacts env f options decoded st ->
  servedBy px options st (f_data f) u t ->
  truthy (thumbnail (tierExif (copyrightOf options) (artistOf options)
                       (offsetTimeOf options) st t)) = false /\
  exists d',
    outputExif px (cleanupExifFromFile env f options) = Some d' /\ first d' = ∅.
Proof.
  intros Hf Hd Hr Hs.
  destruct (served_output _ _ _ _ _ _ _ _ Hf Hd Hr Hs)
    as (_ & d' & Ho & _ & _ & _ & H1 & _).
  destruct Hr as [result Hr]. apply redact_inv in Hr.
  destruct Hr as (dto & dt & _ & _ & _ & _ & _ & _ & _ & _ & Hfst & _ & Hth).
  split.
  - destruct t; cbn [tierExif]; try reflexivity.
    unfold tier1Exif. cbn [thumbnail]. rewrite Hth.
    destruct (truthy (thumbnail decoded)) eqn:E; [reflexivity|exact E].
  - exists d'. split; [exact Ho|]. rewrite H1.
    destruct t; cbn [tierExif]; try reflexivity.
    unfold tier1Exif. cbn [first]. rewrite Hfst. apply cleanExifIfd_empty.
Qed.

Lemma X17_no_thumbnail_in_any_output_witness :
  exists d',
    outputExif (Loopback.piexif (fun _ => true) true)
      (cleanupExifFromFile Loopback.accepting (Loopback.photo Loopback.sample) noOptions)
    = Some d' /\ first d' = ∅.
Proof.
  apply (X17_no_thumbnail_in_any_output Loopback.accepting
           (Loopback.photo Loopback.sample) noOptions
           (Loopback.piexif (fun _ => true) true) Loopback.sample
           (redactedBy Loopback.accepting (Loopback.photo Loopback.sample)
              noOptions Loopback.sample)
           {| Loopback.segment :=
                Loopback.Tags
                  (tier1Exif
                     (redactedBy Loopback.accepting (Loopback.photo Loopback.sample)
                        noOptions Loopback.sample));
              Loopback.pixels := 1000 |}
           Tier1).
  - apply loopback_faithful.
  - repeat split.
  - eexists. vm_compute. reflexivity.
  - vm_compute. reflexivity.
Defined.

(** ** More on the batch *)

Lemma filter_success_partition {DataURL : Type} (l : list (Result DataURL)) :
  (length (List.filter success l)
   + length (List.filter (fun r => negb (success r)) l))%nat = length l.
Proof.
  induction l as [|r l IH]; [reflexivity|].
  cbn [List.filter]. destruct (success r); cbn [negb length]; lia.
Qed.

Lemma sumN_app l1 l2 : sumN (l1 ++ l2) = sumN l1 + sumN l2.
Proof.
  induction l1 as [|x l1 IH]; cbn [app sumN foldr]; [reflexivity|].
  fold (sumN (l1 ++ l2)). fold (sumN l1). lia.
Qed.

Lemma originalSize_is_input_size
    {DataURL ExifBytes : Type} (env : Env DataURL ExifBytes) f options :
  originalSize (cleanupExifFromFile env f options) = size_of env f.
Proof.
  unfold cleanupExifFromFile.
  destruct (tryBody_flag env f options
              (default DEFAULT_COPYRIGHT_INFO_copyright (copyright options))
              (default DEFAULT_COPYRIGHT_INFO_artist (artist options))
              (default DEFAULT_OFFSET_TIME (offsetTime options))) as [Ho _].
  destruct (tryBody _ _ _ _ _ _ _) as [r [e|]]; exact Ho.
Qed.

Lemma concat_imap_singletons {A B : Type} (h : A -> B) (l : list A) :
  forall g : nat -> A -> list B,
    (forall j x, g j x = [h x]) -> concat (imap g l) = map h l.
Proof.
  induction l as [|x l IH]; intros g Hg; [reflexivity|].
  rewrite imap_cons, concat_cons, Hg. cbn [app map]. f_equal.
  apply IH. intros j y. apply Hg.
Qed.

(** X18: every file of a batch is counted exactly once: [success] plus
    [failed] is the number of files, there is one result per file,
    [totalOriginalSize] is the sum of the input sizes; and when no
    callback is passed, nothing is called between the files. *)
Theorem X18_batch_counts_every_file
    {DataURL ExifBytes : Type} (env : Env DataURL ExifBytes)
    (files : list (File DataURL)) options onProgress :
  batch_success (cleanupExifBatch env files options onProgress).1
  + batch_failed (cleanupExifBatch env files options onProgress).1
  = N.of_nat (length files) /\
  length (results (cleanupExifBatch env files options onProgress).1) = length files /\
  totalOriginalSize (cleanupExifBatch env files options onProgress).1
  = sumN (map (size_of env) files) /\
  (cleanupExifBatch env files options false).2 = map Processed files.
Proof.
  unfold cleanupExifBatch.
  destruct (batchLoop_spec env options onProgress (length files) files 0
              {| results := []; batch_success := 0; batch_failed := 0;
                 totalOriginalSize := 0; totalCleanedSize := 0 |} [])
    as (H1 & H2 & H3 & H4 & _ & _).
  destruct (batchLoop_spec env options false (length files) files 0
              {| results := []; batch_success := 0; batch_failed := 0;
                 totalOriginalSize := 0; totalCleanedSize := 0 |} [])
    as (_ & _ & _ & _ & _ & H6).
  cbn [results batch_success batch_failed totalOriginalSize] in *.
  rewrite H1, H2, H3, H4, H6. cbn [app]. rewrite !N.add_0_l.
  repeat split.
  - rewrite <- Nat2N.inj_add, filter_success_partition, length_map. reflexivity.
  - apply length_map.
  - rewrite map_map. f_equal. apply map_ext. intros f.
    apply originalSize_is_input_size.
  - apply concat_imap_singletons. intros j x. reflexivity.
Qed.

(** X19: a batch over a concatenation is the two batches put together:
    the results are the results of the first list followed by those of the
    second, and the four counters are the sums of the two batches'
    counters. *)
Theorem X19_batch_of_concatenation
    {DataURL ExifBytes : Type} (env : Env DataURL ExifBytes)
    (l1 l2 : list (File DataURL)) options onProgress :
  let b := (cleanupExifBatch env (l1 ++ l2) options onProgress).1 in
  let b1 := (cleanupExifBatch env l1 options onProgress).1 in
  let b2 := (cleanupExifBatch env l2 options onProgress).1 in
  results b = (results b1 ++ results b2)%list /\
  batch_success b = batch_success b1 + batch_success b2 /\
  batch_failed b = batch_failed b1 + batch_failed b2 /\
  totalOriginalSize b = totalOriginalSize b1 + totalOriginalSize b2 /\
  totalCleanedSize b = totalCleanedSize b1 + totalCleanedSize b2.
Proof.
  intros b b1 b2. subst b b1 b2. unfold cleanupExifBatch.
  pose proof (fun l => batchLoop_spec env options onProgress (length l) l 0
                {| results := []; batch_success := 0; batch_failed := 0;
                   totalOriginalSize := 0; totalCleanedSize := 0 |} []) as H.
  destruct (H (l1 ++ l2)%list) as (A1 & A2 & A3 & A4 & A5 & _).
  destruct (H l1) as (B1 & B2 & B3 & B4 & B5 & _).
  destruct (H l2) as (C1 & C2 & C3 & C4 & C5 & _).
  cbn [results batch_success batch_failed totalOriginalSize totalCleanedSize] in *.
  rewrite A1, A2, A3, A4, A5, B1, B2, B3, B4, B5, C1, C2, C3, C4, C5.
  cbn [app]. rewrite !N.add_0_l, !map_app, !List.filter_app, !length_app, !sumN_app.
  repeat split; lia.
Qed.

(** ** Format detection and the converted file's name *)

Lemma lowerChar_idempotent c : lowerChar (lowerChar c) = lowerChar c.
Proof. destruct c as [[] [] [] [] [] [] [] []]; reflexivity. Qed.

Lemma toLowerCase_idempotent s : toLowerCase (toLowerCase s) = toLowerCase s.
Proof.
  induction s as [|c s IH]; [reflexivity|].
  cbn [toLowerCase]. by rewrite lowerChar_idempotent, IH.
Qed.

(** X20: HEIC/HEIF detection does not depend on letter case: lower-casing
    the name and the declared type of a file does not change the answer of
    [isHeicFormat]. *)
Theorem X20_isHeicFormat_ignores_case {DataURL : Type} (f : File DataURL) :
  isHeicFormat {| f_name := toLowerCase (f_name f);
                  f_type := toLowerCase (f_type f);
                  f_data := f_data f |}
  = isHeicFormat f.
Proof.
  unfold isHeicFormat. cbn [f_name f_type]. by rewrite !toLowerCase_idempotent.
Qed.

Lemma toLowerCase_length s : String.length (toLowerCase s) = String.length s.
Proof. induction s as [|c s IH]; [reflexivity|]. cbn. by rewrite IH. Qed.

Lemma substring_toLowerCase s : forall n m,
  substring n m (toLowerCase s) = toLowerCase (substring n m s).
Proof.
  induction s as [|c s IH]; intros [|n] [|m]; cbn; try reflexivity.
  - by rewrite IH.
  - apply IH.
  - apply IH.
Qed.

Lemma substring_full s : substring 0 (String.length s) s = s.
Proof. induction s as [|c s IH]; [reflexivity|]. cbn. by rewrite IH. Qed.

Lemma substring_split s : forall k,
  (k <= String.length s)%nat ->
  s = substring 0 k s +:+ substring k (String.length s - k) s.
Proof.
  induction s as [|c s IH]; intros [|k] Hk.
  - reflexivity.
  - cbn in Hk. lia.
  - rewrite Nat.sub_0_r, substring_full. reflexivity.
  - cbn in Hk.
    change (String c s = String c (substring 0 k s +:+ substring k (String.length s - k) s)).
    f_equal. apply IH. lia.
Qed.

Lemma endsWith_true s suffix :
  endsWith s suffix = true ->
  (String.length suffix <= String.length s)%nat /\
  substring (String.length s - String.length suffix) (String.length suffix) s = suffix.
Proof.
  unfold endsWith. intros H. apply andb_prop in H. destruct H as [H1 H2].
  apply Nat.leb_le in H1. apply String.eqb_eq in H2. by split.
Qed.

(** X21: [replaceHeicSuffix] touches the last five characters only: when
    the name ends in [.heic] or [.heif] in any letter case, the result is
    the rest of the name, unchanged, followed by [".jpg"]; any other name
    is returned as it is. *)
Theorem X21_replaceHeicSuffix_swaps_the_suffix name :
  if endsWith (toLowerCase name) ".heic" || endsWith (toLowerCase name) ".heif"
  then exists stem suffix,
         name = stem +:+ suffix /\ String.length suffix = 5%nat /\
         (toLowerCase suffix = ".heic" \/ toLowerCase suffix = ".heif") /\
         replaceHeicSuffix name = stem +:+ ".jpg"
  else replaceHeicSuffix name = name.
Proof.
  unfold replaceHeicSuffix.
  destruct (endsWith (toLowerCase name) ".heic" || endsWith (toLowerCase name) ".heif")
    eqn:E; [|reflexivity].
  exists (substring 0 (String.length name - 5) name),
         (substring (String.length name - 5) 5 name).
  assert (H5 : (5 <= String.length name)%nat /\
               (substring (String.length name - 5) 5 (toLowerCase name) = ".heic" \/
                substring (String.length name - 5) 5 (toLowerCase name) = ".heif")).
  { apply orb_prop in E. destruct E as [E|E]; apply endsWith_true in E;
      rewrite toLowerCase_length in E; cbn [String.length] in E;
      destruct E as [E1 E2]; (split; [exact E1|]); [left|right]; exact E2. }
  destruct H5 as [Hlen Hsuf]. rewrite substring_toLowerCase in Hsuf.
  assert (Hs5 : String.length (substring (String.length name - 5) 5 name) = 5%nat).
  { rewrite <- toLowerCase_length. destruct Hsuf as [-> | ->]; reflexivity. }
  split; [|split; [exact Hs5|split; [exact Hsuf|reflexivity]]].
  rewrite (substring_split name (String.length name - 5)) at 1 by lia.
  f_equal. f_equal. lia.
Qed.

(** ** The plain variant's failure *)

(** X22: the plain single-pass variant has no fallback: when its one
    encode of the redacted document throws, the result is a failure that
    carries the input file, its size and the error's text. *)
Theorem X22_plain_encode_failure_returns_original
    {DataURL ExifBytes : Type} (env : Env DataURL ExifBytes) f options px
    decoded result doc e :
  decodes env f px decoded ->
  Plain.redact (default Plain.DEFAULT_COPYRIGHT_INFO_copyright (copyright options))
    (artistOf options) (offsetTimeOf options) decoded (initialResult env f)
  = (result, inr doc) ->
  encode px doc (f_data f) = inl e ->
  success (Plain.cleanupExifFromFile env f options) = false /\
  file (Plain.cleanupExifFromFile env f options) = Some f /\
  blob (Plain.cleanupExifFromFile env f options) = Some (f_data f) /\
  cleanedSize (Plain.cleanupExifFromFile env f options) = size_of env f /\
  error (Plain.cleanupExifFromFile env f options) = Some (errorText e).
Proof.
  intros (Hh & Hj & Hp & Hl) Hr He.
  assert (Hs : success result = false).
  { pose proof (plain_redact_eq
                  (default Plain.DEFAULT_COPYRIGHT_INFO_copyright (copyright options))
                  (artistOf options) (offsetTimeOf options) decoded
                  (initialResult env f)) as Hq.
    rewrite Hr in Hq. apply (f_equal fst) in Hq. cbn [fst] in Hq. rewrite Hq.
    apply redact_frame. }
  unfold Plain.cleanupExifFromFile, Plain.tryBody.
  rewrite Hh, Hj, Hp. cbn beta iota zeta delta [negb]. rewrite Hl.
  unfold artistOf, offsetTimeOf in Hr. rewrite Hr, He.
  cbn [withOriginal success file blob cleanedSize error]. rewrite Hs.
  repeat split.
Qed.

Lemma X22_plain_encode_failure_returns_original_witness :
  success (Plain.cleanupExifFromFile Loopback.rejecting
             (Loopback.photo Loopback.sample) Loopback.signed) = false /\
  file (Plain.cleanupExifFromFile Loopback.rejecting
          (Loopback.photo Loopback.sample) Loopback.signed)
  = Some (Loopback.photo Loopback.sample) /\
  blob (Plain.cleanupExifFromFile Loopback.rejecting
          (Loopback.photo Loopback.sample) Loopback.signed)
  = Some (f_data (Loopback.photo Loopback.sample)) /\
  cleanedSize (Plain.cleanupExifFromFile Loopback.rejecting
                 (Loopback.photo Loopback.sample) Loopback.signed)
  = size_of Loopback.rejecting (Loopback.photo Loopback.sample) /\
  error (Plain.cleanupExifFromFile Loopback.rejecting
           (Loopback.photo Loopback.sample) Loopback.signed)
  = Some (errorText (JsError "'pack' error. Got invalid type argument.")).
Proof.
  eapply (X22_plain_encode_failure_returns_original Loopback.rejecting
            (Loopback.photo Loopback.sample) Loopback.signed
            (Loopback.piexif (fun _ => false) true) Loopback.sample).
  - repeat split.
  - vm_compute. reflexivity.
  - vm_compute. reflexivity.
Defined.

(** ** Blobs *)

Section BlobFacts.
Context {DataURL ExifBytes : Type}.
Implicit Types (env : Env DataURL ExifBytes) (f : File DataURL).

(** The name of the file a normal return of the [try] body sets. *)
Lemma tryBody_file_name env f options c a o :
  match tryBody env f options c a o (initialResult env f) with
  | (r, None) =>
      exists out, file r = Some out /\
                  (f_name out = f_name f \/ f_name out = replaceHeicSuffix (f_name f))
  | (r, Some _) => True
  end.
Proof.
  unfold tryBody.
  destruct (isHeicFormat f).
  { destruct (convertHeicToJpeg env f _); [exact I|].
    destruct (loadPiexif env); [exact I|].
    destruct (encode _ _ _); [exact I|].
    eexists. split; [reflexivity|]. right. reflexivity. }
  destruct (isJpegFormat f); cbn beta iota zeta delta [negb];
    [|exists f; split; [reflexivity|by left]].
  destruct (loadPiexif env) as [|px]; [exact I|].
  destruct (load px (f_data f)) as [|decoded]; [exists f; split; [reflexivity|by left]|].
  destruct (redact c a o decoded (initialResult env f)) as [r' [e|st]]; [exact I|].
  destruct (fallbackChain _ _ _ _ _ _) as [t u|e].
  - eexists. split; [reflexivity|]. left. reflexivity.
  - exists f. split; [reflexivity|by left].
Qed.

End BlobFacts.

(** X23: the file in the result of [cleanupExifFromBlob] is always named
    ["image.jpg"], on every path, the HEIC conversion included; and a blob
    without a declared type is handled as a JPEG, never skipped as an
    unsupported format. *)
Theorem X23_blob_result_is_named_image_jpg
    {DataURL ExifBytes : Type} (env : Env DataURL ExifBytes)
    (blob : Blob DataURL) options :
  (exists out,
     file (cleanupExifFromBlob env blob options) = Some out /\
     f_name out = "image.jpg") /\
  (b_type blob = "" ->
   cleanupExifFromBlob env blob options
   = cleanupExifFromFile env
       {| f_name := "image.jpg"; f_type := "image/jpeg"; f_data := b_data blob |}
       options /\
   isJpegFormat {| f_name := "image.jpg"; f_type := "image/jpeg";
                   f_data := b_data blob |} = true).
Proof.
  split.
  - unfold cleanupExifFromBlob, cleanupExifFromFile.
    set (f := {| f_name := "image.jpg"; f_type := _; f_data := b_data blob |}).
    set (c := default _ (copyright options)).
    set (a := default _ (artist options)).
    set (o := default _ (offsetTime options)).
    pose proof (tryBody_file_name env f options c a o) as Hr.
    destruct (tryBody env f options c a o (initialResult env f)) as [r [e|]].
    + exists f. split; reflexivity.
    + destruct Hr as (out & H1 & [H2|H2]); exists out; (split; [exact H1|]);
        rewrite H2; reflexivity.
  - intros Ht. unfold cleanupExifFromBlob. rewrite Ht. split; reflexivity.
Qed.

(** X24: for a JPEG whose redaction ran through, the [error] field tells
    whether the returned file was cleaned: it is [null] exactly when one
    of the four tiers served the output, and set (on a result that is
    still flagged a success) when all of them threw and the original file
    came back. *)
Theorem X24_error_is_null_iff_a_tier_served
    {DataURL ExifBytes : Type} (env : Env DataURL ExifBytes) f options px
    decoded st :
  decodes env f px decoded ->
  redacts env f options decoded st ->
  success (cleanupExifFromFile env f options) = true /\
  (error (cleanupExifFromFile env f options) = None <->
   exists t u, servedBy px options st (f_data f) u t).
Proof.
  intros Hd [result Hr].
  assert (He : error result = None).
  { destruct (redact_report (copyrightOf options) (artistOf options)
                (offsetTimeOf options) decoded (initialResult env f))
      as (_ & _ & _ & _ & _ & He & _).
    rewrite Hr in He. cbn [fst] in He. rewrite He. destruct (nonEmpty _); reflexivity. }
  unfold servedBy.
  destruct (fallbackChain px (copyrightOf options) (artistOf options)
              (offsetTimeOf options) st (f_data f)) as [t u|e] eqn:Hc.
  - rewrite (run_served _ _ _ _ _ _ _ _ _ Hd Hr Hc). split; [reflexivity|].
    split; [intros _; eauto|intros _].
    cbn [withCleaned error]. destruct t; exact He.
  - destruct Hd as (Hh & Hj & Hp & Hl). unfold cleanupExifFromFile, tryBody.
    rewrite Hh, Hj, Hp. cbn beta iota zeta delta [negb]. rewrite Hl.
    unfold copyrightOf, artistOf, offsetTimeOf in Hr, Hc. rewrite Hr, Hc.
    split; [reflexivity|]. cbn [withOriginal error].
    split; [discriminate|intros (t & u & H); discriminate H].
Qed.

Lemma X24_error_is_null_iff_a_tier_served_witness :
  success (cleanupExifFromFile Loopback.broken (Loopback.photo Loopback.sample) noOptions)
  = true /\
  (error (cleanupExifFromFile Loopback.broken (Loopback.photo Loopback.sample) noOptions)
   = None <->
   exists t u,
     servedBy (Loopback.piexif (fun _ => false) false) noOptions
       (redactedBy Loopback.broken (Loopback.photo Loopback.sample) noOptions
          Loopback.sample)
       (f_data (Loopback.photo Loopback.sample)) u t).
Proof.
  apply (X24_error_is_null_iff_a_tier_served Loopback.broken
           (Loopback.photo Loopback.sample) noOptions
           (Loopback.piexif (fun _ => false) false) Loopback.sample).
  - repeat split.
  - eexists. vm_compute. reflexivity.
Defined.
